(** * xclim_indices: the climate-index pipeline of [indices_example.py]

    The script is glue code: it asks the user for an input folder and an
    output file, loads and resamples a multi-file dataset, calls a fixed
    sequence of indicator functions of an external library, stores every
    result in one output dataset and writes that dataset to disk.

    The embedding follows the script statement by statement in a small
    state-and-error monad.  Everything the script does not implement itself
    (the dialogs of [utils], xarray, xclim, the netCDF writer) is a field of
    the records [User] and [Extern]; the array payload [Data] is a type
    variable, because the script never looks inside an array. *)

From Stdlib Require Import ZArith Ascii String List Permutation.
From stdpp Require Import gmap strings list fin_maps.
Import ListNotations.

Local Open Scope string_scope.
Local Open Scope list_scope.

(** ** Python values the script handles *)

(** A raised exception: its class and its message. *)
Record Exn := mkExn { exn_class : string; exn_msg : string }.

Definition Exception (msg : string) : Exn := mkExn "Exception" msg.
Definition AttributeError (msg : string) : Exn := mkExn "AttributeError" msg.
Definition UnboundLocalError (msg : string) : Exn := mkExn "UnboundLocalError" msg.

(** The result of a call: a value, or a raised exception. *)
Inductive Exc (A : Type) : Type :=
| Ok (a : A)
| Err (e : Exn).
Arguments Ok {A} a.
Arguments Err {A} e.

(** Keyword-argument values: the script passes strings and integers. *)
Inductive Kw := KStr (s : string) | KInt (z : Z).

Definition Kwargs := list (string * Kw).

(** A warning issued through Python's [warnings] module. *)
Record Warning := mkWarning { w_category : string; w_message : string }.

(** What a warnings filter does with a warning it applies to.  [ActShow]
    stands for the actions that print ("default", "always", "module",
    "once"). *)
Inductive Action := ActIgnore | ActError | ActShow.

Record Filter := mkFilter { f_action : Action; f_applies : Warning -> bool }.

(** A call of external code returns its result together with the warnings it
    issued on the way. *)
Definition Warned (A : Type) : Type := (list Warning * A)%type.

(** File contents, and the per-variable encoding settings the writer takes. *)
Definition File := list Byte.byte.
Definition Encodings := list (string * list (string * Z)).

(** ** Truthiness and paths *)

(** [not x] for a value that is [None] or a [str]: a dialog answer. *)
Definition truthy (x : option string) : bool :=
  match x with
  | Some s => negb (String.eqb s "")
  | None => false
  end.

(** The components of a path, split at every "/". *)
Fixpoint components (s : string) : list string :=
  match s with
  | EmptyString => [EmptyString]
  | String c s' =>
      if Ascii.eqb c "/"%char then EmptyString :: components s'
      else match components s' with
           | h :: t => String c h :: t
           | [] => [String c EmptyString]
           end
  end.

Fixpoint forallb2 {A B} (f : A -> B -> bool) (l : list A) (l' : list B) : bool :=
  match l, l' with
  | [], [] => true
  | a :: l, b :: l' => f a b && forallb2 f l l'
  | _, _ => false
  end.

(** [glob.glob] without [recursive=True]: a pattern matches a path component
    by component, no wildcard ever matches a separator.  How one component
    matches one name is left to [fnmatch]. *)
Definition glob_match (fnmatch : string -> string -> bool) (pat path : string) : bool :=
  forallb2 fnmatch (components pat) (components path).

Definition ends_with_sep (s : string) : bool :=
  match rev (list_ascii_of_string s) with
  | c :: _ => Ascii.eqb c "/"%char
  | [] => false
  end.

(** The path of the entry [name] of the folder [fldr]. *)
Definition child_path (fldr name : string) : string :=
  if ends_with_sep fldr then (fldr ++ name)%string
  else (fldr ++ "/" ++ name)%string.

(** The name contains a separator. *)
Fixpoint has_sep (s : string) : bool :=
  match s with
  | EmptyString => false
  | String c s' => Ascii.eqb c "/"%char || has_sep s'
  end.

(** The components of a path that name something: an empty component (a
    doubled or final separator) and the component "." name nothing. *)
Definition resolve (s : string) : list string :=
  List.filter (fun c => negb (String.eqb c "" || String.eqb c ".")) (components s).

(** [path] names an entry of the folder [fldr]. *)
Definition entry_of (fldr path : string) : bool :=
  match rev (resolve path) with
  | _ :: parent => forallb2 String.eqb (rev parent) (resolve fldr)
  | [] => false
  end.

(** ** The indicator block as data

    Lines 79 to 152 of the script are twenty-four statements of two shapes:
    [x = f(args, kwargs)] binds a local array, and
    [da = f(args, kwargs); ds_out[da.name] = da] stores an indicator in the
    output dataset.  An argument is a variable of the input dataset
    ([ds.pr]) or a local array. *)
Inductive Arg := FromDs (v : string) | Local (x : string).

Inductive Stmt :=
| Assign (x fn : string) (args : list Arg) (kwargs : Kwargs)
| Emit (fn : string) (args : list Arg) (kwargs : Kwargs).

Section Pipeline.

(** The payload of an array: values, coordinates, array attributes. *)
Context {Data : Type}.

(** ** xarray objects *)

Record DataArray := mkDataArray { da_name : string; da_data : Data }.

Record Dataset := mkDataset {
  attrs : gmap string string;
  data_vars : gmap string DataArray }.

(** [xr.Dataset(attrs=a)] *)
Definition Dataset_new (a : gmap string string) : Dataset := mkDataset a ∅.

(** [ds[key] = da] *)
Definition setitem (ds : Dataset) (key : string) (da : DataArray) : Dataset :=
  mkDataset (attrs ds) (<[key := da]> (data_vars ds)).

(** ** The outside world *)

(** The two dialogs of [utils]: the user's answer to a prompt, [None] or the
    empty string when the dialog is cancelled. *)
Record User := mkUser {
  get_folder_path : string -> option string;
  get_save_path : string -> option string }.

(** The external libraries.  [xc fn args kwargs] is the call of the xclim
    function with dotted name [fn]. *)
Record Extern := mkExtern {
  fnmatch : string -> string -> bool;
  xr_open_files : gmap string File -> string -> Warned (Exc Dataset);
  xr_resample_mean : Dataset -> string -> bool -> Warned (Exc Dataset);
  xc : string -> list DataArray -> Kwargs -> Warned (Exc DataArray);
  get_to_netcdf_encodings : Dataset -> Z -> Warned (Exc Encodings);
  nc_bytes : Dataset -> string -> string -> Encodings -> Warned (Exc File) }.

(** What a run can change: the files on disk, the warnings filters, and the
    two output streams. *)
Record World := mkWorld {
  w_fs : gmap string File;
  w_filters : list Filter;
  w_stderr : list Warning;
  w_stdout : list string }.

(** The calls a run makes, with their arguments and results. *)
Inductive Event :=
| EvFolderDialog (title : string) (answer : option string)
| EvSaveDialog (title : string) (answer : option string)
| EvOpen (paths engine : string) (res : Exc Dataset)
| EvResample (ds : Dataset) (time : string) (keep_attrs : bool) (res : Exc Dataset)
| EvCall (fn : string) (args : list DataArray) (kwargs : Kwargs) (res : Exc DataArray)
| EvEncodings (ds : Dataset) (comp_level : Z) (res : Exc Encodings)
| EvWrite (ds : Dataset) (path engine : string) (enc : Encodings) (res : Exc unit)
| EvFilterWarnings (a : Action)
| EvPrint (msg : string).

(** The state a run threads: the world, and the log of the calls made so
    far, newest first. *)
Record St := mkSt { world : World; log : list Event }.

Definition M (A : Type) : Type := St -> St * Exc A.

Definition ret {A} (a : A) : M A := fun s => (s, Ok a).

Definition raise {A} (e : Exn) : M A := fun s => (s, Err e).

Definition bind {A B} (m : M A) (k : A -> M B) : M B :=
  fun s =>
    match m s with
    | (s', Ok a) => k a s'
    | (s', Err e) => (s', Err e)
    end.

Definition record (ev : Event) (s : St) : St := mkSt (world s) (ev :: log s).

(** ** Warnings *)

(** The first filter that applies decides; without one the warning is shown. *)
Definition action_for (fs : list Filter) (x : Warning) : Action :=
  match List.find (fun f => f_applies f x) fs with
  | Some f => f_action f
  | None => ActShow
  end.

(** The warnings of one call, in order: the shown ones, and the exception the
    first warning under an "error" filter becomes. *)
Fixpoint deliver (fs : list Filter) (ws : list Warning) : list Warning * option Exn :=
  match ws with
  | [] => ([], None)
  | x :: ws' =>
      match action_for fs x with
      | ActIgnore => deliver fs ws'
      | ActShow => let (shown, e) := deliver fs ws' in (x :: shown, e)
      | ActError => ([], Some (mkExn (w_category x) (w_message x)))
      end
  end.

Definition show (shown : list Warning) (w : World) : World :=
  mkWorld (w_fs w) (w_filters w) (w_stderr w ++ shown) (w_stdout w).

(** A call of external code: its warnings go through the filters, the call
    is logged with its result. *)
Definition extern {A} (ev : Exc A -> Event) (r : Warned (Exc A)) : M A :=
  fun s =>
    let (shown, raised) := deliver (w_filters (world s)) (fst r) in
    let res := match raised with Some e => Err e | None => snd r end in
    (mkSt (show shown (world s)) (ev res :: log s), res).

(** ** The calls the script makes *)

Variable user : User.
Variable lib : Extern.

Notation "x <- m ;; k" := (bind m (fun x => k))
  (at level 100, m at next level, right associativity, only parsing).

(** [utils.get_folder_path(title)] and [utils.get_save_path(title)] *)
Definition ask_folder (title : string) : M (option string) :=
  fun s =>
    let a := get_folder_path user title in
    (record (EvFolderDialog title a) s, Ok a).

Definition ask_save (title : string) : M (option string) :=
  fun s =>
    let a := get_save_path user title in
    (record (EvSaveDialog title a) s, Ok a).

(** The files a glob pattern denotes. *)
Definition input_files (pat : string) (fs : gmap string File) : gmap string File :=
  filter (fun pf : string * File => glob_match (fnmatch lib) pat pf.1 = true) fs.

(** [xr.open_mfdataset(paths, engine=engine)]: the files the pattern denotes
    are read and combined. *)
Definition open_mfdataset (paths engine : string) : M Dataset :=
  fun s =>
    extern (EvOpen paths engine)
           (xr_open_files lib (input_files paths (w_fs (world s))) engine) s.

(** [ds.resample(time=time).mean(keep_attrs=keep_attrs)] *)
Definition resample_mean (ds : Dataset) (time : string) (keep_attrs : bool) : M Dataset :=
  extern (EvResample ds time keep_attrs) (xr_resample_mean lib ds time keep_attrs).

(** [ds.<v>]: the variable [v] of the dataset. *)
Definition var (ds : Dataset) (v : string) : M DataArray :=
  match data_vars ds !! v with
  | Some a => ret a
  | None => raise (AttributeError v)
  end.

(** A call of an xclim function. *)
Definition call (fn : string) (args : list DataArray) (kwargs : Kwargs) : M DataArray :=
  extern (EvCall fn args kwargs) (xc lib fn args kwargs).

(** [utils.get_to_netcdf_encodings(ds=ds, comp_level=comp_level)] *)
Definition encodings_for (ds : Dataset) (comp_level : Z) : M Encodings :=
  extern (EvEncodings ds comp_level) (get_to_netcdf_encodings lib ds comp_level).

Definition write_file (path : string) (f : File) (s : St) : St :=
  mkSt (mkWorld (<[path := f]> (w_fs (world s))) (w_filters (world s))
                (w_stderr (world s)) (w_stdout (world s)))
       (log s).

(** [ds.to_netcdf(path=path, engine=engine, encoding=enc)]: the writer
    serialises the dataset; the bytes replace the file at [path]. *)
Definition to_netcdf (ds : Dataset) (path engine : string) (enc : Encodings) : M unit :=
  f <- extern (fun r => EvWrite ds path engine enc
                          (match r with Ok _ => Ok tt | Err e => Err e end))
              (nc_bytes lib ds path engine enc) ;;
  fun s => (write_file path f s, Ok tt).

(** [print(msg)] *)
Definition print (msg : string) : M unit :=
  fun s =>
    (mkSt (mkWorld (w_fs (world s)) (w_filters (world s)) (w_stderr (world s))
                   (w_stdout (world s) ++ [msg]))
          (EvPrint msg :: log s), Ok tt).

Definition set_filters (fs : list Filter) (s : St) : St :=
  mkSt (mkWorld (w_fs (world s)) fs (w_stderr (world s)) (w_stdout (world s)))
       (log s).

(** [warnings.filterwarnings(action)]: a filter for every warning is put in
    front of the others. *)
Definition filterwarnings (a : Action) : M unit :=
  fun s =>
    (record (EvFilterWarnings a)
            (set_filters (mkFilter a (fun _ => true) :: w_filters (world s)) s),
     Ok tt).

(** [with warnings.catch_warnings(): body]: the filters are saved on entry
    and restored on exit, also when the body raises. *)
Definition catch_warnings {A} (body : M A) : M A :=
  fun s =>
    let saved := w_filters (world s) in
    let (s', r) := body s in
    (set_filters saved s', r).

Definition thresh (v : string) : string * Kw := ("thresh", KStr v).
Definition freq (v : string) : string * Kw := ("freq", KStr v).
Definition window (n : Z) : string * Kw := ("window", KInt n).
Definition per (n : Z) : string * Kw := ("per", KInt n).

(** The string of a dialog answer that passed the truthiness test. *)
Definition str_of (x : option string) : string :=
  match x with Some s => s | None => "" end.

(** ** The script *)

(** [do_generate_indices()], statement by statement.  The Python variables
    [da] and [ds_out] are rebound at every assignment. *)
Definition do_generate_indices : M unit :=
  fldr_in <- ask_folder "Select input folder" ;;
  if negb (truthy fldr_in) then raise (Exception "Folder selection aborted") else
  let fldr_in := (str_of fldr_in ++ "*.nc")%string in
  file_out <- ask_save "Select output file" ;;
  if negb (truthy file_out) then raise (Exception "Save file selection aborted") else
  let file_out := str_of file_out in
  ds <- open_mfdataset fldr_in "netcdf4" ;;
  ds <- resample_mean ds "D" true ;;
  let ds_out := Dataset_new (attrs ds) in
  (* R1mm *)
  da <- (x <- var ds "pr" ;;
         call "xc.atmos.wetdays" [x] [thresh "1 mm/day"; freq "YS"]) ;;
  let ds_out := setitem ds_out (da_name da) da in
  (* CDD *)
  da <- (x <- var ds "pr" ;;
         call "xc.atmos.maximum_consecutive_dry_days" [x] [thresh "1 mm/day"; freq "YS"]) ;;
  let ds_out := setitem ds_out (da_name da) da in
  (* CWD *)
  da <- (x <- var ds "pr" ;;
         call "xc.atmos.maximum_consecutive_wet_days" [x] [thresh "1 mm/day"; freq "YS"]) ;;
  let ds_out := setitem ds_out (da_name da) da in
  (* PRCPTOT *)
  da <- (x <- var ds "pr" ;;
         call "xc.atmos.precip_accumulation" [x] [freq "YS"]) ;;
  let ds_out := setitem ds_out (da_name da) da in
  (* SDII *)
  da <- (x <- var ds "pr" ;;
         call "xc.atmos.daily_pr_intensity" [x] [thresh "1 mm/day"; freq "YS"]) ;;
  let ds_out := setitem ds_out (da_name da) da in
  (* RX1day *)
  da <- (x <- var ds "pr" ;;
         call "xc.atmos.max_1day_precipitation_amount" [x] [freq "YS"]) ;;
  let ds_out := setitem ds_out (da_name da) da in
  (* RX5day *)
  da <- (x <- var ds "pr" ;;
         call "xc.atmos.max_n_day_precipitation_amount" [x] [window 5; freq "YS"]) ;;
  let ds_out := setitem ds_out (da_name da) da in
  (* TXx *)
  da <- (x <- var ds "tasmax" ;;
         call "xc.atmos.tx_max" [x] [freq "YS"]) ;;
  let ds_out := setitem ds_out (da_name da) da in
  (* TNx *)
  da <- (x <- var ds "tasmin" ;;
         call "xc.atmos.tn_max" [x] [freq "YS"]) ;;
  let ds_out := setitem ds_out (da_name da) da in
  (* TXn *)
  da <- (x <- var ds "tasmax" ;;
         call "xc.atmos.tx_min" [x] [freq "YS"]) ;;
  let ds_out := setitem ds_out (da_name da) da in
  (* TNn *)
  da <- (x <- var ds "tasmin" ;;
         call "xc.atmos.tn_min" [x] [freq "YS"]) ;;
  let ds_out := setitem ds_out (da_name da) da in
  (* FD *)
  da <- (x <- var ds "tasmin" ;;
         call "xc.atmos.frost_days" [x] [freq "YS"]) ;;
  let ds_out := setitem ds_out (da_name da) da in
  (* ID *)
  da <- (x <- var ds "tasmax" ;;
         call "xc.atmos.ice_days" [x] [freq "YS"]) ;;
  let ds_out := setitem ds_out (da_name da) da in
  (* SU *)
  da <- (x <- var ds "tasmax" ;;
         call "xc.atmos.tx_days_above" [x] [thresh "25 degC"; freq "YS"]) ;;
  let ds_out := setitem ds_out (da_name da) da in
  (* TR *)
  da <- (x <- var ds "tasmin" ;;
         call "xc.atmos.tropical_nights" [x] [thresh "20 degC"; freq "YS"]) ;;
  let ds_out := setitem ds_out (da_name da) da in
  (* local arrays, not part of the output dataset *)
  tas <- (x <- var ds "tasmin" ;; y <- var ds "tasmax" ;;
          call "xc.indices.tas" [x; y] []) ;;
  t10 <- call "xc.core.calendar.percentile_doy" [tas] [per 10] ;;
  t90 <- call "xc.core.calendar.percentile_doy" [tas] [per 90] ;;
  tn10 <- (x <- var ds "tasmin" ;;
           call "xc.core.calendar.percentile_doy" [x] [per 10]) ;;
  (* TX10p *)
  da <- (x <- var ds "tasmax" ;;
         call "xc.atmos.tx10p" [x; t10] [freq "YS"]) ;;
  let ds_out := setitem ds_out (da_name da) da in
  (* TX90p *)
  da <- (x <- var ds "tasmax" ;;
         call "xc.atmos.tx90p" [x; t90] [freq "YS"]) ;;
  let ds_out := setitem ds_out (da_name da) da in
  (* TN10p *)
  da <- (x <- var ds "tasmin" ;;
         call "xc.atmos.tn10p" [x; t10] [freq "YS"]) ;;
  let ds_out := setitem ds_out (da_name da) da in
  (* TN90p *)
  da <- (x <- var ds "tasmin" ;;
         call "xc.atmos.tn90p" [x; t90] [freq "YS"]) ;;
  let ds_out := setitem ds_out (da_name da) da in
  (* CSDI *)
  da <- (x <- var ds "tasmin" ;;
         call "xc.atmos.cold_spell_duration_index" [x; tn10] [window 1; freq "YS"]) ;;
  let ds_out := setitem ds_out (da_name da) da in
  (* done with calculations *)
  encodings <- encodings_for ds_out 4 ;;
  to_netcdf ds_out file_out "netcdf4" encodings.

(** The [if __name__ == '__main__':] block. *)
Definition main : M unit :=
  catch_warnings
    (_ <- filterwarnings ActIgnore ;;
     _ <- do_generate_indices ;;
     print "Done!!!").

(** A run starts with an empty log; [history] lists the calls of the run in
    the order they were made. *)
Definition run {A} (m : M A) (w : World) : St * Exc A := m (mkSt w []).

Definition history (s : St) : list Event := rev (log s).

(** ** Running a block of statements *)

Record Frame := mkFrame { locals : list (string * DataArray); ds_out : Dataset }.

Fixpoint lookup_local (x : string) (rho : list (string * DataArray)) : option DataArray :=
  match rho with
  | [] => None
  | (y, a) :: rho' => if String.eqb x y then Some a else lookup_local x rho'
  end.

Definition eval_arg (ds : Dataset) (rho : list (string * DataArray)) (a : Arg) : M DataArray :=
  match a with
  | FromDs v => var ds v
  | Local x =>
      match lookup_local x rho with
      | Some d => ret d
      | None => raise (UnboundLocalError x)
      end
  end.

(** Arguments are evaluated from left to right. *)
Fixpoint eval_args (ds : Dataset) (rho : list (string * DataArray)) (l : list Arg)
  : M (list DataArray) :=
  match l with
  | [] => ret []
  | a :: l' =>
      d <- eval_arg ds rho a ;;
      ds' <- eval_args ds rho l' ;;
      ret (d :: ds')
  end.

Definition exec_stmt (ds : Dataset) (fr : Frame) (st : Stmt) : M Frame :=
  match st with
  | Assign x fn args kwargs =>
      vs <- eval_args ds (locals fr) args ;;
      r <- call fn vs kwargs ;;
      ret (mkFrame ((x, r) :: locals fr) (ds_out fr))
  | Emit fn args kwargs =>
      vs <- eval_args ds (locals fr) args ;;
      da <- call fn vs kwargs ;;
      ret (mkFrame (locals fr) (setitem (ds_out fr) (da_name da) da))
  end.

Fixpoint exec_block (ds : Dataset) (blk : list Stmt) (fr : Frame) : M Frame :=
  match blk with
  | [] => ret fr
  | st :: blk' =>
      fr' <- exec_stmt ds fr st ;;
      exec_block ds blk' fr'
  end.

(** Lines 79 to 152, in program order. *)
Definition indicator_block : list Stmt :=
  [ Emit "xc.atmos.wetdays" [FromDs "pr"] [thresh "1 mm/day"; freq "YS"];
    Emit "xc.atmos.maximum_consecutive_dry_days" [FromDs "pr"] [thresh "1 mm/day"; freq "YS"];
    Emit "xc.atmos.maximum_consecutive_wet_days" [FromDs "pr"] [thresh "1 mm/day"; freq "YS"];
    Emit "xc.atmos.precip_accumulation" [FromDs "pr"] [freq "YS"];
    Emit "xc.atmos.daily_pr_intensity" [FromDs "pr"] [thresh "1 mm/day"; freq "YS"];
    Emit "xc.atmos.max_1day_precipitation_amount" [FromDs "pr"] [freq "YS"];
    Emit "xc.atmos.max_n_day_precipitation_amount" [FromDs "pr"] [window 5; freq "YS"];
    Emit "xc.atmos.tx_max" [FromDs "tasmax"] [freq "YS"];
    Emit "xc.atmos.tn_max" [FromDs "tasmin"] [freq "YS"];
    Emit "xc.atmos.tx_min" [FromDs "tasmax"] [freq "YS"];
    Emit "xc.atmos.tn_min" [FromDs "tasmin"] [freq "YS"];
    Emit "xc.atmos.frost_days" [FromDs "tasmin"] [freq "YS"];
    Emit "xc.atmos.ice_days" [FromDs "tasmax"] [freq "YS"];
    Emit "xc.atmos.tx_days_above" [FromDs "tasmax"] [thresh "25 degC"; freq "YS"];
    Emit "xc.atmos.tropical_nights" [FromDs "tasmin"] [thresh "20 degC"; freq "YS"];
    Assign "tas" "xc.indices.tas" [FromDs "tasmin"; FromDs "tasmax"] [];
    Assign "t10" "xc.core.calendar.percentile_doy" [Local "tas"] [per 10];
    Assign "t90" "xc.core.calendar.percentile_doy" [Local "tas"] [per 90];
    Assign "tn10" "xc.core.calendar.percentile_doy" [FromDs "tasmin"] [per 10];
    Emit "xc.atmos.tx10p" [FromDs "tasmax"; Local "t10"] [freq "YS"];
    Emit "xc.atmos.tx90p" [FromDs "tasmax"; Local "t90"] [freq "YS"];
    Emit "xc.atmos.tn10p" [FromDs "tasmin"; Local "t10"] [freq "YS"];
    Emit "xc.atmos.tn90p" [FromDs "tasmin"; Local "t90"] [freq "YS"];
    Emit "xc.atmos.cold_spell_duration_index" [FromDs "tasmin"; Local "tn10"]
         [window 1; freq "YS"] ].

(** The script with an arbitrary block in the place of lines 79 to 152. *)
Definition pipeline_with (blk : list Stmt) : M unit :=
  fldr_in <- ask_folder "Select input folder" ;;
  if negb (truthy fldr_in) then raise (Exception "Folder selection aborted") else
  let fldr_in := (str_of fldr_in ++ "*.nc")%string in
  file_out <- ask_save "Select output file" ;;
  if negb (truthy file_out) then raise (Exception "Save file selection aborted") else
  let file_out := str_of file_out in
  ds <- open_mfdataset fldr_in "netcdf4" ;;
  ds <- resample_mean ds "D" true ;;
  fr <- exec_block ds blk (mkFrame [] (Dataset_new (attrs ds))) ;;
  encodings <- encodings_for (ds_out fr) 4 ;;
  to_netcdf (ds_out fr) file_out "netcdf4" encodings.

(** ** A block replayed from the results of its calls

    The arguments of a statement do not depend on the state of the run, only
    on the input dataset and the locals; so the calls a block makes and the
    frame it ends in are determined by the results its calls return. *)

Definition stmt_fn (st : Stmt) : string :=
  match st with Assign _ fn _ _ | Emit fn _ _ => fn end.

Definition stmt_args (st : Stmt) : list Arg :=
  match st with Assign _ _ args _ | Emit _ args _ => args end.

Definition stmt_kwargs (st : Stmt) : Kwargs :=
  match st with Assign _ _ _ kw | Emit _ _ kw => kw end.

(** What a statement does with the result of its call. *)
Definition bind_result (fr : Frame) (st : Stmt) (r : DataArray) : Frame :=
  match st with
  | Assign x _ _ _ => mkFrame ((x, r) :: locals fr) (ds_out fr)
  | Emit _ _ _ => mkFrame (locals fr) (setitem (ds_out fr) (da_name r) r)
  end.

Definition arg_value (ds : Dataset) (rho : list (string * DataArray)) (a : Arg)
  : Exc DataArray :=
  match a with
  | FromDs v =>
      match data_vars ds !! v with
      | Some d => Ok d
      | None => Err (AttributeError v)
      end
  | Local x =>
      match lookup_local x rho with
      | Some d => Ok d
      | None => Err (UnboundLocalError x)
      end
  end.

Fixpoint args_values (ds : Dataset) (rho : list (string * DataArray)) (l : list Arg)
  : Exc (list DataArray) :=
  match l with
  | [] => Ok []
  | a :: l' =>
      match arg_value ds rho a with
      | Ok d =>
          match args_values ds rho l' with
          | Ok ds' => Ok (d :: ds')
          | Err e => Err e
          end
      | Err e => Err e
      end
  end.

(** The calls of a block whose calls return [rs], in order, and the frame
    after the block; [None] when an argument cannot be evaluated or the
    results do not match the statements one to one. *)
Fixpoint replay (ds : Dataset) (blk : list Stmt) (fr : Frame) (rs : list DataArray)
  : option (list Event * Frame) :=
  match blk, rs with
  | [], [] => Some ([], fr)
  | st :: blk', r :: rs' =>
      match args_values ds (locals fr) (stmt_args st) with
      | Ok vs =>
          match replay ds blk' (bind_result fr st r) rs' with
          | Some (evs, fr') =>
              Some (EvCall (stmt_fn st) vs (stmt_kwargs st) (Ok r) :: evs, fr')
          | None => None
          end
      | Err _ => None
      end
  | _, _ => None
  end.

Definition is_emit (st : Stmt) : bool :=
  match st with Emit _ _ _ => true | Assign _ _ _ _ => false end.

Definition assigned (st : Stmt) : list string :=
  match st with Assign x _ _ _ => [x] | Emit _ _ _ => [] end.

Definition arg_local (a : Arg) : list string :=
  match a with Local x => [x] | FromDs _ => [] end.

(** The locals a statement reads. *)
Definition used (st : Stmt) : list string := flat_map arg_local (stmt_args st).

Definition uses (x : string) (st : Stmt) : bool :=
  existsb (String.eqb x) (used st).

(** ** A block as a function of the filters

    The warnings filters do not change while a block runs, so the outcome of
    each call, and with it the outcome of the block, is a function of the
    filters in force, the input dataset and the frame. *)

(** The outcome of a call of external code under the filters [fl]. *)
Definition perform {A} (fl : list Filter) (r : Warned (Exc A)) : Exc A :=
  match snd (deliver fl (fst r)) with
  | Some e => Err e
  | None => snd r
  end.

(** The array the call of a statement returns when the locals are [rho]. *)
Definition stmt_value (fl : list Filter) (ds : Dataset) (rho : list (string * DataArray))
    (st : Stmt) : Exc DataArray :=
  match args_values ds rho (stmt_args st) with
  | Ok vs => perform fl (xc lib (stmt_fn st) vs (stmt_kwargs st))
  | Err e => Err e
  end.

Fixpoint eval_block (fl : list Filter) (ds : Dataset) (blk : list Stmt) (fr : Frame)
  : Exc Frame :=
  match blk with
  | [] => Ok fr
  | st :: blk' =>
      match stmt_value fl ds (locals fr) st with
      | Ok r => eval_block fl ds blk' (bind_result fr st r)
      | Err e => Err e
      end
  end.

(** The arrays the [Emit] statements of a block store when the locals are
    [rho], in the order of the block. *)
Definition stored_under (fl : list Filter) (ds : Dataset) (rho : list (string * DataArray))
    (blk : list Stmt) : list DataArray :=
  flat_map (fun st => if is_emit st
                      then match stmt_value fl ds rho st with
                           | Ok r => [r]
                           | Err _ => []
                           end
                      else []) blk.

(** Every local a statement reads is assigned by an earlier statement of
    the block (or is among [defined]). *)
Fixpoint well_scoped (defined : list string) (blk : list Stmt) : bool :=
  match blk with
  | [] => true
  | st :: blk' =>
      forallb (fun x => existsb (String.eqb x) defined) (used st)
      && well_scoped (assigned st ++ defined) blk'
  end.

(** ** Classifying the calls of a run *)

Definition is_dialog (ev : Event) : bool :=
  match ev with
  | EvFolderDialog _ _ | EvSaveDialog _ _ => true
  | _ => false
  end.

Definition is_write (ev : Event) : bool :=
  match ev with
  | EvWrite _ _ _ _ _ => true
  | _ => false
  end.

Definition is_call (ev : Event) : bool :=
  match ev with
  | EvCall _ _ _ _ => true
  | _ => false
  end.

(** The indicators are the functions of [xc.atmos]; [xc.indices.tas] and
    [xc.core.calendar.percentile_doy] compute the local arrays. *)
Definition is_indicator (fn : string) : bool := String.prefix "xc.atmos." fn.

Definition is_call_to (fn : string) (ev : Event) : bool :=
  match ev with
  | EvCall f _ _ _ => String.eqb f fn
  | _ => false
  end.

Definition calls_to (fn : string) (h : list Event) : list Event :=
  List.filter (is_call_to fn) h.

(** The arrays the indicator calls of a run returned, in order. *)
Definition indicator_results (h : list Event) : list DataArray :=
  flat_map (fun ev => match ev with
                      | EvCall fn _ _ (Ok r) => if is_indicator fn then [r] else []
                      | _ => []
                      end) h.

(** The calls that compute a local array. *)
Definition derived_calls (h : list Event) : list Event :=
  List.filter (fun ev => match ev with
                         | EvCall fn _ _ _ => negb (is_indicator fn)
                         | _ => false
                         end) h.

(** The indicator calls that take a second array next to the variable of
    the input dataset. *)
Definition threshold_calls (h : list Event) : list Event :=
  List.filter (fun ev => match ev with
                         | EvCall fn args _ _ => is_indicator fn && (1 <? length args)%nat
                         | _ => false
                         end) h.

(** The function and the keyword arguments of every call of the block. *)
Definition script_calls : list (string * Kwargs) :=
  map (fun st => (stmt_fn st, stmt_kwargs st)) indicator_block.

(** What the script fixes of each call it makes, whatever the values it
    passes: the pattern and the engine of the loader, the resampling, the
    function and keyword arguments of an xclim call, the compression level. *)
Definition expected_event (ev : Event) : Prop :=
  match ev with
  | EvOpen paths engine _ =>
      truthy (get_folder_path user "Select input folder") = true /\
      paths = (str_of (get_folder_path user "Select input folder") ++ "*.nc")%string /\
      engine = "netcdf4"
  | EvResample _ time keep_attrs _ => time = "D" /\ keep_attrs = true
  | EvCall fn _ kwargs _ => In (fn, kwargs) script_calls
  | EvEncodings _ comp_level _ => comp_level = 4%Z
  | _ => True
  end.

(** [ds_out[da.name] = da] *)
Definition store (d : Dataset) (da : DataArray) : Dataset := setitem d (da_name da) da.

(** ** Invariants and relations of runs *)

(** A filter in front that ignores every warning. *)
Definition silenced (s : St) : Prop :=
  exists rest, w_filters (world s) = mkFilter ActIgnore (fun _ => true) :: rest.

(** [m] keeps the invariant [I] of states. *)
Definition preserves {A} (I : St -> Prop) (m : M A) : Prop :=
  forall s, I s -> I (m s).1.

(** The invariant of a silenced run: the filter stays in front and nothing
    reaches the error stream. *)
Definition quiet (err : list Warning) (s : St) : Prop :=
  silenced s /\ w_stderr (world s) = err.

(** Every call logged so far is one the script makes. *)
Definition logged (s : St) : Prop := Forall expected_event (log s).

(** A logged call is answered when its result is the outcome of the library
    call under the filters [fl]. *)
Definition answered (fl : list Filter) (ev : Event) : Prop :=
  match ev with
  | EvCall fn vs kw res => perform fl (xc lib fn vs kw) = res
  | _ => True
  end.

(** [rho'] has every binding of [rho]. *)
Definition extends (rho rho' : list (string * DataArray)) : Prop :=
  forall x d, lookup_local x rho = Some d -> lookup_local x rho' = Some d.

(** A file of this path was written by a logged call that returned. *)
Definition written (path : string) (l : list Event) : Prop :=
  exists ds engine enc, In (EvWrite ds path engine enc (Ok tt)) l.

(** Two states of two silenced runs that made the same calls with the same
    results: the files the pattern [pat] denotes are the same in both, and
    so is every file written so far. *)
Definition related (pat : string) (s1 s2 : St) : Prop :=
  log s1 = log s2 /\
  silenced s1 /\ silenced s2 /\
  input_files pat (w_fs (world s1)) = input_files pat (w_fs (world s2)) /\
  (forall path, written path (log s1) ->
                w_fs (world s1) !! path = w_fs (world s2) !! path).

(** From related states, [m] returns the same result and leads to related
    states. *)
Definition sim {A} (R : St -> St -> Prop) (m : M A) : Prop :=
  forall s1 s2, R s1 s2 -> (m s1).2 = (m s2).2 /\ R (m s1).1 (m s2).1.

(** ** Failures *)

(** The exception a logged call of external code raised, if it raised. *)
Definition event_error (ev : Event) : option Exn :=
  match ev with
  | EvOpen _ _ (Err e) | EvResample _ _ _ (Err e) | EvCall _ _ _ (Err e)
  | EvEncodings _ _ (Err e) | EvWrite _ _ _ _ (Err e) => Some e
  | _ => None
  end.

(** No call of the list raised. *)
Definition unfailed (l : list Event) : Prop :=
  Forall (fun ev => event_error ev = None) l.

(** The exceptions the script raises itself: the two [raise] statements, and
    the attribute access [ds.<v>] for the three variables it reads. *)
Definition own_errors : list Exn :=
  [ Exception "Folder selection aborted";
    Exception "Save file selection aborted";
    AttributeError "pr"; AttributeError "tasmax"; AttributeError "tasmin" ].

(** How a piece of the script ends when no call before it raised: with no
    raised call in the log when it returns or raises an exception of its
    own, and with the raised call as the newest entry of the log when it
    ends with the exception of a call. *)
Definition fatal {A} (m : M A) : Prop :=
  forall s, unfailed (log s) ->
    match m s with
    | (s', Ok _) => unfailed (log s')
    | (s', Err e) =>
        (exists ev l, log s' = ev :: l /\ event_error ev = Some e /\ unfailed l) \/
        (unfailed (log s') /\ In e own_errors)
    end.

(** ** The terminal and the disk *)

Definition is_print (ev : Event) : bool :=
  match ev with
  | EvPrint _ => true
  | _ => false
  end.

(** The output stream holds [out] and no [print] was logged. *)
Definition unprinted (out : list string) (s : St) : Prop :=
  w_stdout (world s) = out /\ Forall (fun ev => is_print ev = false) (log s).

(** The file at [path] is [f], or is absent when [f] is [None]. *)
Definition file_is (path : string) (f : option File) (s : St) : Prop :=
  w_fs (world s) !! path = f.

(** ** The names of the results and the loader call *)

(** A logged call that returned reports what the library returned. *)
Definition returned (ev : Event) : Prop :=
  match ev with
  | EvCall fn args kw (Ok r) => snd (xc lib fn args kw) = Ok r
  | _ => True
  end.

Definition all_returned (s : St) : Prop := Forall returned (log s).

(** The library names the result of the indicator [fn], called with the
    keyword arguments [kw], [nm fn kw]. *)
Definition names_by (nm : string -> Kwargs -> string) : Prop :=
  forall fn args kw r,
    is_indicator fn = true -> snd (xc lib fn args kw) = Ok r -> da_name r = nm fn kw.

(** The names of the results of the indicator statements, in program order. *)
Definition expected_names (nm : string -> Kwargs -> string) : list string :=
  map (fun st => nm (stmt_fn st) (stmt_kwargs st)) (List.filter is_emit indicator_block).

Definition is_open (ev : Event) : bool :=
  match ev with
  | EvOpen _ _ _ => true
  | _ => false
  end.

End Pipeline.

Arguments DataArray Data : clear implicits.
Arguments Dataset Data : clear implicits.
Arguments Extern Data : clear implicits.
Arguments Event Data : clear implicits.
Arguments St Data : clear implicits.
Arguments M Data A : clear implicits.
Arguments Frame Data : clear implicits.

(** ** A symbolic library

    An instance of the external world in which every array is the expression
    that computed it, named after the function that returned it.  It serves
    to run the script on concrete inputs. *)
Module Symbolic.

#[local] Unset Elimination Schemes.

Inductive Sym :=
| SData (var : string)
| SApp (fn : string) (args : list Sym) (kwargs : Kwargs).

Definition input_array (v : string) : DataArray Sym := mkDataArray v (SData v).

(** A dataset with the three variables the script reads. *)
Definition input_dataset : Dataset Sym :=
  mkDataset {[ "title" := "synthetic" ]}
            (<["pr" := input_array "pr"]>
               (<["tasmax" := input_array "tasmax"]>
                  {[ "tasmin" := input_array "tasmin" ]})).

Definition resampled (ds : Dataset Sym) : Dataset Sym :=
  mkDataset (attrs ds)
            ((fun a => mkDataArray (da_name a) (SApp "resample.mean" [da_data a] [])) <$> data_vars ds).

Definition chatty : Warning := mkWarning "RuntimeWarning" "All-NaN slice encountered".

(** Every file that is opened holds [input_dataset]; without a file the
    loader fails.  Every xclim call issues a warning. *)
Definition lib : Extern Sym :=
  mkExtern
    (fun pat name =>
       if String.eqb pat "in*.nc" then String.prefix "in" name else String.eqb pat name)
    (fun files engine =>
       ([], if decide (files = ∅) then Err (mkExn "OSError" "no files to open")
            else Ok input_dataset))
    (fun ds time keep_attrs =>
       ([], Ok (if keep_attrs then resampled ds
                else mkDataset ∅ (data_vars (resampled ds)))))
    (fun fn args kwargs =>
       ([chatty], Ok (mkDataArray fn (SApp fn (map da_data args) kwargs))))
    (fun ds comp_level =>
       ([], Ok (map (fun kv => (kv.1, [("zlib", 1%Z); ("complevel", comp_level)]))
                    (map_to_list (data_vars ds)))))
    (fun ds path engine enc =>
       ([], Ok (map (fun kv => Byte.x2a) (map_to_list (data_vars ds))))).

(** The same library, except that every xclim call names its result
    "index". *)
Definition lib_one_name : Extern Sym :=
  mkExtern (fnmatch lib) (xr_open_files lib) (xr_resample_mean lib)
           (fun fn args kwargs =>
              ([], Ok (mkDataArray "index" (SApp fn (map da_data args) kwargs))))
           (get_to_netcdf_encodings lib) (nc_bytes lib).

(** The function that computed the variable "index" of each dataset handed
    to the writer. *)
Definition origin_of_index (h : list (Event Sym)) : list (option string) :=
  map (fun ev => match ev with
                 | EvWrite ds _ _ _ _ =>
                     match data_vars ds !! "index" with
                     | Some (mkDataArray _ (SApp fn _ _)) => Some fn
                     | _ => None
                     end
                 | _ => None
                 end)
      (List.filter is_write h).

Definition user : User := mkUser (fun _ => Some "/data/in") (fun _ => Some "/out/indices.nc").

(** The user who cancels the first dialog, and the one who cancels the second. *)
Definition user_no_folder : User := mkUser (fun _ => Some "") (fun _ => Some "/out/indices.nc").
(** A user who gives the same two answers and cancels any other dialog. *)
Definition user2 : User :=
  mkUser (fun t => if String.eqb t "Select input folder" then Some "/data/in" else None)
         (fun t => if String.eqb t "Select output file" then Some "/out/indices.nc" else None).

Definition user_no_file : User := mkUser (fun _ => Some "/data/in") (fun _ => None).

(** A disk with one input file next to (not inside) the folder [/data/in]. *)
Definition disk : gmap string File := {[ "/data/in_2001.nc" := [Byte.x00] ]}.

Definition w0 : World := mkWorld disk [] [] [].

(** Another world: more files, an older output file, a filter that turns
    every warning into an exception, earlier output on the terminal. *)
Definition w1 : World :=
  mkWorld (<["/out/indices.nc" := [Byte.xff]]> (<["/data/notes.txt" := []]> disk))
          [mkFilter ActError (fun _ => true)] [] ["earlier"].

(** The state at the end of the script run in [w0]. *)
Definition finished : St Sym := (run (do_generate_indices user lib) w0).1.

(** The block with the four assignments first and the twenty indicator
    statements after them, last to first. *)
Definition reordered_block : list Stmt :=
  List.filter (fun st => negb (is_emit st)) indicator_block
  ++ rev (List.filter is_emit indicator_block).

(** The state at the end of the script run in [w0] with the library that
    gives every result the same name. *)
Definition finished_one_name : St Sym := (run (do_generate_indices user lib_one_name) w0).1.

(** An empty disk. *)
Definition w_empty : World := mkWorld ∅ [] [] [].

Definition no_files : Exn := mkExn "OSError" "no files to open".

(** A dataset without precipitation, and the library whose loader returns it. *)
Definition dataset_no_pr : Dataset Sym :=
  mkDataset {[ "title" := "synthetic" ]}
            (<["tasmax" := input_array "tasmax"]> {[ "tasmin" := input_array "tasmin" ]}).

Definition lib_no_pr : Extern Sym :=
  mkExtern (fnmatch lib)
           (fun files engine =>
              ([], if decide (files = ∅) then Err no_files else Ok dataset_no_pr))
           (xr_resample_mean lib) (xc lib) (get_to_netcdf_encodings lib) (nc_bytes lib).

(** A user who saves the output next to the input folder, under a name the
    pattern matches. *)
Definition user_into_input : User :=
  mkUser (fun _ => Some "/data/in") (fun _ => Some "/data/in_indices.nc").

(** A name matcher that knows a leading star. *)
Definition ends_with (suf s : string) : bool :=
  String.eqb (String.substring (String.length s - String.length suf) (String.length suf) s) suf.

Definition star_match (pat name : string) : bool :=
  match pat with
  | String c suf => if Ascii.eqb c "*"%char then ends_with suf name else String.eqb pat name
  | EmptyString => String.eqb pat name
  end.

(** The first xclim call of the symbolic run. *)
Definition wetdays_call : Event Sym :=
  EvCall "xc.atmos.wetdays"
         [mkDataArray "pr" (SApp "resample.mean" [SData "pr"] [])]
         [thresh "1 mm/day"; freq "YS"]
         (Ok (mkDataArray "xc.atmos.wetdays"
                (SApp "xc.atmos.wetdays" [SApp "resample.mean" [SData "pr"] []]
                      [thresh "1 mm/day"; freq "YS"]))).

(** A name matcher for patterns with at most one star; as in [glob], a
    name that starts with a dot is matched only by a pattern that does. *)
Fixpoint one_star (pat name : string) : bool :=
  match pat with
  | EmptyString => String.eqb name ""
  | String c pat' =>
      if Ascii.eqb c "*"%char then ends_with pat' name
      else match name with
           | String d name' => Ascii.eqb c d && one_star pat' name'
           | EmptyString => false
           end
  end.

Definition lib_star : Extern Sym :=
  mkExtern (fun pat name =>
              (negb (String.prefix "." name) || String.prefix "." pat) && one_star pat name)
           (xr_open_files lib) (xr_resample_mean lib) (xc lib)
           (get_to_netcdf_encodings lib) (nc_bytes lib).

(** A user who selects the folder [/data/in] as [/data/in/.], and a disk
    with one hidden file in that folder. *)
Definition user_dot : User := mkUser (fun _ => Some "/data/in/.") (fun _ => Some "/out/indices.nc").

Definition w_hidden : World := mkWorld {[ "/data/in/.hidden.nc" := [Byte.x00] ]} [] [] [].

End Symbolic.

(** * Properties *)

Section Properties.

Context {Data : Type}.
Variable user : User.
Variable lib : Extern Data.

(** ** The monad and the external calls *)

Lemma bind_Ok {A B} (m : M Data A) (k : A -> M Data B) s s' a :
  m s = (s', Ok a) -> bind m k s = k a s'.
Proof. unfold bind. intros ->. reflexivity. Qed.

Lemma bind_Err {A B} (m : M Data A) (k : A -> M Data B) s s' e :
  m s = (s', Err e) -> bind m k s = (s', Err e).
Proof. unfold bind. intros ->. reflexivity. Qed.

(** What a call of external code leaves behind: one more log entry that
    carries the result, possibly some shown warnings, nothing else. *)
Lemma extern_inv {A} (ev : Exc A -> Event Data) (r : Warned (Exc A)) s s' res :
  extern ev r s = (s', res) ->
  log s' = ev res :: log s /\
  w_fs (world s') = w_fs (world s) /\
  w_filters (world s') = w_filters (world s) /\
  w_stdout (world s') = w_stdout (world s).
Proof.
  unfold extern. destruct (deliver _ _) as [shown raised].
  intros [= <- <-]. cbn. auto.
Qed.

(** A call that returns a value returns the value the library returned: a
    warning can turn a result into an exception, never into another result. *)
Lemma extern_Ok {A} (ev : Exc A -> Event Data) (r : Warned (Exc A)) s s' a :
  extern ev r s = (s', Ok a) -> snd r = Ok a.
Proof.
  unfold extern. destruct (deliver _ _) as [shown [e|]]; intros [= _ H]. exact H.
Qed.

Lemma truthy_Some x : truthy x = true -> exists s, x = Some s /\ s <> "".
Proof.
  destruct x as [s|]; [|discriminate]. cbn. intros H. exists s. split; [reflexivity|].
  intros ->. discriminate.
Qed.

Lemma deliver_silenced rest ws :
  deliver (mkFilter ActIgnore (fun _ => true) :: rest) ws = ([], None).
Proof. induction ws as [|x ws IH]; [reflexivity|]. cbn. exact IH. Qed.

Lemma show_nil w : show [] w = w.
Proof. destruct w. unfold show. cbn. rewrite app_nil_r. reflexivity. Qed.

(** Under such a filter a call shows nothing and returns what the library
    returned. *)
Lemma extern_silenced {A} (ev : Exc A -> Event Data) (r : Warned (Exc A)) s :
  silenced s ->
  extern ev r s = (mkSt (world s) (ev (snd r) :: log s), snd r).
Proof.
  intros [rest Hf]. unfold extern. rewrite Hf, deliver_silenced.
  rewrite show_nil. reflexivity.
Qed.

(** ** Invariants of a run *)

Lemma preserves_ret {A} (I : St Data -> Prop) (a : A) : preserves I (ret a).
Proof. intros s H. exact H. Qed.

Lemma preserves_raise {A} (I : St Data -> Prop) e : preserves I (@raise Data A e).
Proof. intros s H. exact H. Qed.

Lemma preserves_bind {A B} (I : St Data -> Prop) (m : M Data A) (k : A -> M Data B) :
  preserves I m -> (forall a, preserves I (k a)) -> preserves I (bind m k).
Proof.
  intros Hm Hk s H. unfold bind. specialize (Hm s H).
  destruct (m s) as [s' [a|e]]; cbn in *; [apply Hk|]; assumption.
Qed.

Lemma preserves_var {A} (I : St Data -> Prop) ds v (k : DataArray Data -> M Data A) :
  (forall a, preserves I (k a)) -> preserves I (bind (var ds v) k).
Proof.
  intros Hk. apply preserves_bind; [|exact Hk].
  unfold var. destruct (_ !! _); [apply preserves_ret|apply preserves_raise].
Qed.

(** A dialog hands the answer of the user to the rest of the script. *)
Lemma preserves_ask_folder {A} (I : St Data -> Prop) t (k : option string -> M Data A) :
  (forall s, I s -> I (record (EvFolderDialog t (get_folder_path user t)) s)) ->
  preserves I (k (get_folder_path user t)) ->
  preserves I (bind (ask_folder user t) k).
Proof. intros Hr Hk s H. unfold bind, ask_folder. apply Hk, Hr, H. Qed.

Lemma preserves_ask_save {A} (I : St Data -> Prop) t (k : option string -> M Data A) :
  (forall s, I s -> I (record (EvSaveDialog t (get_save_path user t)) s)) ->
  preserves I (k (get_save_path user t)) ->
  preserves I (bind (ask_save user t) k).
Proof. intros Hr Hk s H. unfold bind, ask_save. apply Hk, Hr, H. Qed.

Lemma quiet_extern {A} err (ev : Exc A -> Event Data) r : preserves (quiet err) (extern ev r).
Proof.
  intros s [Hs He]. rewrite (extern_silenced _ _ _ Hs). split; assumption.
Qed.

Lemma quiet_open err p e : preserves (quiet err) (open_mfdataset lib p e).
Proof. intros s H. unfold open_mfdataset. apply quiet_extern, H. Qed.

Lemma quiet_to_netcdf err ds p e enc : preserves (quiet err) (to_netcdf lib ds p e enc).
Proof.
  unfold to_netcdf. apply preserves_bind; [apply quiet_extern|].
  intros f s H. exact H.
Qed.

Lemma quiet_print err msg : preserves (quiet err) (@print Data msg).
Proof. intros s H. exact H. Qed.

(** Splits an invariant of the script into one goal per call. *)
Ltac through_script :=
  repeat match goal with
    | |- preserves _ (bind (ask_folder _ _) _) => apply preserves_ask_folder
    | |- preserves _ (bind (ask_save _ _) _) => apply preserves_ask_save
    | |- preserves _ (bind (var _ _) _) => apply preserves_var; intros ?
    | |- preserves _ (bind _ _) => apply preserves_bind; [|intros ?]
    | |- preserves _ (if ?b then _ else _) => destruct b eqn:?
    | |- preserves _ (raise _) => apply preserves_raise
    | |- preserves _ (ret _) => apply preserves_ret
    end.

Lemma quiet_do_generate_indices err : preserves (quiet err) (do_generate_indices user lib).
Proof.
  unfold do_generate_indices. cbv zeta.
  through_script;
    first [ apply quiet_open | apply quiet_to_netcdf | apply quiet_extern
          | intros s H; exact H ].
Qed.


Lemma pipeline_with_indicator_block s :
  do_generate_indices user lib s = pipeline_with user lib indicator_block s.
Proof.
  unfold do_generate_indices, pipeline_with, bind, ask_folder, ask_save.
  destruct (truthy (get_folder_path user "Select input folder")); cbn [negb]; [|reflexivity].
  destruct (truthy (get_save_path user "Select output file")); cbn [negb]; [|reflexivity].
  destruct (open_mfdataset _ _ _) as [s1 [ds0|e]]; [|reflexivity].
  destruct (resample_mean _ _ _ _) as [s2 [ds|e]]; [|reflexivity].
  cbn [exec_block exec_stmt eval_args eval_arg indicator_block locals ds_out].
  unfold bind, var, ret, raise.
  destruct (data_vars ds !! "pr") as [pr|]; [|reflexivity].
  repeat match goal with
  | |- context [call ?f ?a ?k ?s] =>
      destruct (call f a k s) as [? [?|?]]; [|reflexivity]; cbn [locals ds_out lookup_local String.eqb Ascii.eqb Bool.eqb]
  | |- context [data_vars ds !! ?v] =>
      destruct (data_vars ds !! v) as [?|]; [|reflexivity]
  end.
  reflexivity.
Qed.


(** ** Blocks *)

Lemma eval_arg_pure ds rho a (s : St Data) :
  eval_arg ds rho a s = (s, arg_value ds rho a).
Proof.
  destruct a as [v|x]; cbn; unfold var.
  - destruct (data_vars ds !! v); reflexivity.
  - destruct (lookup_local x rho); reflexivity.
Qed.

Lemma eval_args_pure ds rho l (s : St Data) :
  eval_args ds rho l s = (s, args_values ds rho l).
Proof.
  induction l as [|a l IH]; [reflexivity|].
  cbn. unfold bind. rewrite eval_arg_pure.
  destruct (arg_value ds rho a); [|reflexivity].
  rewrite IH. destruct (args_values ds rho l); reflexivity.
Qed.

Lemma exec_stmt_unfold ds fr st (s : St Data) :
  exec_stmt lib ds fr st s =
  match args_values ds (locals fr) (stmt_args st) with
  | Ok vs =>
      match call lib (stmt_fn st) vs (stmt_kwargs st) s with
      | (s', Ok r) => (s', Ok (bind_result fr st r))
      | (s', Err e) => (s', Err e)
      end
  | Err e => (s, Err e)
  end.
Proof.
  destruct st; cbn; unfold bind; rewrite eval_args_pure;
    destruct (args_values _ _ _); try reflexivity;
    destruct (call _ _ _ _ _) as [? [?|?]]; reflexivity.
Qed.

(** A block that runs to its end made one call per statement, each logged
    with its result, and touched nothing but the log and the error stream. *)
Lemma exec_block_replay ds blk : forall fr (s s' : St Data) fr',
  exec_block lib ds blk fr s = (s', Ok fr') ->
  exists rs evs,
    replay ds blk fr rs = Some (evs, fr') /\
    log s' = rev evs ++ log s /\
    w_fs (world s') = w_fs (world s) /\
    w_filters (world s') = w_filters (world s) /\
    w_stdout (world s') = w_stdout (world s).
Proof.
  induction blk as [|st blk IH]; intros fr s s' fr' H.
  - cbn in H. injection H as <- <-. exists [], []. cbn. auto.
  - cbn [exec_block] in H. unfold bind in H. rewrite exec_stmt_unfold in H.
    destruct (args_values ds (locals fr) (stmt_args st)) as [vs|e] eqn:Ha; [|discriminate].
    destruct (call lib (stmt_fn st) vs (stmt_kwargs st) s) as [s1 [r|e]] eqn:Hc; [|discriminate].
    apply extern_inv in Hc as (Hl & Hfs & Hfl & Hout).
    apply IH in H as (rs & evs & Hr & Hl' & Hfs' & Hfl' & Hout').
    exists (r :: rs), (EvCall (stmt_fn st) vs (stmt_kwargs st) (Ok r) :: evs).
    cbn [replay]. rewrite Ha, Hr. repeat split; try congruence.
    rewrite Hl', Hl. cbn [rev]. rewrite <- app_assoc. reflexivity.
Qed.

Lemma replay_length (ds : Dataset Data) blk : forall fr rs evs fr',
  replay ds blk fr rs = Some (evs, fr') ->
  length rs = length blk /\ length evs = length blk.
Proof.
  induction blk as [|st blk IH]; intros fr [|r rs] evs fr' H; cbn in H; try discriminate.
  - injection H as <- <-. auto.
  - destruct (args_values _ _ _); [|discriminate].
    destruct (replay _ _ _ _) as [[evs1 fr1]|] eqn:Hr; [|discriminate].
    injection H as <- <-. apply IH in Hr as [H1 H2]. cbn. split; congruence.
Qed.

(** ** Successful runs *)

(** The shape of every run that reaches its end: both dialogs answered, the
    dataset loaded and resampled, one call per statement of the block, the
    encodings computed and the file written. *)
Lemma pipeline_with_success blk (w : World) s' :
  run (pipeline_with user lib blk) w = (s', Ok tt) ->
  exists fldr file ds0 ds rs evs fr enc bytes,
    get_folder_path user "Select input folder" = Some fldr /\ fldr <> "" /\
    get_save_path user "Select output file" = Some file /\ file <> "" /\
    snd (xr_open_files lib (input_files lib (fldr ++ "*.nc")%string (w_fs w)) "netcdf4") = Ok ds0 /\
    snd (xr_resample_mean lib ds0 "D" true) = Ok ds /\
    replay ds blk (mkFrame [] (Dataset_new (attrs ds))) rs = Some (evs, fr) /\
    snd (nc_bytes lib (ds_out fr) file "netcdf4" enc) = Ok bytes /\
    history s' =
      [ EvFolderDialog "Select input folder" (Some fldr);
        EvSaveDialog "Select output file" (Some file);
        EvOpen (fldr ++ "*.nc")%string "netcdf4" (Ok ds0);
        EvResample ds0 "D" true (Ok ds) ]
      ++ evs ++
      [ EvEncodings (ds_out fr) 4 (Ok enc);
        EvWrite (ds_out fr) file "netcdf4" enc (Ok tt) ] /\
    w_fs (world s') = <[file := bytes]> (w_fs w) /\
    w_filters (world s') = w_filters w /\
    w_stdout (world s') = w_stdout w.
Proof.
  unfold run, pipeline_with, bind, ask_folder, ask_save, raise. cbn [record].
  destruct (truthy (get_folder_path user _)) eqn:Hf; cbn [negb]; [|discriminate].
  destruct (truthy (get_save_path user _)) eqn:Hs; cbn [negb]; [|discriminate].
  apply truthy_Some in Hf as (fldr & -> & Hf). apply truthy_Some in Hs as (file & -> & Hs).
  cbn [str_of].
  destruct (open_mfdataset _ _ _ _) as [s1 [ds0|e]] eqn:H1; [|discriminate].
  destruct (resample_mean _ _ _ _ _) as [s2 [ds|e]] eqn:H2; [|discriminate].
  destruct (exec_block _ _ _ _ _) as [s3 [fr|e]] eqn:H3; [|discriminate].
  destruct (encodings_for _ _ _ _) as [s4 [enc|e]] eqn:H4; [|discriminate].
  unfold to_netcdf, bind.
  destruct (extern _ _ s4) as [s5 [bytes|e]] eqn:H5; [|discriminate].
  intros [= <-].
  unfold open_mfdataset in H1.
  pose proof (extern_Ok _ _ _ _ _ H1) as R1. apply extern_inv in H1 as (L1 & F1 & G1 & O1).
  pose proof (extern_Ok _ _ _ _ _ H2) as R2. apply extern_inv in H2 as (L2 & F2 & G2 & O2).
  apply exec_block_replay in H3 as (rs & evs & Hr & L3 & F3 & G3 & O3).
  apply extern_inv in H4 as (L4 & F4 & G4 & O4).
  pose proof (extern_Ok _ _ _ _ _ H5) as R5. apply extern_inv in H5 as (L5 & F5 & G5 & O5).
  cbn in *.
  exists fldr, file, ds0, ds, rs, evs, fr, enc, bytes.
  repeat split; try assumption; try congruence.
  unfold history. cbn. rewrite L5, L4, L3, L2, L1. cbn.
  rewrite rev_app_distr, rev_involutive. cbn. rewrite <- app_assoc. reflexivity.
Qed.

Lemma do_generate_indices_success (w : World) s' :
  run (do_generate_indices user lib) w = (s', Ok tt) ->
  run (pipeline_with user lib indicator_block) w = (s', Ok tt).
Proof. unfold run. rewrite pipeline_with_indicator_block. tauto. Qed.

(** Makes the calls and the final frame of a replayed [indicator_block]
    explicit. *)
Lemma replay_cons (ds : Dataset Data) st blk fr rs evs fr' :
  replay ds (st :: blk) fr rs = Some (evs, fr') ->
  exists r rs' vs evs',
    rs = r :: rs' /\
    args_values ds (locals fr) (stmt_args st) = Ok vs /\
    evs = EvCall (stmt_fn st) vs (stmt_kwargs st) (Ok r) :: evs' /\
    replay ds blk (bind_result fr st r) rs' = Some (evs', fr').
Proof.
  destruct rs as [|r rs]; cbn [replay]; [discriminate|].
  destruct (args_values _ _ _) as [vs|]; [|discriminate].
  destruct (replay _ _ _ _) as [[evs1 fr1]|] eqn:Hr; [|discriminate].
  intros [= <- <-]. exists r, rs, vs, evs1. repeat split. exact Hr.
Qed.

Lemma replay_nil (ds : Dataset Data) fr rs evs fr' :
  replay ds [] fr rs = Some (evs, fr') -> rs = [] /\ evs = [] /\ fr' = fr.
Proof. destruct rs; cbn; [|discriminate]. intros [= <- <-]. auto. Qed.

Ltac explicit_block H :=
  unfold indicator_block in H;
  repeat
    (let Ha := fresh "Ha" in
     let He := fresh "He" in
     apply replay_cons in H as (? & ? & ? & ? & -> & Ha & He & H);
     cbn [args_values arg_value stmt_args stmt_fn stmt_kwargs locals ds_out
          bind_result lookup_local String.eqb Ascii.eqb Bool.eqb] in Ha, He, H;
     repeat match type of Ha with
       | context [data_vars ?ds !! ?v] =>
           match goal with
           | Hx : data_vars ds !! v = _ |- _ => rewrite Hx in Ha
           | _ => let E := fresh "Hvar" in
                  destruct (data_vars ds !! v) eqn:E; [|discriminate Ha]
           end
       end;
     injection Ha as <-; subst);
  apply replay_nil in H as (-> & -> & ->).

(** The calls of [indicator_block], written out: the variables of the input
    dataset each call reads, the locals it takes, and the array it returns. *)
Lemma indicator_block_calls (ds : Dataset Data) d0 rs evs fr :
  replay ds indicator_block (mkFrame [] d0) rs = Some (evs, fr) ->
  exists pr tasmax tasmin r1 r2 r3 r4 r5 r6 r7 r8 r9 r10 r11 r12 r13 r14 r15 tas t10 t90 tn10 r16 r17 r18 r19 r20,
    data_vars ds !! "pr" = Some pr /\
    data_vars ds !! "tasmax" = Some tasmax /\
    data_vars ds !! "tasmin" = Some tasmin /\
    evs =
      [
        EvCall "xc.atmos.wetdays" [pr] [thresh "1 mm/day"; freq "YS"] (Ok r1);
        EvCall "xc.atmos.maximum_consecutive_dry_days" [pr] [thresh "1 mm/day"; freq "YS"] (Ok r2);
        EvCall "xc.atmos.maximum_consecutive_wet_days" [pr] [thresh "1 mm/day"; freq "YS"] (Ok r3);
        EvCall "xc.atmos.precip_accumulation" [pr] [freq "YS"] (Ok r4);
        EvCall "xc.atmos.daily_pr_intensity" [pr] [thresh "1 mm/day"; freq "YS"] (Ok r5);
        EvCall "xc.atmos.max_1day_precipitation_amount" [pr] [freq "YS"] (Ok r6);
        EvCall "xc.atmos.max_n_day_precipitation_amount" [pr] [window 5; freq "YS"] (Ok r7);
        EvCall "xc.atmos.tx_max" [tasmax] [freq "YS"] (Ok r8);
        EvCall "xc.atmos.tn_max" [tasmin] [freq "YS"] (Ok r9);
        EvCall "xc.atmos.tx_min" [tasmax] [freq "YS"] (Ok r10);
        EvCall "xc.atmos.tn_min" [tasmin] [freq "YS"] (Ok r11);
        EvCall "xc.atmos.frost_days" [tasmin] [freq "YS"] (Ok r12);
        EvCall "xc.atmos.ice_days" [tasmax] [freq "YS"] (Ok r13);
        EvCall "xc.atmos.tx_days_above" [tasmax] [thresh "25 degC"; freq "YS"] (Ok r14);
        EvCall "xc.atmos.tropical_nights" [tasmin] [thresh "20 degC"; freq "YS"] (Ok r15);
        EvCall "xc.indices.tas" [tasmin; tasmax] [] (Ok tas);
        EvCall "xc.core.calendar.percentile_doy" [tas] [per 10] (Ok t10);
        EvCall "xc.core.calendar.percentile_doy" [tas] [per 90] (Ok t90);
        EvCall "xc.core.calendar.percentile_doy" [tasmin] [per 10] (Ok tn10);
        EvCall "xc.atmos.tx10p" [tasmax; t10] [freq "YS"] (Ok r16);
        EvCall "xc.atmos.tx90p" [tasmax; t90] [freq "YS"] (Ok r17);
        EvCall "xc.atmos.tn10p" [tasmin; t10] [freq "YS"] (Ok r18);
        EvCall "xc.atmos.tn90p" [tasmin; t90] [freq "YS"] (Ok r19);
        EvCall "xc.atmos.cold_spell_duration_index" [tasmin; tn10] [window 1; freq "YS"] (Ok r20) ].
Proof.
  intros H. explicit_block H. do 27 eexists. repeat split; eassumption.
Qed.

(** ** The output dataset *)

Lemma fold_store_attrs (l : list (DataArray Data)) : forall d,
  attrs (fold_left store l d) = attrs d.
Proof. induction l as [|r l IH]; intros d; [reflexivity|]. cbn. rewrite IH. reflexivity. Qed.

Lemma fold_store_dom (l : list (DataArray Data)) : forall d,
  dom (data_vars (fold_left store l d)) = list_to_set (map da_name l) ∪ dom (data_vars d).
Proof.
  induction l as [|r l IH]; intros d; cbn.
  - symmetry. apply union_empty_l_L.
  - rewrite IH. cbn. rewrite dom_insert_L.
    rewrite (union_comm_L {[da_name r]} (list_to_set _)), union_assoc_L. reflexivity.
Qed.

Lemma fold_store_lookup_other (l : list (DataArray Data)) k : forall d,
  ~ In k (map da_name l) ->
  data_vars (fold_left store l d) !! k = data_vars d !! k.
Proof.
  induction l as [|r l IH]; intros d Hk; [reflexivity|].
  cbn in *. rewrite IH by tauto. cbn. apply lookup_insert_ne. tauto.
Qed.

(** With pairwise distinct names, every stored array is found under its
    name. *)
Lemma fold_store_lookup (l : list (DataArray Data)) r : forall d,
  List.NoDup (map da_name l) -> In r l ->
  data_vars (fold_left store l d) !! da_name r = Some r.
Proof.
  induction l as [|r' l IH]; intros d Hnd Hin; [destruct Hin|].
  cbn in Hnd. apply List.NoDup_cons_iff in Hnd as [Hni Hnd]. destruct Hin as [->|Hin].
  - cbn. rewrite fold_store_lookup_other by exact Hni. cbn. apply lookup_insert_eq.
  - cbn. apply IH; assumption.
Qed.

Lemma indicator_results_app (h h' : list (Event Data)) :
  indicator_results (h ++ h') = indicator_results h ++ indicator_results h'.
Proof. apply flat_map_app. Qed.

(** In a block whose [Emit] statements are exactly its calls of [xc.atmos]
    functions, the output dataset collects the results of the indicator
    calls, in order. *)
Lemma replay_store (ds : Dataset Data) blk : forall fr rs evs fr',
  Forall (fun st => is_emit st = is_indicator (stmt_fn st)) blk ->
  replay ds blk fr rs = Some (evs, fr') ->
  ds_out fr' = fold_left store (indicator_results evs) (ds_out fr) /\
  length (indicator_results evs) = length (List.filter is_emit blk) /\
  forallb is_call evs = true.
Proof.
  induction blk as [|st blk IH]; intros fr rs evs fr' Hb H.
  - apply replay_nil in H as (_ & -> & ->). repeat split.
  - apply replay_cons in H as (r & rs' & vs & evs' & -> & _ & -> & H).
    apply Forall_cons in Hb as [Hst Hb].
    apply IH in H as (-> & Hlen & Hc); [|exact Hb].
    cbn [indicator_results flat_map List.filter forallb is_call andb].
    fold (indicator_results evs'). rewrite <- Hst.
    destruct st; cbn in *; rewrite ?Hlen; repeat split; assumption.
Qed.

Lemma indicator_block_emits :
  Forall (fun st => is_emit st = is_indicator (stmt_fn st)) indicator_block.
Proof. repeat constructor. Qed.

Lemma filter_none {A} (P : A -> bool) (l : list A) :
  (forall x, In x l -> P x = false) -> List.filter P l = [].
Proof.
  induction l as [|x l IH]; intros H; [reflexivity|].
  cbn. rewrite (H x) by (left; reflexivity). apply IH. intros y Hy. apply H. right. exact Hy.
Qed.

Lemma filter_calls_nil (P : Event Data -> bool) evs :
  (forall ev, is_call ev = true -> P ev = false) ->
  forallb is_call evs = true -> List.filter P evs = [].
Proof.
  intros HP. induction evs as [|ev evs IH]; [reflexivity|].
  cbn. intros [Hc Hr]%andb_prop. rewrite (HP _ Hc). auto.
Qed.

(** ** What every run calls *)

Lemma logged_extern {A} (ev : Exc A -> Event Data) r :
  (forall res, expected_event user (ev res)) -> preserves (logged user) (extern ev r).
Proof.
  intros Hev s Hs. destruct (extern ev r s) as [s' res] eqn:E.
  apply extern_inv in E as (Hl & _). unfold logged. cbn. rewrite Hl.
  constructor; [apply Hev|exact Hs].
Qed.

Lemma logged_call fn args kw :
  In (fn, kw) script_calls -> preserves (logged user) (call lib fn args kw).
Proof. intros Hin. apply logged_extern. intros res. exact Hin. Qed.

Lemma logged_do_generate_indices : preserves (logged user) (do_generate_indices user lib).
Proof.
  unfold do_generate_indices. cbv zeta.
  through_script;
    lazymatch goal with
    | |- preserves _ (call _ _ _ _) =>
        apply logged_call; cbn;
        repeat first [left; reflexivity | right]
    | |- forall s, _ -> logged user (record _ s) =>
        intros s Hs; constructor; [exact I|exact Hs]
    | |- preserves _ (open_mfdataset _ _ _) =>
        intros s Hs; unfold open_mfdataset; apply logged_extern; [|exact Hs];
        intros res; cbn;
        match goal with
        | Ht : negb (truthy (get_folder_path _ _)) = false |- _ =>
            apply negb_false_iff in Ht; rewrite Ht
        end; auto
    | |- preserves _ (resample_mean _ _ _ _) =>
        apply logged_extern; intros res; cbn; auto
    | |- preserves _ (encodings_for _ _ _) =>
        apply logged_extern; intros res; cbn; auto
    | |- preserves _ (to_netcdf _ _ _ _ _) =>
        unfold to_netcdf; apply preserves_bind;
        [apply logged_extern; intros res; exact I|intros f s Hs; exact Hs]
    end.
Qed.

Lemma every_event_expected (w : World) ev :
  In ev (history (run (do_generate_indices user lib) w).1) -> expected_event user ev.
Proof.
  unfold history, run. rewrite <- in_rev. revert ev. apply List.Forall_forall.
  apply logged_do_generate_indices. constructor.
Qed.

(** ** The glob pattern *)

Lemma components_nonempty s : (1 <= length (components s))%nat.
Proof.
  induction s as [|c s IH]; cbn; [lia|].
  destruct (Ascii.eqb c "/"); cbn; [lia|].
  destruct (components s); cbn in *; lia.
Qed.

Lemma components_app_length a b :
  length (components (a ++ b)%string) =
  (length (components a) + length (components b) - 1)%nat.
Proof.
  induction a as [|c a IH].
  - change ("" ++ b)%string with b. cbn. lia.
  - change (String c a ++ b)%string with (String c (a ++ b)%string).
    cbn [components]. destruct (Ascii.eqb c "/"); cbn [length].
    + rewrite IH. pose proof (components_nonempty a). lia.
    + pose proof (components_nonempty a). pose proof (components_nonempty (a ++ b)).
      destruct (components (a ++ b)%string), (components a); cbn [length] in *; lia.
Qed.

Lemma forallb2_length {A B} (f : A -> B -> bool) l : forall l',
  forallb2 f l l' = true -> length l = length l'.
Proof.
  induction l as [|a l IH]; intros [|b l']; cbn; try discriminate; [reflexivity|].
  intros [_ H]%andb_prop. f_equal. apply IH, H.
Qed.

(** A pattern made by appending "*.nc" to a folder path has as many
    components as the folder path; the entries of the folder have more. *)
Lemma glob_misses_children fnm fldr name :
  ends_with_sep fldr = false ->
  glob_match fnm (fldr ++ "*.nc")%string (child_path fldr name) = false.
Proof.
  intros Hsep. unfold glob_match, child_path. rewrite Hsep.
  destruct (forallb2 _ _ _) eqn:E; [|reflexivity].
  apply forallb2_length in E. rewrite !components_app_length in E. cbn in E.
  pose proof (components_nonempty fldr). pose proof (components_nonempty name). lia.
Qed.

(** ** Cold and warm spells *)

Lemma script_calls_csdi fn kw :
  In (fn, kw) script_calls ->
  fn <> "xc.atmos.warm_spell_duration_index" /\
  (fn = "xc.atmos.cold_spell_duration_index" -> kw = [window 1; freq "YS"]).
Proof.
  unfold script_calls, indicator_block. cbn [map stmt_fn stmt_kwargs In].
  intros H.
  repeat (destruct H as [[= <- <-]|H]; [split; [discriminate|intros [=]; reflexivity]|]).
  destruct H.
Qed.

Lemma fold_store_from (l : list (DataArray Data)) k v : forall d,
  data_vars (fold_left store l d) !! k = Some v ->
  In v l \/ data_vars d !! k = Some v.
Proof.
  induction l as [|r l IH]; intros d H; [right; exact H|].
  cbn in H. apply IH in H as [H|H]; [left; right; exact H|].
  cbn in H. apply lookup_insert_Some in H as [[_ <-]|[_ H]]; [left; left; reflexivity|].
  right. exact H.
Qed.

Lemma indicator_results_from (h : list (Event Data)) r :
  In r (indicator_results h) ->
  exists fn args kw, In (EvCall fn args kw (Ok r)) h /\ is_indicator fn = true.
Proof.
  induction h as [|ev h IH]; [intros []|].
  cbn. intros [H|H]%in_app_or.
  - destruct ev as [| | | |fn args kw [a|e]| | | |]; try destruct H.
    destruct (is_indicator fn) eqn:E; [|destruct H].
    destruct H as [<-|[]]. exists fn, args, kw. auto.
  - apply IH in H as (fn & args & kw & H & E). exists fn, args, kw. auto.
Qed.

(** C10.  In every run, complete or not, no call of the warm-spell
    indicator is made, and every call of the cold-spell indicator carries
    [window=1] and [freq='YS'], not the window of 6 days of the comment above
    it.  In a run that ends without exception the cold-spell indicator is
    called exactly once, on [ds.tasmin] and a local array, and every variable
    of the dataset handed to the writer is the result of an indicator call of
    the run, none of which is the warm-spell indicator. *)
Theorem csdi_window_one_and_no_wsdi (w : World) :
  (forall fn args kw res,
     In (EvCall fn args kw res) (history (run (do_generate_indices user lib) w).1) ->
     fn <> "xc.atmos.warm_spell_duration_index" /\
     (fn = "xc.atmos.cold_spell_duration_index" ->
      kw = [window 1; freq "YS"] /\ kw <> [window 6; freq "YS"])) /\
  (forall s',
     run (do_generate_indices user lib) w = (s', Ok tt) ->
     (exists tasmin tn10 r,
        calls_to "xc.atmos.cold_spell_duration_index" (history s') =
        [EvCall "xc.atmos.cold_spell_duration_index" [tasmin; tn10]
                [window 1; freq "YS"] (Ok r)]) /\
     calls_to "xc.atmos.warm_spell_duration_index" (history s') = [] /\
     (forall ds path engine enc res k v,
        In (EvWrite ds path engine enc res) (history s') ->
        data_vars ds !! k = Some v ->
        exists fn args kw,
          In (EvCall fn args kw (Ok v)) (history s') /\
          fn <> "xc.atmos.warm_spell_duration_index")).
Proof.
  assert (H1 : forall fn args kw res,
             In (EvCall fn args kw res) (history (run (do_generate_indices user lib) w).1) ->
             fn <> "xc.atmos.warm_spell_duration_index" /\
             (fn = "xc.atmos.cold_spell_duration_index" ->
              kw = [window 1; freq "YS"] /\ kw <> [window 6; freq "YS"])).
  { intros fn args kw res Hin. apply every_event_expected in Hin. cbn in Hin.
    apply script_calls_csdi in Hin as [Hw Hc]. split; [exact Hw|].
    intros Hfn. rewrite (Hc Hfn). split; [reflexivity|discriminate]. }
  split; [exact H1|].
  intros s' H. rewrite H in H1. cbn [fst] in H1.
  apply do_generate_indices_success, pipeline_with_success in H
    as (fldr & file & ds0 & ds & rs & evs & fr & enc & bytes & _ & _ & _ & _ & _ & _
        & Hr & _ & Hh & _).
  pose proof (replay_store _ _ _ _ _ _ indicator_block_emits Hr) as (Hds & _ & Hc).
  split; [|split].
  - apply indicator_block_calls in Hr as (pr & tasmax & tasmin & r1 & r2 & r3 & r4 & r5
      & r6 & r7 & r8 & r9 & r10 & r11 & r12 & r13 & r14 & r15 & tas & t10 & t90 & tn10
      & r16 & r17 & r18 & r19 & r20 & _ & _ & _ & ->).
    rewrite Hh. exists tasmin, tn10, r20. reflexivity.
  - unfold calls_to. apply filter_none. intros [] Hin; try reflexivity.
    apply H1 in Hin as [Hne _]. cbn. apply String.eqb_neq. exact Hne.
  - intros dsw path engine enc' res k v Hin Hk.
    assert (dsw = ds_out fr) as ->.
    { rewrite Hh in Hin. repeat (apply in_app_or in Hin as [Hin|Hin]).
      - repeat (destruct Hin as [[=]|Hin]). destruct Hin.
      - rewrite forallb_forall in Hc. apply Hc in Hin. discriminate.
      - destruct Hin as [[=]|[[= -> _ _ _]|[]]]. reflexivity. }
    rewrite Hds in Hk. apply fold_store_from in Hk as [Hk|Hk]; [|discriminate Hk].
    apply indicator_results_from in Hk as (fn & args & kw & Hev & _).
    assert (Hev' : In (EvCall fn args kw (Ok v)) (history s')).
    { rewrite Hh. apply in_or_app. right. apply in_or_app. left. exact Hev. }
    exists fn, args, kw. split; [exact Hev'|]. apply (H1 _ _ _ _ Hev').
Qed.

(** ** Local arrays *)

(** C2, as the script has it.  In every run that ends without exception the
    calls that compute a local array are four, each made once: the mean
    temperature [tas] of [ds.tasmin] and [ds.tasmax], the 10th and the 90th
    day-of-year percentile of [tas], and the 10th percentile of [ds.tasmin].
    So there are three percentile series, not two.  They are passed to five
    later indicator calls, not four: the percentiles of [tas] to two calls
    each, the percentile of [ds.tasmin] to the cold-spell call.  In the block
    each of the four locals is assigned once. *)
Theorem derived_series_and_consumers (w : World) s' :
  run (do_generate_indices user lib) w = (s', Ok tt) ->
  exists tasmin tasmax tas t10 t90 tn10 r1 r2 r3 r4 r5,
    derived_calls (history s') =
      [ EvCall "xc.indices.tas" [tasmin; tasmax] [] (Ok tas);
        EvCall "xc.core.calendar.percentile_doy" [tas] [per 10] (Ok t10);
        EvCall "xc.core.calendar.percentile_doy" [tas] [per 90] (Ok t90);
        EvCall "xc.core.calendar.percentile_doy" [tasmin] [per 10] (Ok tn10) ] /\
    threshold_calls (history s') =
      [ EvCall "xc.atmos.tx10p" [tasmax; t10] [freq "YS"] (Ok r1);
        EvCall "xc.atmos.tx90p" [tasmax; t90] [freq "YS"] (Ok r2);
        EvCall "xc.atmos.tn10p" [tasmin; t10] [freq "YS"] (Ok r3);
        EvCall "xc.atmos.tn90p" [tasmin; t90] [freq "YS"] (Ok r4);
        EvCall "xc.atmos.cold_spell_duration_index" [tasmin; tn10]
               [window 1; freq "YS"] (Ok r5) ] /\
    flat_map assigned indicator_block = ["tas"; "t10"; "t90"; "tn10"] /\
    map (fun x => length (List.filter (uses x) (List.filter is_emit indicator_block)))
        ["t10"; "t90"; "tn10"] = [2; 2; 1]%nat.
Proof.
  intros H.
  apply do_generate_indices_success, pipeline_with_success in H
    as (fldr & file & ds0 & ds & rs & evs & fr & enc & bytes & _ & _ & _ & _ & _ & _
        & Hr & _ & Hh & _).
  apply indicator_block_calls in Hr as (pr & tasmax & tasmin & r1 & r2 & r3 & r4 & r5
    & r6 & r7 & r8 & r9 & r10 & r11 & r12 & r13 & r14 & r15 & tas & t10 & t90 & tn10
    & r16 & r17 & r18 & r19 & r20 & _ & _ & _ & ->).
  rewrite Hh. exists tasmin, tasmax, tas, t10, t90, tn10, r16, r17, r18, r19, r20.
  repeat split; reflexivity.
Qed.

(** C9.  In every run that ends without exception, [tn10p] is called once,
    on [ds.tasmin] and the array [t10], which is the 10th day-of-year
    percentile of the mean temperature [tas] and the very array passed to
    [tx10p].  The 10th percentile of [ds.tasmin], [tn10], is computed by a
    call of its own and passed to the cold-spell indicator.  In the block,
    the statement of [tn10p] reads the local [t10], and the only statement
    that reads the local [tn10] is the cold-spell one. *)
Theorem tn10p_takes_mean_temperature_percentile (w : World) s' :
  run (do_generate_indices user lib) w = (s', Ok tt) ->
  exists ds0 ds tasmin tasmax tas t10 tn10 rtx rtn rcs,
    In (EvResample ds0 "D" true (Ok ds)) (history s') /\
    data_vars ds !! "tasmin" = Some tasmin /\
    data_vars ds !! "tasmax" = Some tasmax /\
    calls_to "xc.indices.tas" (history s') =
      [EvCall "xc.indices.tas" [tasmin; tasmax] [] (Ok tas)] /\
    List.filter (fun ev => match ev with
                           | EvCall _ _ [("per", KInt 10)] _ => true
                           | _ => false
                           end)
                (calls_to "xc.core.calendar.percentile_doy" (history s')) =
      [ EvCall "xc.core.calendar.percentile_doy" [tas] [per 10] (Ok t10);
        EvCall "xc.core.calendar.percentile_doy" [tasmin] [per 10] (Ok tn10) ] /\
    calls_to "xc.atmos.tx10p" (history s') =
      [EvCall "xc.atmos.tx10p" [tasmax; t10] [freq "YS"] (Ok rtx)] /\
    calls_to "xc.atmos.tn10p" (history s') =
      [EvCall "xc.atmos.tn10p" [tasmin; t10] [freq "YS"] (Ok rtn)] /\
    calls_to "xc.atmos.cold_spell_duration_index" (history s') =
      [EvCall "xc.atmos.cold_spell_duration_index" [tasmin; tn10]
              [window 1; freq "YS"] (Ok rcs)] /\
    List.filter (uses "t10") indicator_block =
      [ Emit "xc.atmos.tx10p" [FromDs "tasmax"; Local "t10"] [freq "YS"];
        Emit "xc.atmos.tn10p" [FromDs "tasmin"; Local "t10"] [freq "YS"] ] /\
    List.filter (uses "tn10") indicator_block =
      [ Emit "xc.atmos.cold_spell_duration_index" [FromDs "tasmin"; Local "tn10"]
             [window 1; freq "YS"] ] /\
    In (Assign "t10" "xc.core.calendar.percentile_doy" [Local "tas"] [per 10]) indicator_block /\
    In (Assign "tn10" "xc.core.calendar.percentile_doy" [FromDs "tasmin"] [per 10]) indicator_block.
Proof.
  intros H.
  apply do_generate_indices_success, pipeline_with_success in H
    as (fldr & file & ds0 & ds & rs & evs & fr & enc & bytes & _ & _ & _ & _ & _ & _
        & Hr & _ & Hh & _).
  apply indicator_block_calls in Hr as (pr & tasmax & tasmin & r1 & r2 & r3 & r4 & r5
    & r6 & r7 & r8 & r9 & r10 & r11 & r12 & r13 & r14 & r15 & tas & t10 & t90 & tn10
    & r16 & r17 & r18 & r19 & r20 & _ & Htasmax & Htasmin & ->).
  rewrite Hh. exists ds0, ds, tasmin, tasmax, tas, t10, tn10, r16, r18, r20.
  split; [cbn; tauto|].
  split; [exact Htasmin|]. split; [exact Htasmax|].
  repeat split; try reflexivity; cbn; tauto.
Qed.

(** ** Global attributes *)


(** Whatever its outcome, a block adds only xclim calls to the log. *)
Lemma exec_block_calls ds blk : forall fr (s : St Data),
  exists evs,
    log (exec_block lib ds blk fr s).1 = evs ++ log s /\ forallb is_call evs = true.
Proof.
  induction blk as [|st blk IH]; intros fr s.
  - exists []. split; reflexivity.
  - cbn [exec_block]. unfold bind. rewrite exec_stmt_unfold.
    destruct (args_values ds (locals fr) (stmt_args st)) as [vs|e]; [|exists []; split; reflexivity].
    destruct (call lib (stmt_fn st) vs (stmt_kwargs st) s) as [s1 [r|e]] eqn:Hc;
      apply extern_inv in Hc as (Hl & _).
    + destruct (IH (bind_result fr st r) s1) as (evs & Hl' & Hc).
      exists (evs ++ [EvCall (stmt_fn st) vs (stmt_kwargs st) (Ok r)]).
      rewrite Hl', Hl, <- app_assoc. split; [reflexivity|].
      rewrite forallb_app, Hc. reflexivity.
    + exists [EvCall (stmt_fn st) vs (stmt_kwargs st) (Err e)]. cbn. rewrite Hl. auto.
Qed.



(** ** The order of the statements *)

Lemma extern_run {A} (ev : Exc A -> Event Data) (r : Warned (Exc A)) s :
  extern ev r s =
  (mkSt (show (deliver (w_filters (world s)) (fst r)).1 (world s))
        (ev (perform (w_filters (world s)) r) :: log s),
   perform (w_filters (world s)) r).
Proof.
  unfold extern, perform. destruct (deliver _ _) as [shown [e|]]; reflexivity.
Qed.

(** The outcome of a block is [eval_block] under the filters in force; the
    block leaves the filters, the files and the output stream alone. *)
Lemma exec_block_eval ds blk : forall fr (s : St Data),
  (exec_block lib ds blk fr s).2 = eval_block lib (w_filters (world s)) ds blk fr /\
  w_filters (world (exec_block lib ds blk fr s).1) = w_filters (world s) /\
  w_fs (world (exec_block lib ds blk fr s).1) = w_fs (world s) /\
  w_stdout (world (exec_block lib ds blk fr s).1) = w_stdout (world s).
Proof.
  induction blk as [|st blk IH]; intros fr s; [repeat split|].
  cbn [exec_block eval_block]. unfold bind, stmt_value. rewrite exec_stmt_unfold.
  destruct (args_values ds (locals fr) (stmt_args st)) as [vs|e]; [|repeat split].
  unfold call. rewrite extern_run.
  destruct (perform _ _) as [r|e]; [|repeat split].
  match goal with |- context [exec_block lib ds blk ?f ?t] => specialize (IH f t) end.
  exact IH.
Qed.

Lemma exec_block_answered ds blk : forall fr (s s' : St Data) fr',
  exec_block lib ds blk fr s = (s', Ok fr') ->
  exists rs evs,
    replay ds blk fr rs = Some (evs, fr') /\
    log s' = rev evs ++ log s /\
    Forall (answered lib (w_filters (world s))) evs.
Proof.
  induction blk as [|st blk IH]; intros fr s s' fr' H.
  - cbn in H. injection H as <- <-. exists [], []. repeat split. constructor.
  - cbn [exec_block] in H. unfold bind in H. rewrite exec_stmt_unfold in H.
    destruct (args_values ds (locals fr) (stmt_args st)) as [vs|e] eqn:Ha; [|discriminate].
    unfold call in H. rewrite extern_run in H.
    destruct (perform _ _) as [r|e] eqn:Hp; [|discriminate].
    apply IH in H as (rs & evs & Hr & Hl & Hans). cbn in Hl, Hans.
    exists (r :: rs), (EvCall (stmt_fn st) vs (stmt_kwargs st) (Ok r) :: evs).
    cbn [replay]. rewrite Ha, Hr. repeat split.
    + rewrite Hl. cbn [rev]. rewrite <- app_assoc. reflexivity.
    + constructor; [exact Hp|exact Hans].
Qed.

Lemma args_values_extends (ds : Dataset Data) rho rho' l vs :
  extends rho rho' -> args_values ds rho l = Ok vs -> args_values ds rho' l = Ok vs.
Proof.
  intros Hext. revert vs. induction l as [|a l IH]; intros vs; [tauto|].
  cbn. destruct (arg_value ds rho a) as [d|] eqn:Ha; [|discriminate].
  destruct (args_values ds rho l) as [vs'|]; [|discriminate].
  intros [= <-]. rewrite (IH _ eq_refl).
  destruct a as [v|x]; cbn in *.
  - rewrite Ha. reflexivity.
  - destruct (lookup_local x rho) as [d'|] eqn:Hx; [|discriminate].
    rewrite (Hext _ _ Hx). injection Ha as <-. reflexivity.
Qed.

(** Two sets of locals that agree on the locals a list of arguments reads
    give the same values. *)
Lemma args_values_agree (ds : Dataset Data) rho rho' l :
  (forall x, In x (flat_map arg_local l) -> lookup_local x rho = lookup_local x rho') ->
  args_values ds rho l = args_values ds rho' l.
Proof.
  induction l as [|a l IH]; intros H; [reflexivity|].
  cbn. rewrite IH by (intros x Hx; apply H; cbn; apply in_or_app; right; exact Hx).
  destruct a as [v|x]; cbn; [reflexivity|].
  rewrite (H x) by (cbn; left; reflexivity). reflexivity.
Qed.

Lemma lookup_local_cons x y (d : DataArray Data) rho :
  lookup_local x ((y, d) :: rho) = if String.eqb x y then Some d else lookup_local x rho.
Proof. reflexivity. Qed.

(** In a block that assigns each local once, the locals at the end of a
    successful run are the locals every statement saw: each statement,
    evaluated under the final locals, returns the array it returned in the
    run, and the indicator results of the run are the arrays its [Emit]
    statements store. *)
Lemma replay_fixed (fl : list Filter) (ds : Dataset Data) blk : forall rho d rs evs fr,
  replay ds blk (mkFrame rho d) rs = Some (evs, fr) ->
  Forall (answered lib fl) evs ->
  List.NoDup (flat_map assigned blk) ->
  (forall x, In x (flat_map assigned blk) -> lookup_local x rho = None) ->
  Forall (fun st => is_emit st = is_indicator (stmt_fn st)) blk ->
  extends rho (locals fr) /\
  Forall (fun st => exists r, stmt_value lib fl ds (locals fr) st = Ok r /\
                              forall x, In x (assigned st) ->
                                        lookup_local x (locals fr) = Some r) blk /\
  indicator_results evs = stored_under lib fl ds (locals fr) blk.
Proof.
  induction blk as [|st blk IH]; intros rho d rs evs fr H Hans Hnd Hfresh Hcls.
  - apply replay_nil in H as (_ & -> & ->). repeat split; [intros x v; tauto|constructor].
  - apply replay_cons in H as (r & rs' & vs & evs' & -> & Ha & -> & H).
    apply Forall_cons in Hans as [Hr Hans]. cbn in Hr, Ha.
    apply Forall_cons in Hcls as [Hst Hcls].
    cbn [flat_map] in Hnd, Hfresh.
    apply NoDup_ListNoDup, NoDup_app in Hnd as (_ & Hdisj & Hnd).
    apply NoDup_ListNoDup in Hnd.
    assert (Hext1 : extends rho (locals (bind_result (mkFrame rho d) st r))).
    { destruct st as [x fn args kw|fn args kw]; cbn [bind_result locals];
        [|intros y v; tauto].
      intros y v Hy. rewrite lookup_local_cons.
      destruct (String.eqb_spec y x) as [->|_]; [|exact Hy].
      rewrite Hfresh in Hy by (apply in_or_app; left; left; reflexivity). discriminate. }
    assert (Hfresh1 : forall x, In x (flat_map assigned blk) ->
                      lookup_local x (locals (bind_result (mkFrame rho d) st r)) = None).
    { intros y Hy. pose proof (Hfresh y (in_or_app _ _ _ (or_intror Hy))) as Hn.
      destruct st as [x fn args kw|fn args kw]; cbn [bind_result locals]; [|exact Hn].
      rewrite lookup_local_cons. destruct (String.eqb_spec y x) as [->|_]; [|exact Hn].
      exfalso. apply (Hdisj x); apply list_elem_of_In; [left; reflexivity|exact Hy]. }
    destruct (bind_result (mkFrame rho d) st r) as [rho1 d1] eqn:Hb.
    specialize (IH rho1 d1 rs' evs' fr H Hans Hnd Hfresh1 Hcls) as (Hext & Hall & Hres).
    cbn [locals] in Hext1.
    assert (Hval : stmt_value lib fl ds (locals fr) st = Ok r).
    { unfold stmt_value.
      rewrite (args_values_extends ds rho (locals fr) _ vs); [exact Hr| |exact Ha].
      intros y v Hy. apply Hext, Hext1, Hy. }
    repeat split.
    + intros y v Hy. apply Hext, Hext1, Hy.
    + constructor; [|exact Hall]. exists r. split; [exact Hval|].
      intros x Hx. apply Hext. destruct st as [x' fn args kw|fn args kw]; [|destruct Hx].
      destruct Hx as [<-|[]]. cbn in Hb. injection Hb as <- _.
      rewrite lookup_local_cons, String.eqb_refl. reflexivity.
    + cbn [indicator_results stored_under flat_map]. fold (indicator_results evs').
      fold (stored_under lib fl ds (locals fr) blk).
      rewrite <- Hst, Hval, Hres. reflexivity.
Qed.

(** A block whose statements each have a value under the locals [rho'],
    run in an order in which every local is assigned before it is read,
    succeeds and stores the values its [Emit] statements have under
    [rho']. *)
Lemma eval_block_scoped (fl : list Filter) (ds : Dataset Data) rho' blk :
  forall rho d defined,
  Forall (fun st => exists r, stmt_value lib fl ds rho' st = Ok r /\
                              forall x, In x (assigned st) ->
                                        lookup_local x rho' = Some r) blk ->
  well_scoped defined blk = true ->
  (forall x, In x defined -> lookup_local x rho = lookup_local x rho') ->
  exists fr,
    eval_block lib fl ds blk (mkFrame rho d) = Ok fr /\
    ds_out fr = fold_left store (stored_under lib fl ds rho' blk) d.
Proof.
  induction blk as [|st blk IH]; intros rho d defined Hall Hws Hagree.
  - exists (mkFrame rho d). split; reflexivity.
  - apply Forall_cons in Hall as [(r & Hval & Hx) Hall].
    cbn [well_scoped] in Hws. apply andb_prop in Hws as [Huse Hws].
    rewrite forallb_forall in Huse.
    assert (Hval' : stmt_value lib fl ds rho st = Ok r).
    { rewrite <- Hval. unfold stmt_value.
      rewrite (args_values_agree ds rho rho'); [reflexivity|].
      intros x Hin. apply Hagree. specialize (Huse x Hin).
      apply existsb_exists in Huse as (y & Hy & ->%String.eqb_eq). exact Hy. }
    cbn [eval_block locals]. rewrite Hval'.
    destruct (bind_result (mkFrame rho d) st r) as [rho1 d1] eqn:Hb.
    destruct (IH rho1 d1 (assigned st ++ defined) Hall Hws) as (fr & He & Hd).
    { intros x Hin. destruct st as [x' fn args kw|fn args kw]; cbn in Hb, Hin;
        injection Hb as <- <-.
      - rewrite lookup_local_cons. destruct (String.eqb_spec x x') as [->|Hne].
        + symmetry. apply Hx. left. reflexivity.
        + destruct Hin as [->|Hin]; [contradiction|]. apply Hagree, Hin.
      - apply Hagree, Hin. }
    exists fr. split; [exact He|]. rewrite Hd.
    cbn [stored_under flat_map]. fold (stored_under lib fl ds rho' blk).
    destruct st as [x' fn args kw|fn args kw]; cbn in Hb |- *; injection Hb as <- <-.
    + reflexivity.
    + rewrite Hval. reflexivity.
Qed.

(** Arrays with pairwise distinct names can be stored in any order. *)
Lemma fold_store_permutation (l l' : list (DataArray Data)) :
  Permutation l l' -> List.NoDup (map da_name l) ->
  forall d, fold_left store l d = fold_left store l' d.
Proof.
  induction 1 as [|r l l' Hp IH|r r' l|l l' l'' Hp IH Hp' IH']; intros Hnd d.
  - reflexivity.
  - cbn. apply IH. cbn in Hnd. apply List.NoDup_cons_iff in Hnd. tauto.
  - cbn. f_equal. unfold store, setitem. cbn. f_equal.
    cbn in Hnd. apply List.NoDup_cons_iff in Hnd as [Hni _].
    apply insert_insert_ne. intros Heq. apply Hni. left. exact Heq.
  - rewrite IH by exact Hnd. apply IH'.
    apply (Permutation_NoDup (Permutation_map da_name Hp)), Hnd.
Qed.

Lemma indicator_block_single_assignment : List.NoDup (flat_map assigned indicator_block).
Proof. cbn. repeat constructor; cbn; intuition discriminate. Qed.

(** The block part of the order theorem: a reordered block, run from the
    same state, ends with the same output dataset. *)
Lemma exec_block_reordered ds d0 blk' (s s3 : St Data) fr :
  Permutation indicator_block blk' ->
  well_scoped [] blk' = true ->
  exec_block lib ds indicator_block (mkFrame [] d0) s = (s3, Ok fr) ->
  (forall evs, log s3 = rev evs ++ log s ->
               List.NoDup (map da_name (indicator_results evs))) ->
  exists fr',
    (exec_block lib ds blk' (mkFrame [] d0) s).2 = Ok fr' /\
    ds_out fr' = ds_out fr.
Proof.
  intros Hp Hws H3 Hnd.
  apply exec_block_answered in H3 as (rs & evs & Hr & Hl & Hans).
  specialize (Hnd evs Hl).
  pose proof (replay_store _ _ _ _ _ _ indicator_block_emits Hr) as (Hds & _ & _).
  destruct (replay_fixed _ ds _ _ _ _ _ _ Hr Hans indicator_block_single_assignment)
    as (_ & Hall & Hres); [reflexivity|exact indicator_block_emits|].
  pose proof Hall as Hall'. rewrite Hp in Hall'.
  destruct (eval_block_scoped (w_filters (world s)) ds (locals fr) blk' [] d0 [] Hall' Hws)
    as (fr' & He & Hd); [intros x []|].
  exists fr'. split.
  - rewrite (proj1 (exec_block_eval ds blk' _ s)). exact He.
  - rewrite Hd, Hds. cbn [ds_out]. rewrite Hres in Hnd |- *. symmetry.
    apply fold_store_permutation; [|exact Hnd].
    unfold stored_under. rewrite Hp. reflexivity.
Qed.

(** C6.  Take any reordering of the twenty-four statements of the block in
    which every local array is still assigned before the statements that
    read it, and a run of the script that ends without exception and whose
    twenty indicator results carry pairwise distinct names.  Then the script
    with the reordered block, started in the same world, also ends without
    exception, hands the same dataset with the same encodings to the writer
    under the same path, and leaves the same files on disk. *)
Theorem indicator_order_irrelevant (w : World) s' blk' :
  Permutation indicator_block blk' ->
  well_scoped [] blk' = true ->
  run (do_generate_indices user lib) w = (s', Ok tt) ->
  List.NoDup (map da_name (indicator_results (history s'))) ->
  exists s'',
    run (pipeline_with user lib blk') w = (s'', Ok tt) /\
    List.filter is_write (history s'') = List.filter is_write (history s') /\
    w_fs (world s'') = w_fs (world s').
Proof.
  intros Hp Hws Hrun Hnd. apply do_generate_indices_success in Hrun.
  revert Hrun.
  unfold run, pipeline_with, bind, ask_folder, ask_save, raise. cbn [record world log].
  destruct (truthy (get_folder_path user _)); cbn [negb]; [|discriminate].
  destruct (truthy (get_save_path user _)); cbn [negb]; [|discriminate].
  destruct (open_mfdataset _ _ _ _) as [s1 [ds0|e]] eqn:H1; [|discriminate].
  destruct (resample_mean _ _ _ _ _) as [s2 [ds|e]] eqn:H2; [|discriminate].
  unfold open_mfdataset in H1. apply extern_inv in H1 as (L1 & _).
  apply extern_inv in H2 as (L2 & _). cbn in L1.
  destruct (exec_block lib ds indicator_block _ s2) as [s3 [fr|e]] eqn:H3; [|discriminate].
  pose proof (exec_block_eval ds indicator_block (mkFrame [] (Dataset_new (attrs ds))) s2)
    as (_ & Fl & Fs & _). rewrite H3 in Fl, Fs. cbn [fst] in Fl, Fs.
  pose proof (exec_block_calls ds indicator_block (mkFrame [] (Dataset_new (attrs ds))) s2)
    as (cs & Lc & Cc). rewrite H3 in Lc. cbn [fst] in Lc.
  pose proof (exec_block_eval ds blk' (mkFrame [] (Dataset_new (attrs ds))) s2)
    as (_ & Fl' & Fs' & _).
  pose proof (exec_block_calls ds blk' (mkFrame [] (Dataset_new (attrs ds))) s2)
    as (cs' & Lc' & Cc').
  unfold encodings_for, to_netcdf, bind. rewrite !extern_run. cbn [fst snd world log show w_filters w_fs].
  destruct (perform (w_filters (world s3)) (get_to_netcdf_encodings _ _ _)) as [enc|e] eqn:H4;
    [|discriminate].
  rewrite !extern_run. cbn [fst snd world log show w_filters w_fs write_file].
  destruct (perform (w_filters (world s3)) (nc_bytes _ _ _ _ _)) as [bytes|e] eqn:H5;
    [|discriminate].
  intros [= <-].
  destruct (exec_block_reordered ds _ blk' s2 s3 fr Hp Hws H3) as (fr' & Hr' & Hd').
  { intros evs Hl. revert Hnd. unfold history. cbn [log]. rewrite Hl, L2, L1.
    cbn [log write_file rev]. rewrite rev_app_distr, rev_involutive, !indicator_results_app. cbn.
    rewrite !app_nil_r. tauto. }
  destruct (exec_block lib ds blk' _ s2) as [s3' r'] eqn:H3'. cbn [fst snd] in *. subst r'.
  rewrite Hd', extern_run, Fl', <- Fl, H4, extern_run.
  cbn [fst snd world log show w_filters w_fs write_file].
  rewrite Fl', <- Fl, H5. eexists. split; [reflexivity|].
  unfold history. cbn [world log w_fs write_file show].
  rewrite !List.filter_rev, Lc, Lc', Fs, Fs'.
  split; [|reflexivity]. f_equal. cbn [List.filter is_write].
  rewrite !List.filter_app, (filter_calls_nil is_write cs), (filter_calls_nil is_write cs');
    try assumption; try (intros [] ?; try discriminate; reflexivity).
  reflexivity.
Qed.

(** ** Two runs *)

Lemma sim_ret {A} (R : St Data -> St Data -> Prop) (a : A) : sim R (ret a).
Proof. intros s1 s2 H. split; [reflexivity|exact H]. Qed.

Lemma sim_raise {A} (R : St Data -> St Data -> Prop) e : sim R (@raise Data A e).
Proof. intros s1 s2 H. split; [reflexivity|exact H]. Qed.

Lemma sim_bind {A B} (R : St Data -> St Data -> Prop) (m : M Data A) (k : A -> M Data B) :
  sim R m -> (forall a, sim R (k a)) -> sim R (bind m k).
Proof.
  intros Hm Hk s1 s2 H. unfold bind. destruct (Hm s1 s2 H) as [Hr Hs].
  destruct (m s1) as [s1' r1], (m s2) as [s2' r2]. cbn in *. subst r2.
  destruct r1 as [a|e]; [apply Hk, Hs|]. split; [reflexivity|exact Hs].
Qed.

Lemma sim_var {A} (R : St Data -> St Data -> Prop) ds v (k : DataArray Data -> M Data A) :
  (forall a, sim R (k a)) -> sim R (bind (var ds v) k).
Proof.
  intros Hk. apply sim_bind; [|exact Hk].
  unfold var. destruct (_ !! _); [apply sim_ret|apply sim_raise].
Qed.

Lemma sim_ask_folder {A} (R : St Data -> St Data -> Prop) t (k : option string -> M Data A) :
  (forall s1 s2, R s1 s2 -> R (record (EvFolderDialog t (get_folder_path user t)) s1)
                              (record (EvFolderDialog t (get_folder_path user t)) s2)) ->
  sim R (k (get_folder_path user t)) ->
  sim R (bind (ask_folder user t) k).
Proof. intros Hr Hk s1 s2 H. unfold bind, ask_folder. apply Hk, Hr, H. Qed.

Lemma sim_ask_save {A} (R : St Data -> St Data -> Prop) t (k : option string -> M Data A) :
  (forall s1 s2, R s1 s2 -> R (record (EvSaveDialog t (get_save_path user t)) s1)
                              (record (EvSaveDialog t (get_save_path user t)) s2)) ->
  sim R (k (get_save_path user t)) ->
  sim R (bind (ask_save user t) k).
Proof. intros Hr Hk s1 s2 H. unfold bind, ask_save. apply Hk, Hr, H. Qed.

Lemma written_cons path ev (l : list (Event Data)) :
  (forall ds engine enc, ev <> EvWrite ds path engine enc (Ok tt)) ->
  written path (ev :: l) -> written path l.
Proof.
  intros Hev (ds & engine & enc & [Heq|Hin]); [destruct (Hev _ _ _ Heq)|].
  exists ds, engine, enc. exact Hin.
Qed.

(** Logging a call that is not a write keeps two states related. *)
Lemma related_record pat ev (s1 s2 : St Data) :
  is_write ev = false -> related lib pat s1 s2 -> related lib pat (record ev s1) (record ev s2).
Proof.
  intros Hev (Hl & H1 & H2 & Hin & Hw). unfold related, record. cbn [log world].
  repeat split; try assumption; [congruence|].
  intros path Hp. apply Hw. apply (written_cons path ev); [|exact Hp].
  intros ds engine enc ->. discriminate.
Qed.

Lemma sim_extern {A} pat (ev : Exc A -> Event Data) r :
  (forall res, is_write (ev res) = false) -> sim (related lib pat) (extern ev r).
Proof.
  intros Hev s1 s2 H. pose proof H as (_ & H1 & H2 & _).
  rewrite (extern_silenced _ _ _ H1), (extern_silenced _ _ _ H2). cbn [fst snd].
  split; [reflexivity|]. apply (related_record pat (ev (snd r)) s1 s2 (Hev _) H).
Qed.

Lemma sim_open pat engine : sim (related lib pat) (open_mfdataset lib pat engine).
Proof.
  intros s1 s2 H. pose proof H as (_ & H1 & H2 & Hin & _).
  unfold open_mfdataset.
  rewrite (extern_silenced _ _ _ H1), (extern_silenced _ _ _ H2), Hin. cbn [fst snd].
  split; [reflexivity|].
  apply (related_record pat (EvOpen pat engine _) s1 s2 eq_refl H).
Qed.

Lemma input_files_insert pat path f (fs1 fs2 : gmap string File) :
  input_files lib pat fs1 = input_files lib pat fs2 ->
  input_files lib pat (<[path := f]> fs1) = input_files lib pat (<[path := f]> fs2).
Proof.
  unfold input_files. intros H. rewrite !map_filter_insert, !map_filter_delete, H.
  reflexivity.
Qed.

Lemma sim_to_netcdf pat ds path engine enc :
  sim (related lib pat) (to_netcdf lib ds path engine enc).
Proof.
  intros s1 s2 H. pose proof H as (Hl & H1 & H2 & Hin & Hw).
  unfold to_netcdf, bind.
  rewrite (extern_silenced _ _ _ H1), (extern_silenced _ _ _ H2).
  destruct (snd (nc_bytes lib ds path engine enc)) as [f|e]; cbn [fst snd].
  - split; [reflexivity|]. unfold related, write_file. cbn [log world w_fs w_filters].
    repeat split; try assumption; [congruence|apply input_files_insert, Hin|].
    intros p Hp. destruct (decide (path = p)) as [->|Hne].
    + rewrite !lookup_insert_eq. reflexivity.
    + rewrite !lookup_insert_ne by exact Hne. apply Hw.
      apply (written_cons p _ _) in Hp; [exact Hp|]. intros ? ? ? [=]. congruence.
  - split; [reflexivity|]. unfold related. cbn [log world].
    repeat split; try assumption; [congruence|].
    intros p Hp. apply Hw. apply (written_cons p _ _) in Hp; [exact Hp|].
    intros ? ? ? [=].
Qed.

Lemma sim_print pat msg : sim (related lib pat) (@print Data msg).
Proof.
  intros s1 s2 (Hl & H1 & H2 & Hin & Hw). split; [reflexivity|].
  unfold related, print. cbn [fst log world w_fs w_filters].
  repeat split; try assumption; [congruence|].
  intros p Hp. apply Hw. apply (written_cons p _ _) in Hp; [exact Hp|]. intros ? ? ? [=].
Qed.

Ltac through_both :=
  repeat match goal with
    | |- sim _ (bind (ask_folder _ _) _) => apply sim_ask_folder
    | |- sim _ (bind (ask_save _ _) _) => apply sim_ask_save
    | |- sim _ (bind (var _ _) _) => apply sim_var; intros ?
    | |- sim _ (bind _ _) => apply sim_bind; [|intros ?]
    | |- sim _ (if ?b then _ else _) => destruct b eqn:?
    | |- sim _ (raise _) => apply sim_raise
    | |- sim _ (ret _) => apply sim_ret
    end.

(** Two silenced runs of the script from related states stay related. *)
Lemma sim_do_generate_indices :
  sim (related lib (str_of (get_folder_path user "Select input folder") ++ "*.nc")%string)
      (do_generate_indices user lib).
Proof.
  unfold do_generate_indices. cbv zeta.
  through_both;
    first [ apply sim_open | apply sim_to_netcdf
          | apply sim_extern; intros res; reflexivity
          | intros s1 s2; apply related_record; reflexivity ].
Qed.

(** The script depends on the user only through the answers to its two
    dialogs. *)
Lemma do_generate_indices_answers (user' : User) (s : St Data) :
  get_folder_path user' "Select input folder" = get_folder_path user "Select input folder" ->
  get_save_path user' "Select output file" = get_save_path user "Select output file" ->
  do_generate_indices user' lib s = do_generate_indices user lib s.
Proof.
  intros Hf Hs. unfold do_generate_indices, bind, ask_folder, ask_save.
  rewrite Hf, Hs. reflexivity.
Qed.

(** A run that ends without exception ended with the write of the output
    file. *)
Lemma do_generate_indices_written (s s' : St Data) :
  do_generate_indices user lib s = (s', Ok tt) ->
  written (str_of (get_save_path user "Select output file")) (log s') /\
  is_Some (w_fs (world s') !! str_of (get_save_path user "Select output file")).
Proof.
  rewrite pipeline_with_indicator_block.
  unfold pipeline_with, bind, ask_folder, ask_save, raise.
  destruct (truthy (get_folder_path user _)); cbn [negb]; [|discriminate].
  destruct (truthy (get_save_path user _)); cbn [negb]; [|discriminate].
  destruct (open_mfdataset _ _ _ _) as [s1 [ds0|e]]; [|discriminate].
  destruct (resample_mean _ _ _ _ _) as [s2 [ds|e]]; [|discriminate].
  destruct (exec_block _ _ _ _ _) as [s3 [fr|e]]; [|discriminate].
  destruct (encodings_for _ _ _ _) as [s4 [enc|e]]; [|discriminate].
  unfold to_netcdf, bind.
  destruct (extern _ _ s4) as [s5 [bytes|e]] eqn:H5; [|discriminate].
  intros [= <-]. apply extern_inv in H5 as (L5 & _). split.
  - exists (ds_out fr), "netcdf4", enc. cbn. rewrite L5. left. reflexivity.
  - cbn. rewrite lookup_insert_eq. eexists. reflexivity.
Qed.

(** The [__main__] block, unfolded: the ignore filter is installed, the
    script runs, "Done!!!" is printed when it returns, and the filters are
    put back at the end either way. *)
Lemma main_run (u : User) (w : World) :
  run (main u lib) w =
  match do_generate_indices u lib
          (record (EvFilterWarnings ActIgnore)
                  (set_filters (mkFilter ActIgnore (fun _ => true) :: w_filters w)
                               (mkSt w []))) with
  | (s2, Ok _) => (set_filters (w_filters w) (print "Done!!!" s2).1, Ok tt)
  | (s2, Err e) => (set_filters (w_filters w) s2, Err e)
  end.
Proof.
  unfold run, main, catch_warnings, bind. cbn [filterwarnings world w_filters].
  destruct (do_generate_indices u lib _) as [s2 [[]|e]]; reflexivity.
Qed.

(** C5.  Two runs of the script with the same answers to the two dialogs, in
    two worlds in which the glob pattern denotes the same files with the
    same contents, end the same way, make the same calls with the same
    arguments and results, and, when they end without exception, leave the
    same bytes in the output file.  Nothing else of the worlds matters: not
    the other files, not an older output file, not the warnings filters. *)
Theorem same_input_same_output (user' : User) (w w' : World) :
  get_folder_path user' "Select input folder" = get_folder_path user "Select input folder" ->
  get_save_path user' "Select output file" = get_save_path user "Select output file" ->
  input_files lib (str_of (get_folder_path user "Select input folder") ++ "*.nc")%string
              (w_fs w') =
  input_files lib (str_of (get_folder_path user "Select input folder") ++ "*.nc")%string
              (w_fs w) ->
  (run (main user' lib) w').2 = (run (main user lib) w).2 /\
  history (run (main user' lib) w').1 = history (run (main user lib) w).1 /\
  ((run (main user lib) w).2 = Ok tt ->
   is_Some (w_fs (world (run (main user lib) w).1)
              !! str_of (get_save_path user "Select output file")) /\
   w_fs (world (run (main user' lib) w').1)
     !! str_of (get_save_path user "Select output file") =
   w_fs (world (run (main user lib) w).1)
     !! str_of (get_save_path user "Select output file")).
Proof.
  intros Hf Hs Hin. rewrite !main_run.
  rewrite (do_generate_indices_answers user' _ Hf Hs).
  set (s1 := record _ (set_filters _ (mkSt w []))).
  set (s1' := record _ (set_filters _ (mkSt w' []))).
  assert (Hrel : related lib (str_of (get_folder_path user "Select input folder") ++ "*.nc")%string
                         s1' s1).
  { subst s1 s1'. unfold related, record, set_filters. cbn.
    repeat split; try (eexists; reflexivity); [exact Hin|].
    intros path (ds & engine & enc & [[=]|[]]). }
  destruct (sim_do_generate_indices s1' s1 Hrel) as [Hr Hrel2].
  pose proof (do_generate_indices_written s1) as Hwr.
  destruct (do_generate_indices user lib s1') as [s2' r'].
  destruct (do_generate_indices user lib s1) as [s2 r]. cbn [fst snd] in Hr, Hrel2. subst r'.
  destruct Hrel2 as (Hl & _ & _ & _ & Hw).
  destruct r as [[]|e]; unfold history;
    cbn [fst snd print set_filters world log w_fs]; rewrite Hl.
  - destruct (Hwr s2 eq_refl) as [Hwr1 Hwr2].
    split; [reflexivity|]. split; [reflexivity|]. intros _.
    split; [exact Hwr2|]. apply Hw. rewrite Hl. exact Hwr1.
  - repeat split; try reflexivity; discriminate.
Qed.

(** ** Cancelled dialogs *)

(** C3.  When the folder dialog or the save dialog returns a falsy answer,
    [do_generate_indices] raises [Exception] with the message of the dialog
    that was cancelled, right after that dialog: the calls made are the
    folder dialog and, only when the folder was chosen, the save dialog.  The
    dataset is not loaded, no indicator is computed, nothing is written, and
    the world (the files on disk included) is what it was.  The script as a
    whole ends with the same exception, without output file and without
    reaching its final [print]. *)
Theorem cancelled_dialog_aborts (w : World) :
  truthy (get_folder_path user "Select input folder") = false \/
  truthy (get_save_path user "Select output file") = false ->
  exists s' msg,
    run (do_generate_indices user lib) w = (s', Err (Exception msg)) /\
    msg = (if truthy (get_folder_path user "Select input folder")
           then "Save file selection aborted" else "Folder selection aborted") /\
    history s' =
      EvFolderDialog "Select input folder" (get_folder_path user "Select input folder") ::
      (if truthy (get_folder_path user "Select input folder")
       then [EvSaveDialog "Select output file" (get_save_path user "Select output file")]
       else []) /\
    forallb is_dialog (history s') = true /\
    world s' = w /\
    (run (main user lib) w).2 = Err (Exception msg) /\
    world (run (main user lib) w).1 = w.
Proof.
  intros Hc. unfold run, main, catch_warnings, do_generate_indices, bind,
    filterwarnings, ask_folder, ask_save, raise, history.
  destruct w as [fs fl er out].
  destruct (truthy (get_folder_path user "Select input folder")) eqn:Hf; cbn.
  - destruct Hc as [Hc|Hc]; [discriminate|]. rewrite Hc. cbn.
    do 2 eexists. repeat split; reflexivity.
  - do 2 eexists. repeat split; reflexivity.
Qed.

(** ** Warnings *)

(** C7.  Whatever warnings the external calls issue and whatever filters are
    installed when the script starts, a run of the script shows no warning:
    the error stream after the run is the error stream before it.  The
    filter is installed by the [__main__] block around the call of
    [do_generate_indices], and the filters are put back when the block is
    left. *)
Theorem warnings_suppressed (w : World) :
  w_stderr (world (run (main user lib) w).1) = w_stderr w /\
  w_filters (world (run (main user lib) w).1) = w_filters w.
Proof.
  unfold run, main, catch_warnings.
  set (body := bind (filterwarnings ActIgnore) _).
  assert (Hq : quiet (w_stderr w) (body (mkSt w [])).1).
  { subst body. unfold bind at 1. cbn [filterwarnings].
    apply (preserves_bind (quiet (w_stderr w))).
    - apply quiet_do_generate_indices.
    - intros _. apply quiet_print.
    - split; [eexists; reflexivity|reflexivity]. }
  destruct (body (mkSt w [])) as [s' r]. cbn in *.
  destruct Hq as [_ He]. split; [exact He|reflexivity].
Qed.

(** ** Failures *)

Lemma fatal_ret {A} (a : A) : fatal (@ret Data A a).
Proof. intros s H. exact H. Qed.

Lemma fatal_raise {A} e : In e own_errors -> fatal (@raise Data A e).
Proof. intros He s H. right. split; assumption. Qed.

Lemma fatal_bind {A B} (m : M Data A) (k : A -> M Data B) :
  fatal m -> (forall a, fatal (k a)) -> fatal (bind m k).
Proof.
  intros Hm Hk s H. unfold bind. specialize (Hm s H).
  destruct (m s) as [s' [a|e]]; [apply Hk, Hm|exact Hm].
Qed.

Lemma fatal_var {A} ds v (k : DataArray Data -> M Data A) :
  In (AttributeError v) own_errors -> (forall a, fatal (k a)) -> fatal (bind (var ds v) k).
Proof.
  intros Hv Hk. apply fatal_bind; [|exact Hk].
  unfold var. destruct (_ !! _); [apply fatal_ret|apply fatal_raise, Hv].
Qed.

Lemma fatal_ask_folder {A} t (k : option string -> M Data A) :
  fatal (k (get_folder_path user t)) -> fatal (bind (ask_folder user t) k).
Proof.
  intros Hk s H. unfold bind, ask_folder. apply Hk. constructor; [reflexivity|exact H].
Qed.

Lemma fatal_ask_save {A} t (k : option string -> M Data A) :
  fatal (k (get_save_path user t)) -> fatal (bind (ask_save user t) k).
Proof.
  intros Hk s H. unfold bind, ask_save. apply Hk. constructor; [reflexivity|exact H].
Qed.

(** A call of external code that raises is the newest entry of the log and
    ends with the exception it raised. *)
Lemma fatal_extern {A} (ev : Exc A -> Event Data) r :
  (forall a, event_error (ev (Ok a)) = None) ->
  (forall e, event_error (ev (Err e)) = Some e) ->
  fatal (extern ev r).
Proof.
  intros Hok Herr s H. destruct (extern ev r s) as [s' res] eqn:E.
  apply extern_inv in E as (Hl & _). rewrite Hl. destruct res as [a|e].
  - constructor; [apply Hok|exact H].
  - left. exists (ev (Err e)), (log s). auto.
Qed.

Lemma fatal_open paths engine : fatal (open_mfdataset lib paths engine).
Proof.
  intros s H. unfold open_mfdataset.
  apply (fatal_extern (EvOpen paths engine)); [reflexivity|reflexivity|exact H].
Qed.

Lemma fatal_to_netcdf ds path engine enc : fatal (to_netcdf lib ds path engine enc).
Proof.
  unfold to_netcdf. apply fatal_bind.
  - apply fatal_extern; reflexivity.
  - intros f s H. exact H.
Qed.

Ltac through_fatal :=
  repeat match goal with
    | |- fatal (bind (ask_folder _ _) _) => apply fatal_ask_folder
    | |- fatal (bind (ask_save _ _) _) => apply fatal_ask_save
    | |- fatal (bind (var _ _) _) => apply fatal_var; [cbn; tauto|intros ?]
    | |- fatal (bind _ _) => apply fatal_bind; [|intros ?]
    | |- fatal (if ?b then _ else _) => destruct b eqn:?
    | |- fatal (raise _) => apply fatal_raise; cbn; tauto
    | |- fatal (ret _) => apply fatal_ret
    end.

Lemma fatal_do_generate_indices : fatal (do_generate_indices user lib).
Proof.
  unfold do_generate_indices. cbv zeta.
  through_fatal;
    first [ apply fatal_open | apply fatal_to_netcdf | apply fatal_extern; reflexivity ].
Qed.

Lemma unfailed_nil : unfailed (@nil (Event Data)).
Proof. constructor. Qed.

Lemma unfailed_rev (l : list (Event Data)) : unfailed l -> unfailed (rev l).
Proof. unfold unfailed. rewrite !List.Forall_forall. intros H x Hx. apply H, in_rev, Hx. Qed.

(** X1.  The script catches nothing: the first call of external code that
    raises is the last call of the run, no call before it raised, and the
    run ends with exactly the exception that call raised. *)
Theorem first_error_is_fatal (w : World) pre ev post e :
  history (run (do_generate_indices user lib) w).1 = pre ++ ev :: post ->
  event_error ev = Some e ->
  post = [] /\ unfailed pre /\ (run (do_generate_indices user lib) w).2 = Err e.
Proof.
  intros Hh He. pose proof (fatal_do_generate_indices (mkSt w []) unfailed_nil) as H.
  unfold run in *. destruct (do_generate_indices user lib _) as [s' r]. cbn [fst snd] in *.
  assert (Hbad : ~ unfailed (log s')).
  { intros Hu. apply unfailed_rev in Hu. fold (history s') in Hu. rewrite Hh in Hu.
    apply Forall_app in Hu as [_ Hu]. apply Forall_cons in Hu as [Hu _]. congruence. }
  destruct r as [a|e']; [contradiction|]. destruct H as [(ev' & l & Hl & He' & Hu)|[Hu _]];
    [|contradiction].
  unfold history in Hh. rewrite Hl in Hh. cbn [rev] in Hh.
  apply unfailed_rev in Hu.
  destruct post as [|x post _] using rev_ind.
  - apply app_inj_tail in Hh as [<- <-]. repeat split; [exact Hu|congruence].
  - rewrite app_comm_cons, app_assoc in Hh. apply app_inj_tail in Hh as [Hh _].
    rewrite Hh in Hu. apply Forall_app in Hu as [_ Hu]. apply Forall_cons in Hu as [Hu _].
    congruence.
Qed.

(** X2.  A run ends with an exception in one of two ways only.  Either the
    exception is one of the five the script raises itself (a cancelled
    dialog, or one of [pr], [tasmax], [tasmin] missing from the dataset) and
    no call of the run raised; or it is, unchanged, the exception raised by
    the last call of the run. *)
Theorem exception_is_own_or_last_call (w : World) e :
  (run (do_generate_indices user lib) w).2 = Err e ->
  (In e own_errors /\ unfailed (history (run (do_generate_indices user lib) w).1)) \/
  (exists pre ev,
     history (run (do_generate_indices user lib) w).1 = pre ++ [ev] /\
     event_error ev = Some e /\ unfailed pre).
Proof.
  intros Hr. pose proof (fatal_do_generate_indices (mkSt w []) unfailed_nil) as H.
  unfold run in *. destruct (do_generate_indices user lib _) as [s' r]. cbn [fst snd] in *.
  subst r. destruct H as [(ev & l & Hl & He & Hu)|[Hu Hown]].
  - right. exists (rev l), ev. unfold history. rewrite Hl. cbn [rev].
    repeat split; [exact He|apply unfailed_rev, Hu].
  - left. split; [exact Hown|apply unfailed_rev, Hu].
Qed.

(** ** The terminal *)

Lemma unprinted_extern {A} out (ev : Exc A -> Event Data) r :
  (forall res, is_print (ev res) = false) -> preserves (unprinted out) (extern ev r).
Proof.
  intros Hev s [Ho Hl]. destruct (extern ev r s) as [s' res] eqn:E.
  apply extern_inv in E as (L & _ & _ & O). split; cbn; [congruence|].
  rewrite L. constructor; [apply Hev|exact Hl].
Qed.

Lemma unprinted_do_generate_indices out :
  preserves (unprinted out) (do_generate_indices user lib).
Proof.
  unfold do_generate_indices. cbv zeta.
  through_script;
    lazymatch goal with
    | |- forall s, _ -> unprinted _ (record _ s) =>
        intros s [Ho Hl]; split; [exact Ho|constructor; [reflexivity|exact Hl]]
    | |- preserves _ (open_mfdataset _ _ _) =>
        intros s Hs; unfold open_mfdataset; apply unprinted_extern; [reflexivity|exact Hs]
    | |- preserves _ (to_netcdf _ _ _ _ _) =>
        unfold to_netcdf; apply preserves_bind;
        [apply unprinted_extern; reflexivity|intros f s Hs; exact Hs]
    | |- _ => apply unprinted_extern; reflexivity
    end.
Qed.

Lemma main_unprinted (w : World) :
  unprinted (w_stdout w)
    (do_generate_indices user lib
       (record (EvFilterWarnings ActIgnore)
               (set_filters (mkFilter ActIgnore (fun _ => true) :: w_filters w)
                            (mkSt w [])))).1.
Proof.
  apply unprinted_do_generate_indices. split; [reflexivity|]. cbn. repeat constructor.
Qed.

(** X3.  The script prints exactly one line, "Done!!!", and only when
    [do_generate_indices] returned: after a run the output stream is the old
    one plus that line when the run ended without exception, and the old one
    when it ended with an exception; [do_generate_indices] itself prints
    nothing. *)
Theorem done_printed_iff_success (w : World) :
  w_stdout (world (run (main user lib) w).1) =
    w_stdout w ++ (match (run (main user lib) w).2 with
                   | Ok _ => ["Done!!!"]
                   | Err _ => []
                   end) /\
  List.filter is_print (history (run (main user lib) w).1) =
    (match (run (main user lib) w).2 with
     | Ok _ => [EvPrint "Done!!!"]
     | Err _ => []
     end) /\
  w_stdout (world (run (do_generate_indices user lib) w).1) = w_stdout w.
Proof.
  pose proof (main_unprinted w) as [Ho Hl].
  pose proof (filter_none is_print _ (proj1 (List.Forall_forall _ _) Hl)) as Hf.
  rewrite main_run.
  destruct (do_generate_indices user lib _) as [s2 [[]|e]];
    unfold history; cbn [fst snd print set_filters world log w_stdout rev] in *.
  - rewrite Ho, List.filter_app, List.filter_rev, Hf. repeat split.
    apply (proj1 (unprinted_do_generate_indices (w_stdout w) (mkSt w [])
                    (conj eq_refl (List.Forall_nil _)))).
  - rewrite Ho, List.filter_rev, Hf, app_nil_r. repeat split.
    apply (proj1 (unprinted_do_generate_indices (w_stdout w) (mkSt w [])
                    (conj eq_refl (List.Forall_nil _)))).
Qed.

(** ** The disk *)

Lemma file_is_extern {A} path f (ev : Exc A -> Event Data) r :
  preserves (file_is path f) (extern ev r).
Proof.
  intros s H. destruct (extern ev r s) as [s' res] eqn:E.
  apply extern_inv in E as (_ & F & _). unfold file_is in *. cbn. congruence.
Qed.

(** The script leaves every file but the one it was told to write. *)
Lemma file_is_do_generate_indices path f :
  path <> str_of (get_save_path user "Select output file") ->
  preserves (file_is path f) (do_generate_indices user lib).
Proof.
  intros Hne. unfold do_generate_indices. cbv zeta.
  through_script;
    lazymatch goal with
    | |- forall s, _ -> file_is _ _ (record _ s) => intros s Hs; exact Hs
    | |- preserves _ (open_mfdataset _ _ _) =>
        intros s Hs; unfold open_mfdataset; apply file_is_extern; exact Hs
    | |- preserves _ (to_netcdf _ _ _ _ _) =>
        unfold to_netcdf; apply preserves_bind;
        [apply file_is_extern
        |intros b s Hs; unfold file_is in *; cbn;
         rewrite lookup_insert_ne by congruence; exact Hs]
    | |- _ => apply file_is_extern
    end.
Qed.

(** X4.  A run touches no file but the chosen output file: every other
    path holds after the run what it held before, whether the run ends
    with or without exception.  In particular the input files are intact
    unless the output path is one of them. *)
Theorem other_files_untouched (w : World) path :
  path <> str_of (get_save_path user "Select output file") ->
  w_fs (world (run (main user lib) w).1) !! path = w_fs w !! path /\
  w_fs (world (run (do_generate_indices user lib) w).1) !! path = w_fs w !! path.
Proof.
  intros Hne. split.
  - rewrite main_run.
    match goal with |- context [do_generate_indices user lib ?s] =>
      pose proof (file_is_do_generate_indices path (w_fs w !! path) Hne s eq_refl) as H;
      destruct (do_generate_indices user lib s) as [s2 [[]|e]]
    end; exact H.
  - apply (file_is_do_generate_indices path (w_fs w !! path) Hne (mkSt w []) eq_refl).
Qed.

(** The world a run of the script ends in has the files
    [do_generate_indices] left. *)
Lemma main_files (w : World) :
  w_fs (world (run (main user lib) w).1) =
  w_fs (world (do_generate_indices user lib
                 (record (EvFilterWarnings ActIgnore)
                         (set_filters (mkFilter ActIgnore (fun _ => true) :: w_filters w)
                                      (mkSt w [])))).1).
Proof.
  rewrite main_run. destruct (do_generate_indices user lib _) as [s2 [[]|e]]; reflexivity.
Qed.

(** Files that differ only at a path the pattern does not match are the
    same input. *)
Lemma input_files_off_pattern pat out (fs fs' : gmap string File) :
  glob_match (fnmatch lib) pat out = false ->
  (forall path, path <> out -> fs' !! path = fs !! path) ->
  input_files lib pat fs' = input_files lib pat fs.
Proof.
  intros Hout Hsame. unfold input_files. apply map_filter_strong_ext. intros p f. cbn.
  split; intros [Hp Hf]; (split; [exact Hp|]);
    assert (p <> out) by (intros ->; congruence);
    [rewrite <- Hsame by assumption|rewrite Hsame by assumption]; exact Hf.
Qed.

(** X5.  Running the script again after a run that ended without
    exception, in the world that run left and with the same answers, changes
    nothing, provided the output path is not matched by the glob pattern:
    the second run ends without exception as well, makes the same calls with
    the same results, and leaves the disk exactly as it found it. *)
Theorem rerun_changes_nothing (w : World) :
  (run (main user lib) w).2 = Ok tt ->
  glob_match (fnmatch lib)
             (str_of (get_folder_path user "Select input folder") ++ "*.nc")%string
             (str_of (get_save_path user "Select output file")) = false ->
  (run (main user lib) (world (run (main user lib) w).1)).2 = Ok tt /\
  history (run (main user lib) (world (run (main user lib) w).1)).1 =
    history (run (main user lib) w).1 /\
  w_fs (world (run (main user lib) (world (run (main user lib) w).1)).1) =
    w_fs (world (run (main user lib) w).1).
Proof.
  intros Hok Hout.
  set (w1 := world (run (main user lib) w).1).
  assert (Hin : input_files lib
                  (str_of (get_folder_path user "Select input folder") ++ "*.nc")%string
                  (w_fs w1) =
                input_files lib
                  (str_of (get_folder_path user "Select input folder") ++ "*.nc")%string
                  (w_fs w)).
  { apply (input_files_off_pattern _ _ _ _ Hout). intros path Hne. subst w1.
    rewrite main_files. apply (file_is_do_generate_indices path _ Hne). reflexivity. }
  assert (Hfs1 : w_fs w1 = w_fs (world (do_generate_indices user lib
                 (record (EvFilterWarnings ActIgnore)
                         (set_filters (mkFilter ActIgnore (fun _ => true) :: w_filters w)
                                      (mkSt w [])))).1)) by apply main_files.
  pose proof (fun path Hne =>
                file_is_do_generate_indices path (w_fs w1 !! path) Hne
                  (record (EvFilterWarnings ActIgnore)
                          (set_filters (mkFilter ActIgnore (fun _ => true) :: w_filters w1)
                                       (mkSt w1 []))) eq_refl) as Hframe.
  unfold file_is in Hframe.
  revert Hok. rewrite !main_run. fold w1 in Hfs1 |- *.
  set (s1 := record _ (set_filters _ (mkSt w []))) in *.
  set (s1' := record _ (set_filters _ (mkSt w1 []))) in *.
  assert (Hrel : related lib (str_of (get_folder_path user "Select input folder") ++ "*.nc")%string
                         s1' s1).
  { subst s1 s1'. unfold related, record, set_filters. cbn.
    repeat split; try (eexists; reflexivity); [exact Hin|].
    intros path (ds & engine & enc & [[=]|[]]). }
  destruct (sim_do_generate_indices s1' s1 Hrel) as [Hr Hrel2].
  pose proof (do_generate_indices_written s1') as Hwr.
  destruct (do_generate_indices user lib s1') as [s2' r'].
  destruct (do_generate_indices user lib s1) as [s2 r]. cbn [fst snd] in *. subst r'.
  destruct r as [[]|e]; [intros _|discriminate].
  destruct Hrel2 as (Hl & _ & _ & _ & Hw). destruct (Hwr s2' eq_refl) as [Hwr1 _].
  unfold history. cbn [fst snd print set_filters world log w_fs]. rewrite Hl.
  repeat split. apply map_eq. intros path.
  destruct (decide (path = str_of (get_save_path user "Select output file"))) as [->|Hne].
  - rewrite Hfs1. apply Hw, Hwr1.
  - apply Hframe, Hne.
Qed.

(** X6.  The script does not check the output path against the input
    folder: when the output path is matched by the glob pattern, the file a
    run that ended without exception has written is among the files the
    same pattern denotes afterwards, so that the next run loads it as
    input. *)
Theorem output_joins_the_input_files (w : World) :
  (run (main user lib) w).2 = Ok tt ->
  glob_match (fnmatch lib)
             (str_of (get_folder_path user "Select input folder") ++ "*.nc")%string
             (str_of (get_save_path user "Select output file")) = true ->
  is_Some (w_fs (world (run (main user lib) w).1)
             !! str_of (get_save_path user "Select output file")) /\
  input_files lib (str_of (get_folder_path user "Select input folder") ++ "*.nc")%string
              (w_fs (world (run (main user lib) w).1))
    !! str_of (get_save_path user "Select output file") =
  w_fs (world (run (main user lib) w).1) !! str_of (get_save_path user "Select output file").
Proof.
  intros Hok Hout. rewrite main_files. revert Hok. rewrite main_run.
  match goal with |- context [do_generate_indices user lib ?s] =>
    pose proof (do_generate_indices_written s) as Hwr;
    destruct (do_generate_indices user lib s) as [s2 [[]|e]]
  end; [intros _|discriminate].
  destruct (Hwr s2 eq_refl) as [_ [f Hf]]. cbn [fst]. split; [eexists; exact Hf|].
  rewrite Hf. unfold input_files. apply map_lookup_filter_Some. split; [exact Hf|exact Hout].
Qed.

(** ** Missing variables *)

Lemma exec_block_needs_variables ds d0 (s s' : St Data) fr :
  exec_block lib ds indicator_block (mkFrame [] d0) s = (s', Ok fr) ->
  is_Some (data_vars ds !! "pr") /\
  is_Some (data_vars ds !! "tasmax") /\
  is_Some (data_vars ds !! "tasmin").
Proof.
  intros H. apply exec_block_replay in H as (rs & evs & Hr & _).
  apply indicator_block_calls in Hr as (pr & tasmax & tasmin & r1 & r2 & r3 & r4 & r5
    & r6 & r7 & r8 & r9 & r10 & r11 & r12 & r13 & r14 & r15 & tas & t10 & t90 & tn10
    & r16 & r17 & r18 & r19 & r20 & Hpr & Htasmax & Htasmin & _).
  rewrite Hpr, Htasmax, Htasmin. repeat split; eexists; reflexivity.
Qed.

(** X7.  When the dataset the library loads and resamples lacks one of
    [pr], [tasmax], [tasmin], every run ends with an exception, the writer
    is never called and the disk is left as it was; the results computed
    before the missing variable was read are lost.  When [pr] is the missing
    one and the run got as far as the resampling, the exception is
    [AttributeError] for [pr], raised before any xclim call. *)
Theorem missing_variable_raises (w : World) ds0 ds v :
  snd (xr_open_files lib
         (input_files lib (str_of (get_folder_path user "Select input folder") ++ "*.nc")%string
                      (w_fs w)) "netcdf4") = Ok ds0 ->
  snd (xr_resample_mean lib ds0 "D" true) = Ok ds ->
  In v ["pr"; "tasmax"; "tasmin"] ->
  data_vars ds !! v = None ->
  (exists e, (run (do_generate_indices user lib) w).2 = Err e) /\
  List.filter is_write (history (run (do_generate_indices user lib) w).1) = [] /\
  w_fs (world (run (do_generate_indices user lib) w).1) = w_fs w /\
  (v = "pr" ->
   forall ds0' ds',
     In (EvResample ds0' "D" true (Ok ds')) (history (run (do_generate_indices user lib) w).1) ->
     (run (do_generate_indices user lib) w).2 = Err (AttributeError "pr") /\
     List.filter is_call (history (run (do_generate_indices user lib) w).1) = []).
Proof.
  intros Ho Hr Hv Hnone.
  assert (Hblock : forall d0 (s s' : St Data) fr,
            exec_block lib ds indicator_block (mkFrame [] d0) s = (s', Ok fr) -> False).
  { intros d0 s s' fr H. apply exec_block_needs_variables in H as ([? Hp] & [? Hx] & [? Hn]).
    destruct Hv as [<-|[<-|[<-|[]]]]; congruence. }
  unfold run. rewrite pipeline_with_indicator_block.
  unfold pipeline_with, bind, ask_folder, ask_save, raise, history. cbn [record world log].
  destruct (truthy (get_folder_path user _)); cbn [negb].
  2:{ cbn. split; [eexists; reflexivity|split; [reflexivity|split; [reflexivity|]]].
      intros _ ? ? Hin; exfalso; cbn in Hin; intuition discriminate. }
  destruct (truthy (get_save_path user _)); cbn [negb].
  2:{ cbn. split; [eexists; reflexivity|split; [reflexivity|split; [reflexivity|]]].
      intros _ ? ? Hin; exfalso; cbn in Hin; intuition discriminate. }
  destruct (open_mfdataset _ _ _ _) as [s1 [d0'|e]] eqn:H1; unfold open_mfdataset in H1;
    pose proof H1 as L1; apply extern_inv in L1 as (L1 & F1 & _); cbn in L1, F1.
  2:{ cbn [fst snd]. rewrite L1, F1. cbn. split; [eexists; reflexivity|split; [reflexivity|split; [reflexivity|]]].
      intros _ ? ? Hin; exfalso; cbn in Hin; intuition discriminate. }
  apply extern_Ok in H1. cbn in H1. rewrite Ho in H1. injection H1 as <-.
  destruct (resample_mean _ _ _ _ _) as [s2 [d'|e]] eqn:H2;
    pose proof H2 as L2; apply extern_inv in L2 as (L2 & F2 & _).
  2:{ cbn [fst snd]. rewrite L2, L1, F2, F1. cbn. split; [eexists; reflexivity|split; [reflexivity|split; [reflexivity|]]].
      intros _ ? ? Hin; exfalso; cbn in Hin; intuition discriminate. }
  apply extern_Ok in H2. rewrite Hr in H2. injection H2 as <-.
  pose proof (exec_block_calls ds indicator_block (mkFrame [] (Dataset_new (attrs ds))) s2)
    as (cs & L3 & C3).
  pose proof (exec_block_eval ds indicator_block (mkFrame [] (Dataset_new (attrs ds))) s2)
    as (_ & _ & F3 & _).
  destruct (exec_block _ _ _ _ _) as [s3 [fr|e]] eqn:H3; [destruct (Hblock _ _ _ _ H3)|].
  cbn [fst snd] in *. split; [eexists; reflexivity|]. split; [|split].
  - rewrite List.filter_rev, L3, L2, L1, List.filter_app,
      (filter_calls_nil is_write cs); [reflexivity| |exact C3].
    intros [] ?; try discriminate; reflexivity.
  - rewrite F3, F2, F1. reflexivity.
  - intros -> ds0' ds' _. revert H3. cbn [exec_block indicator_block]. unfold bind.
    rewrite exec_stmt_unfold. cbn [args_values arg_value stmt_args locals]. rewrite Hnone.
    intros [= <- <-]. split; [reflexivity|]. rewrite L2, L1. reflexivity.
Qed.

(** ** Name clashes *)

(** A dataset filled with [ds_out[da.name] = da] holds under each name the
    last array stored under it. *)
Lemma fold_store_last (l : list (DataArray Data)) k : forall d,
  data_vars (fold_left store l d) !! k =
  match last (List.filter (fun r => String.eqb (da_name r) k) l) with
  | Some r => Some r
  | None => data_vars d !! k
  end.
Proof.
  induction l as [|r l IH]; intros d; [reflexivity|].
  cbn [fold_left List.filter]. rewrite IH.
  destruct (String.eqb_spec (da_name r) k) as [Heq|Hne].
  - rewrite last_cons. destruct (last _); [reflexivity|].
    cbn. rewrite <- Heq. apply lookup_insert_eq.
  - destruct (last _); [reflexivity|]. cbn. apply lookup_insert_ne, Hne.
Qed.

(** X8.  Nothing keeps two indicators from carrying the same name: in a
    run that ends without exception the dataset handed to the writer holds,
    under every name, the last indicator result of the run that carries
    this name, and no variable under a name that no result carries.  An
    earlier result with the same name is silently replaced. *)
Theorem later_result_replaces_earlier (w : World) s' :
  run (do_generate_indices user lib) w = (s', Ok tt) ->
  exists ds path enc,
    List.filter is_write (history s') = [EvWrite ds path "netcdf4" enc (Ok tt)] /\
    forall k,
      data_vars ds !! k =
      last (List.filter (fun r => String.eqb (da_name r) k)
                        (indicator_results (history s'))).
Proof.
  intros H. apply do_generate_indices_success, pipeline_with_success in H
    as (fldr & file & ds0 & ds & rs & evs & fr & enc & bytes & _ & _ & _ & _ & _ & _
        & Hr & _ & Hh & _).
  apply replay_store in Hr as (Hds & _ & Hc); [|exact indicator_block_emits].
  assert (Hres : indicator_results (history s') = indicator_results evs).
  { rewrite Hh, !indicator_results_app. cbn. apply app_nil_r. }
  exists (ds_out fr), file, enc. rewrite Hres. split.
  - rewrite Hh, !List.filter_app.
    rewrite (filter_calls_nil is_write evs); [reflexivity| |exact Hc].
    intros [] ?; try discriminate; reflexivity.
  - intros k. rewrite Hds, fold_store_last. destruct (last _); reflexivity.
Qed.

(** ** The shape of a successful run *)

(** X9.  A run that ends without exception is one pass: the two dialogs,
    the loader on the files of the pattern as they were on disk at the
    start, the resampling of what the loader returned, twenty-four xclim
    calls, the encodings computed by [utils] for the output dataset at
    compression level 4, and one write of that same dataset, with these
    encodings, to the path the user chose.  Afterwards the disk differs
    from the initial one in that file only, which holds the bytes the
    writer produced. *)
Theorem successful_run_is_one_pass (w : World) s' :
  run (do_generate_indices user lib) w = (s', Ok tt) ->
  exists fldr file ds0 ds calls dso enc bytes,
    get_folder_path user "Select input folder" = Some fldr /\
    get_save_path user "Select output file" = Some file /\
    history s' =
      [ EvFolderDialog "Select input folder" (Some fldr);
        EvSaveDialog "Select output file" (Some file);
        EvOpen (fldr ++ "*.nc")%string "netcdf4" (Ok ds0);
        EvResample ds0 "D" true (Ok ds) ]
      ++ calls ++
      [ EvEncodings dso 4 (Ok enc);
        EvWrite dso file "netcdf4" enc (Ok tt) ] /\
    length calls = 24 /\
    forallb is_call calls = true /\
    snd (xr_open_files lib (input_files lib (fldr ++ "*.nc")%string (w_fs w)) "netcdf4") = Ok ds0 /\
    snd (xr_resample_mean lib ds0 "D" true) = Ok ds /\
    snd (get_to_netcdf_encodings lib dso 4) = Ok enc /\
    snd (nc_bytes lib dso file "netcdf4" enc) = Ok bytes /\
    w_fs (world s') = <[file := bytes]> (w_fs w).
Proof.
  unfold run. rewrite pipeline_with_indicator_block.
  unfold pipeline_with, bind, ask_folder, ask_save, raise. cbn [record].
  destruct (truthy (get_folder_path user _)) eqn:Hf; cbn [negb]; [|discriminate].
  destruct (truthy (get_save_path user _)) eqn:Hs; cbn [negb]; [|discriminate].
  apply truthy_Some in Hf as (fldr & -> & Hf). apply truthy_Some in Hs as (file & -> & Hs).
  cbn [str_of].
  destruct (open_mfdataset _ _ _ _) as [s1 [ds0|e]] eqn:H1; [|discriminate].
  destruct (resample_mean _ _ _ _ _) as [s2 [ds|e]] eqn:H2; [|discriminate].
  destruct (exec_block _ _ _ _ _) as [s3 [fr|e]] eqn:H3; [|discriminate].
  destruct (encodings_for _ _ _ _) as [s4 [enc|e]] eqn:H4; [|discriminate].
  unfold to_netcdf, bind.
  destruct (extern _ _ s4) as [s5 [bytes|e]] eqn:H5; [|discriminate].
  intros [= <-].
  unfold open_mfdataset in H1.
  pose proof (extern_Ok _ _ _ _ _ H1) as R1. apply extern_inv in H1 as (L1 & F1 & _).
  pose proof (extern_Ok _ _ _ _ _ H2) as R2. apply extern_inv in H2 as (L2 & F2 & _).
  apply exec_block_replay in H3 as (rs & evs & Hr & L3 & F3 & _).
  pose proof (replay_length _ _ _ _ _ _ Hr) as [_ Hlen].
  apply replay_store in Hr as (_ & _ & Hc); [|exact indicator_block_emits].
  pose proof (extern_Ok _ _ _ _ _ H4) as R4. apply extern_inv in H4 as (L4 & F4 & _).
  pose proof (extern_Ok _ _ _ _ _ H5) as R5. apply extern_inv in H5 as (L5 & F5 & _).
  cbn in R1, L1, F1.
  exists fldr, file, ds0, ds, evs, (ds_out fr), enc, bytes.
  split; [reflexivity|]. split; [reflexivity|]. split.
  { unfold history. cbn. rewrite L5, L4, L3, L2, L1. cbn.
    rewrite rev_app_distr, rev_involutive. cbn. rewrite <- app_assoc. reflexivity. }
  split; [exact Hlen|]. split; [exact Hc|]. split; [exact R1|]. split; [exact R2|].
  split; [exact R4|]. split; [exact R5|].
  cbn. congruence.
Qed.

(** ** Annual frequency *)

Lemma script_calls_annual fn kw :
  In (fn, kw) script_calls -> is_indicator fn = true -> In (freq "YS") kw.
Proof.
  intros Hin. cbn in Hin.
  repeat (destruct Hin as [[= <- <-]|Hin];
          [intros Hi; first [discriminate Hi | cbn; tauto]|]).
  destruct Hin.
Qed.

(** X11.  Every indicator call any run makes, finished or not, asks for the
    annual frequency [freq='YS']; the four helper calls (mean temperature
    and the three day-of-year percentiles) are the only xclim calls without
    it. *)
Theorem every_indicator_is_annual (w : World) fn args kw res :
  In (EvCall fn args kw res) (history (run (do_generate_indices user lib) w).1) ->
  (is_indicator fn = true -> In (freq "YS") kw) /\
  (is_indicator fn = false ->
   kw = [] \/ kw = [per 10] \/ kw = [per 90]).
Proof.
  intros Hin. apply every_event_expected in Hin. cbn [expected_event] in Hin.
  split; [apply script_calls_annual, Hin|].
  cbn in Hin.
  repeat (destruct Hin as [[= <- <-]|Hin];
          [intros Hi; first [discriminate Hi | tauto]|]).
  destruct Hin.
Qed.

(** ** The names of the output variables *)

Lemma returned_extern {A} (ev : Exc A -> Event Data) r :
  (forall a, snd r = Ok a -> returned lib (ev (Ok a))) ->
  (forall e, returned lib (ev (Err e))) ->
  preserves (all_returned lib) (extern ev r).
Proof.
  intros Hok Herr s Hs. destruct (extern ev r s) as [s' res] eqn:E.
  pose proof E as E'. apply extern_inv in E' as (Hl & _).
  unfold all_returned. cbn. rewrite Hl. constructor; [|exact Hs].
  destruct res as [a|e]; [apply Hok, (extern_Ok _ _ _ _ _ E)|apply Herr].
Qed.

Lemma all_returned_do_generate_indices :
  preserves (all_returned lib) (do_generate_indices user lib).
Proof.
  unfold do_generate_indices. cbv zeta.
  through_script;
    lazymatch goal with
    | |- preserves _ (call _ _ _ _) =>
        apply returned_extern; [intros ? Hret; exact Hret|intros ?; exact I]
    | |- forall s, _ -> all_returned lib (record _ s) =>
        intros s Hs; constructor; [exact I|exact Hs]
    | |- preserves _ (open_mfdataset _ _ _) =>
        intros s Hs; unfold open_mfdataset; apply returned_extern;
        [intros; exact I|intros; exact I|exact Hs]
    | |- preserves _ (to_netcdf _ _ _ _ _) =>
        unfold to_netcdf; apply preserves_bind;
        [apply returned_extern; intros; exact I|intros f s Hs; exact Hs]
    | |- _ => apply returned_extern; intros; exact I
    end.
Qed.

(** Every call of every run that returned a value returned the value of the
    library. *)
Lemma every_call_returned (w : World) :
  Forall (returned lib) (history (run (do_generate_indices user lib) w).1).
Proof.
  unfold history, run. apply List.Forall_forall. intros ev Hin. apply in_rev in Hin.
  revert ev Hin. apply List.Forall_forall.
  apply all_returned_do_generate_indices. constructor.
Qed.

(** The names of the results of a block, when the results of its indicator
    calls are named by [nm]. *)
Lemma replay_names (nm : string -> Kwargs -> string) (ds : Dataset Data) blk :
  forall fr rs evs fr',
  Forall (fun st => is_emit st = is_indicator (stmt_fn st)) blk ->
  replay ds blk fr rs = Some (evs, fr') ->
  (forall fn args kw r,
     is_indicator fn = true -> In (EvCall fn args kw (Ok r)) evs -> da_name r = nm fn kw) ->
  map da_name (indicator_results evs) =
  map (fun st => nm (stmt_fn st) (stmt_kwargs st)) (List.filter is_emit blk).
Proof.
  induction blk as [|st blk IH]; intros fr rs evs fr' Hb H Hnm.
  - apply replay_nil in H as (_ & -> & _). reflexivity.
  - apply replay_cons in H as (r & rs' & vs & evs' & -> & _ & -> & H).
    apply Forall_cons in Hb as [Hst Hb].
    specialize (IH _ _ _ _ Hb H).
    cbn [indicator_results flat_map List.filter]. fold (indicator_results evs').
    rewrite Hst. destruct (is_indicator (stmt_fn st)) eqn:Hi.
    + cbn [app map]. rewrite (Hnm _ vs _ r Hi) by (left; reflexivity).
      f_equal. apply IH. intros fn args kw r' Hfn Hin. apply (Hnm fn args kw r' Hfn).
      right. exact Hin.
    + cbn [app]. apply IH. intros fn args kw r' Hfn Hin. apply (Hnm fn args kw r' Hfn).
      right. exact Hin.
Qed.

(** C1.  Let the library name the result of each indicator call by a
    function [nm] of the indicator and its keyword arguments, and let the
    names of the twenty indicator statements of the script be pairwise
    distinct.  Then in every run of [do_generate_indices] that ends without
    exception (which requires the input dataset to provide [pr], [tasmax]
    and [tasmin]), exactly one dataset is handed to the writer, as the last
    call of the run; every call that returned a value returned the value of
    the library; twenty indicator calls were made and the names of their
    results are, in order, the expected names of the twenty statements; the
    dataset has exactly these twenty names, every result is found under its
    own name, and every variable of the dataset is one of these results
    under its name. *)
Theorem output_variable_names (w : World) s' (nm : string -> Kwargs -> string) :
  run (do_generate_indices user lib) w = (s', Ok tt) ->
  names_by lib nm ->
  List.NoDup (expected_names nm) ->
  exists ds path enc,
    last (history s') = Some (EvWrite ds path "netcdf4" enc (Ok tt)) /\
    List.filter is_write (history s') = [EvWrite ds path "netcdf4" enc (Ok tt)] /\
    Forall (returned lib) (history s') /\
    length (indicator_results (history s')) = 20 /\
    map da_name (indicator_results (history s')) = expected_names nm /\
    dom (data_vars ds) = list_to_set (expected_names nm) /\
    size (data_vars ds) = 20 /\
    (forall r, In r (indicator_results (history s')) ->
               data_vars ds !! da_name r = Some r) /\
    (forall k r, data_vars ds !! k = Some r ->
                 In r (indicator_results (history s')) /\ da_name r = k).
Proof.
  intros H Hnm Hnd.
  assert (Hret : Forall (returned lib) (history s')).
  { pose proof (every_call_returned w) as E. rewrite H in E. exact E. }
  apply do_generate_indices_success, pipeline_with_success in H
    as (fldr & file & ds0 & ds & rs & evs & fr & enc & bytes & _ & _ & _ & _ & _ & _
        & Hr & _ & Hh & _).
  assert (Hnames : map da_name (indicator_results evs) = expected_names nm).
  { apply (replay_names nm _ _ _ _ _ _ indicator_block_emits Hr).
    intros fn args kw r Hfn Hin. apply (Hnm fn args kw r Hfn).
    rewrite List.Forall_forall in Hret. apply (Hret (EvCall fn args kw (Ok r))).
    rewrite Hh. apply in_or_app. right. apply in_or_app. left. exact Hin. }
  apply replay_store in Hr as (Hds & Hlen & Hc); [|exact indicator_block_emits].
  cbn [ds_out] in Hds.
  assert (Hres : indicator_results (history s') = indicator_results evs).
  { rewrite Hh, !indicator_results_app. cbn. apply app_nil_r. }
  exists (ds_out fr), file, enc. rewrite Hres, <- Hnames.
  split; [|split; [|split; [|split; [|split; [|split; [|split; [|split]]]]]]].
  - rewrite Hh, !last_app. reflexivity.
  - rewrite Hh, !List.filter_app.
    rewrite (filter_calls_nil is_write evs); [reflexivity| |exact Hc].
    intros [] ?; try discriminate; reflexivity.
  - exact Hret.
  - exact Hlen.
  - reflexivity.
  - rewrite Hds, fold_store_dom. cbn. rewrite dom_empty_L. apply union_empty_r_L.
  - rewrite <- size_dom, Hds, fold_store_dom. cbn.
    rewrite dom_empty_L, union_empty_r_L, size_list_to_set.
    + rewrite length_map. exact Hlen.
    + apply NoDup_ListNoDup. rewrite Hnames. exact Hnd.
  - intros r Hin. rewrite Hds. apply fold_store_lookup; [|exact Hin].
    rewrite Hnames. exact Hnd.
  - intros k r Hk. rewrite Hds, fold_store_last in Hk. cbn in Hk.
    destruct (last _) as [r'|] eqn:Hl; [|rewrite lookup_empty in Hk; discriminate Hk].
    injection Hk as ->. apply last_Some in Hl as [l' Hl].
    assert (Hin : In r (List.filter (fun r0 => String.eqb (da_name r0) k)
                                    (indicator_results evs))).
    { rewrite Hl. apply in_or_app. right. left. reflexivity. }
    apply List.filter_In in Hin as [Hin Heq]. split; [exact Hin|].
    apply String.eqb_eq, Heq.
Qed.

(** ** The loader call *)

Lemma calls_are_not_opens (cs : list (Event Data)) :
  forallb is_call cs = true -> List.filter is_open cs = [].
Proof.
  apply filter_calls_nil. intros [] ?; try discriminate; reflexivity.
Qed.

(** A log that starts with the two dialogs and the loader call and goes on
    with other calls, read as a history. *)
Lemma history_after_open (s : St Data) l a b c :
  log s = l ++ [c; b; a] ->
  List.filter is_open l = [] ->
  exists rest, history s = [a; b; c] ++ rest /\ List.filter is_open rest = [].
Proof.
  intros Hl Hf. exists (rev l). unfold history. rewrite Hl, rev_app_distr.
  split; [reflexivity|]. rewrite List.filter_rev, Hf. reflexivity.
Qed.

(** A pattern made by appending "*.nc" to a folder path matches only paths
    with as many components as the folder path. *)
Lemma glob_keeps_the_depth fnm fldr path :
  glob_match fnm (fldr ++ "*.nc")%string path = true ->
  length (components path) = length (components fldr).
Proof.
  unfold glob_match. intros E. apply forallb2_length in E.
  rewrite components_app_length in E. cbn in E.
  pose proof (components_nonempty fldr). lia.
Qed.

(** C8 (amended).  When both dialogs are answered, the loader is called in
    every run, exactly once and as the third call of the run; the pattern it
    is given is the answer of the folder dialog, a non-empty string, with
    "*.nc" appended and nothing in between, the engine is [netcdf4], and
    its result is what the library makes of the files this pattern denotes
    on the disk of the start.  Such a pattern matches only paths with as
    many components as the folder path; so for a folder path that does not
    end in a separator it matches no path made of the folder path, a
    separator and a name, whatever [fnmatch] does with single names, and no
    such file is among the files the loader reads. *)
Theorem glob_pattern_is_folder_and_suffix (w : World) :
  truthy (get_folder_path user "Select input folder") = true ->
  truthy (get_save_path user "Select output file") = true ->
  (exists fldr res rest,
     get_folder_path user "Select input folder" = Some fldr /\ fldr <> "" /\
     history (run (do_generate_indices user lib) w).1 =
       [ EvFolderDialog "Select input folder" (Some fldr);
         EvSaveDialog "Select output file" (get_save_path user "Select output file");
         EvOpen (fldr ++ "*.nc")%string "netcdf4" res ] ++ rest /\
     List.filter is_open rest = [] /\
     res = perform (w_filters w)
             (xr_open_files lib (input_files lib (fldr ++ "*.nc")%string (w_fs w)) "netcdf4") /\
     (forall path f,
        input_files lib (fldr ++ "*.nc")%string (w_fs w) !! path = Some f ->
        w_fs w !! path = Some f /\
        length (components path) = length (components fldr))) /\
  (forall fldr path,
     glob_match (fnmatch lib) (fldr ++ "*.nc")%string path = true ->
     length (components path) = length (components fldr)) /\
  (forall fldr name,
     ends_with_sep fldr = false ->
     glob_match (fnmatch lib) (fldr ++ "*.nc")%string (child_path fldr name) = false) /\
  (forall fldr name (fs : gmap string File),
     ends_with_sep fldr = false ->
     input_files lib (fldr ++ "*.nc")%string fs !! child_path fldr name = None).
Proof.
  intros Hf Hs. split; [|split; [|split]].
  - pose proof Hf as Hf'. apply truthy_Some in Hf' as (fldr & Hfldr & Hne).
    exists fldr. unfold run. rewrite pipeline_with_indicator_block.
    unfold pipeline_with, bind, ask_folder, ask_save, raise. cbn [record].
    rewrite Hf, Hs. cbn [negb]. rewrite Hfldr. cbn [str_of].
    unfold open_mfdataset. rewrite extern_run. cbn [record world log w_filters w_fs].
    set (res := perform (w_filters w) _).
    assert (Hfiles : forall path f,
              input_files lib (fldr ++ "*.nc")%string (w_fs w) !! path = Some f ->
              w_fs w !! path = Some f /\
              length (components path) = length (components fldr)).
    { intros path f Hin. unfold input_files in Hin.
      apply map_lookup_filter_Some in Hin as [Hin Hm]. cbn in Hm.
      split; [exact Hin|]. exact (glob_keeps_the_depth _ _ _ Hm). }
    assert (Hgoal : forall s : St Data,
              (exists l, log s = l ++ [ EvOpen (fldr ++ "*.nc")%string "netcdf4" res;
                                        EvSaveDialog "Select output file"
                                          (get_save_path user "Select output file");
                                        EvFolderDialog "Select input folder" (Some fldr) ] /\
                         List.filter is_open l = []) ->
              exists rest,
                history s =
                  [ EvFolderDialog "Select input folder" (Some fldr);
                    EvSaveDialog "Select output file" (get_save_path user "Select output file");
                    EvOpen (fldr ++ "*.nc")%string "netcdf4" res ] ++ rest /\
                List.filter is_open rest = []).
    { intros s (l & Hl & Hno). exact (history_after_open s l _ _ _ Hl Hno). }
    assert (Hend : forall s : St Data,
              (exists l, log s = l ++ [ EvOpen (fldr ++ "*.nc")%string "netcdf4" res;
                                        EvSaveDialog "Select output file"
                                          (get_save_path user "Select output file");
                                        EvFolderDialog "Select input folder" (Some fldr) ] /\
                         List.filter is_open l = []) ->
              exists res' rest,
                Some fldr = Some fldr /\ fldr <> "" /\
                history s =
                  [ EvFolderDialog "Select input folder" (Some fldr);
                    EvSaveDialog "Select output file" (get_save_path user "Select output file");
                    EvOpen (fldr ++ "*.nc")%string "netcdf4" res' ] ++ rest /\
                List.filter is_open rest = [] /\
                res' = res /\
                (forall path f,
                   input_files lib (fldr ++ "*.nc")%string (w_fs w) !! path = Some f ->
                   w_fs w !! path = Some f /\
                   length (components path) = length (components fldr))).
    { intros s Hs'. destruct (Hgoal s Hs') as (rest & Hh & Hno).
      exists res, rest. auto 7. }
    clearbody res.
    destruct res as [ds0|e]; [|apply Hend; cbn [fst log]; exists []; split; reflexivity].
    destruct (resample_mean _ _ _ _ _) as [s2 [ds|e]] eqn:H2;
      apply extern_inv in H2 as (L2 & _); cbn in L2.
    2:{ apply Hend. cbn [fst]. exists [EvResample ds0 "D" true (Err e)]. rewrite L2. split; reflexivity. }
    pose proof (exec_block_calls ds indicator_block (mkFrame [] (Dataset_new (attrs ds))) s2)
      as (cs & L3 & C3).
    apply calls_are_not_opens in C3.
    destruct (exec_block _ _ _ _ _) as [s3 [fr|e]] eqn:H3; cbn [fst] in L3.
    2:{ apply Hend. cbn [fst]. exists (cs ++ [EvResample ds0 "D" true (Ok ds)]).
        rewrite L3, L2, <- app_assoc. split; [reflexivity|].
        rewrite List.filter_app, C3. reflexivity. }
    destruct (encodings_for _ _ _ _) as [s4 [enc|e]] eqn:H4;
      apply extern_inv in H4 as (L4 & _).
    2:{ apply Hend. cbn [fst]. exists (EvEncodings (ds_out fr) 4 (Err e) :: cs ++ [EvResample ds0 "D" true (Ok ds)]).
        rewrite L4, L3, L2. cbn [app]. rewrite <- app_assoc. split; [reflexivity|].
        cbn [List.filter is_open]. rewrite List.filter_app, C3. reflexivity. }
    unfold to_netcdf, bind.
    destruct (extern _ _ s4) as [s5 [b|e]] eqn:H5; apply extern_inv in H5 as (L5 & _);
      apply Hend; cbn [fst write_file log];
      eexists (_ :: EvEncodings (ds_out fr) 4 (Ok enc) :: cs ++ [EvResample ds0 "D" true (Ok ds)]);
      rewrite L5, L4, L3, L2; cbn [app]; rewrite <- app_assoc;
      (split; [reflexivity|]);
      cbn [List.filter is_open]; rewrite List.filter_app, C3; reflexivity.
  - intros fldr path. apply glob_keeps_the_depth.
  - intros fldr name. apply glob_misses_children.
  - intros fldr name fs Hsep. unfold input_files.
    apply map_lookup_filter_None. right. intros f _. cbn.
    rewrite glob_misses_children by exact Hsep. discriminate.
Qed.

End Properties.

(** * The script on the symbolic library *)

Lemma partition_permutation {A} (f : A -> bool) (l : list A) :
  Permutation l (List.filter (fun x => negb (f x)) l ++ List.filter f l).
Proof.
  induction l as [|x l IH]; [constructor|].
  cbn. destruct (f x); cbn.
  - apply Permutation_cons_app, IH.
  - constructor. exact IH.
Qed.

Lemma reordered_block_permutation : Permutation indicator_block Symbolic.reordered_block.
Proof.
  unfold Symbolic.reordered_block.
  rewrite <- Permutation_rev. apply partition_permutation.
Qed.

Lemma pair_of_snd {A B} (p : A * B) (b : B) : p.2 = b -> p = (p.1, b).
Proof. destruct p as [a b']. cbn. intros ->. reflexivity. Qed.

Lemma symbolic_run_finished :
  run (do_generate_indices Symbolic.user Symbolic.lib) Symbolic.w0 = (Symbolic.finished, Ok tt).
Proof.
  unfold Symbolic.finished. apply pair_of_snd. vm_compute. reflexivity.
Qed.

Lemma finished_names_distinct :
  List.NoDup (map da_name (indicator_results (history Symbolic.finished))).
Proof. apply NoDup_ListNoDup, (bool_decide_unpack _). vm_compute. exact I. Qed.

(** Called outside the [__main__] block, with no filter installed, the
    script shows the warning of each of its twenty-four xclim calls; run as a
    script it shows none. *)
Example warnings_without_the_main_block :
  length (w_stderr (world (run (do_generate_indices Symbolic.user Symbolic.lib) Symbolic.w0).1)) = 24%nat /\
  w_stderr (world (run (main Symbolic.user Symbolic.lib) Symbolic.w0).1) = [].
Proof. split; vm_compute; reflexivity. Qed.

(** The pattern built from the folder [/data/in] picks the file next to the
    folder and not the file inside it. *)
Example pattern_of_a_folder_without_separator :
  input_files Symbolic.lib "/data/in*.nc"
              (<["/data/in/pr_2001.nc" := [Byte.x01]]> Symbolic.disk) = Symbolic.disk.
Proof. vm_compute. reflexivity. Qed.

(** In the symbolic run the threshold of [tn10p] is the percentile of the
    mean temperature, which differs from the percentile of [tasmin]. *)
Example tn10p_threshold_in_the_symbolic_run :
  map (fun ev => match ev with
                 | EvCall _ [_; t] _ _ => Some (da_data t)
                 | _ => None
                 end)
      (calls_to "xc.atmos.tn10p" (history Symbolic.finished)) =
  [Some (Symbolic.SApp "xc.core.calendar.percentile_doy"
           [Symbolic.SApp "xc.indices.tas"
              [Symbolic.SApp "resample.mean" [Symbolic.SData "tasmin"] [];
               Symbolic.SApp "resample.mean" [Symbolic.SData "tasmax"] []] []]
           [per 10])].
Proof. vm_compute. reflexivity. Qed.

(** With a library that gives every result the same name, the written
    dataset has one variable, the result of the last indicator statement; so
    the order of the statements shows in the output.  This is why the
    theorems on the twenty variables and on the order of the statements ask
    for pairwise distinct names. *)
Example one_name_for_every_result :
  map (fun ev => match ev with
                 | EvWrite ds _ _ _ _ => size (data_vars ds)
                 | _ => 0%nat
                 end)
      (List.filter is_write
         (history (run (do_generate_indices Symbolic.user Symbolic.lib_one_name) Symbolic.w0).1))
  = [1%nat] /\
  Symbolic.origin_of_index
    (history (run (do_generate_indices Symbolic.user Symbolic.lib_one_name) Symbolic.w0).1)
  = [Some "xc.atmos.cold_spell_duration_index"] /\
  Symbolic.origin_of_index
    (history (run (pipeline_with Symbolic.user Symbolic.lib_one_name Symbolic.reordered_block)
                  Symbolic.w0).1)
  = [Some "xc.atmos.wetdays"].
Proof. split; [|split]; vm_compute; reflexivity. Qed.

(** C2, as stated, fails on the symbolic run: the run ends without
    exception, and its history has three calls of [percentile_doy] and five
    indicator calls that take a percentile series, not two and four. *)
Lemma two_percentile_series_four_consumers_counterexample :
  (run (do_generate_indices Symbolic.user Symbolic.lib) Symbolic.w0).2 = Ok tt /\
  length (calls_to "xc.core.calendar.percentile_doy" (history Symbolic.finished)) = 3%nat /\
  length (threshold_calls (history Symbolic.finished)) = 5%nat /\
  ~ (length (calls_to "xc.core.calendar.percentile_doy" (history Symbolic.finished)) = 2%nat /\
     length (threshold_calls (history Symbolic.finished)) = 4%nat).
Proof.
  split; [vm_compute; reflexivity|]. split; [vm_compute; reflexivity|].
  split; [vm_compute; reflexivity|]. vm_compute. intros [H _]. discriminate H.
Qed.

(** The four derived series and their five consumers, at the symbolic run. *)
Lemma derived_series_and_consumers_witness :
  run (do_generate_indices Symbolic.user Symbolic.lib) Symbolic.w0 = (Symbolic.finished, Ok tt) /\
  (exists tasmin tasmax tas t10 t90 tn10 r1 r2 r3 r4 r5,
    derived_calls (history Symbolic.finished) =
      [ EvCall "xc.indices.tas" [tasmin; tasmax] [] (Ok tas);
        EvCall "xc.core.calendar.percentile_doy" [tas] [per 10] (Ok t10);
        EvCall "xc.core.calendar.percentile_doy" [tas] [per 90] (Ok t90);
        EvCall "xc.core.calendar.percentile_doy" [tasmin] [per 10] (Ok tn10) ] /\
    threshold_calls (history Symbolic.finished) =
      [ EvCall "xc.atmos.tx10p" [tasmax; t10] [freq "YS"] (Ok r1);
        EvCall "xc.atmos.tx90p" [tasmax; t90] [freq "YS"] (Ok r2);
        EvCall "xc.atmos.tn10p" [tasmin; t10] [freq "YS"] (Ok r3);
        EvCall "xc.atmos.tn90p" [tasmin; t90] [freq "YS"] (Ok r4);
        EvCall "xc.atmos.cold_spell_duration_index" [tasmin; tn10]
               [window 1; freq "YS"] (Ok r5) ] /\
    flat_map assigned indicator_block = ["tas"; "t10"; "t90"; "tn10"] /\
    map (fun x => length (List.filter (uses x) (List.filter is_emit indicator_block)))
        ["t10"; "t90"; "tn10"] = [2; 2; 1]%nat).
Proof.
  split; [exact symbolic_run_finished|].
  apply (derived_series_and_consumers Symbolic.user Symbolic.lib Symbolic.w0).
  exact symbolic_run_finished.
Defined.

(** The arguments of [tn10p], at the symbolic run. *)
Lemma tn10p_takes_mean_temperature_percentile_witness :
  run (do_generate_indices Symbolic.user Symbolic.lib) Symbolic.w0 = (Symbolic.finished, Ok tt) /\
  (exists ds0 ds tasmin tasmax tas t10 tn10 rtx rtn rcs,
    In (EvResample ds0 "D" true (Ok ds)) (history Symbolic.finished) /\
    data_vars ds !! "tasmin" = Some tasmin /\
    data_vars ds !! "tasmax" = Some tasmax /\
    calls_to "xc.indices.tas" (history Symbolic.finished) =
      [EvCall "xc.indices.tas" [tasmin; tasmax] [] (Ok tas)] /\
    List.filter (fun ev => match ev with
                           | EvCall _ _ [("per", KInt 10)] _ => true
                           | _ => false
                           end)
                (calls_to "xc.core.calendar.percentile_doy" (history Symbolic.finished)) =
      [ EvCall "xc.core.calendar.percentile_doy" [tas] [per 10] (Ok t10);
        EvCall "xc.core.calendar.percentile_doy" [tasmin] [per 10] (Ok tn10) ] /\
    calls_to "xc.atmos.tx10p" (history Symbolic.finished) =
      [EvCall "xc.atmos.tx10p" [tasmax; t10] [freq "YS"] (Ok rtx)] /\
    calls_to "xc.atmos.tn10p" (history Symbolic.finished) =
      [EvCall "xc.atmos.tn10p" [tasmin; t10] [freq "YS"] (Ok rtn)] /\
    calls_to "xc.atmos.cold_spell_duration_index" (history Symbolic.finished) =
      [EvCall "xc.atmos.cold_spell_duration_index" [tasmin; tn10]
              [window 1; freq "YS"] (Ok rcs)] /\
    List.filter (uses "t10") indicator_block =
      [ Emit "xc.atmos.tx10p" [FromDs "tasmax"; Local "t10"] [freq "YS"];
        Emit "xc.atmos.tn10p" [FromDs "tasmin"; Local "t10"] [freq "YS"] ] /\
    List.filter (uses "tn10") indicator_block =
      [ Emit "xc.atmos.cold_spell_duration_index" [FromDs "tasmin"; Local "tn10"]
             [window 1; freq "YS"] ] /\
    In (Assign "t10" "xc.core.calendar.percentile_doy" [Local "tas"] [per 10]) indicator_block /\
    In (Assign "tn10" "xc.core.calendar.percentile_doy" [FromDs "tasmin"] [per 10]) indicator_block).
Proof.
  split; [exact symbolic_run_finished|].
  apply (tn10p_takes_mean_temperature_percentile Symbolic.user Symbolic.lib Symbolic.w0).
  exact symbolic_run_finished.
Defined.

(** The user who cancels the folder dialog. *)
Lemma cancelled_dialog_aborts_witness :
  (truthy (get_folder_path Symbolic.user_no_folder "Select input folder") = false \/
  truthy (get_save_path Symbolic.user_no_folder "Select output file") = false) /\
  (exists s' msg,
    run (do_generate_indices Symbolic.user_no_folder Symbolic.lib) Symbolic.w0 = (s', Err (Exception msg)) /\
    msg = (if truthy (get_folder_path Symbolic.user_no_folder "Select input folder")
           then "Save file selection aborted" else "Folder selection aborted") /\
    history s' =
      EvFolderDialog "Select input folder" (get_folder_path Symbolic.user_no_folder "Select input folder") ::
      (if truthy (get_folder_path Symbolic.user_no_folder "Select input folder")
       then [EvSaveDialog "Select output file" (get_save_path Symbolic.user_no_folder "Select output file")]
       else []) /\
    forallb is_dialog (history s') = true /\
    world s' = Symbolic.w0 /\
    (run (main Symbolic.user_no_folder Symbolic.lib) Symbolic.w0).2 = Err (Exception msg) /\
    world (run (main Symbolic.user_no_folder Symbolic.lib) Symbolic.w0).1 = Symbolic.w0).
Proof.
  split; [left; reflexivity|].
  apply (cancelled_dialog_aborts Symbolic.user_no_folder Symbolic.lib Symbolic.w0).
  left. reflexivity.
Defined.

(** The reordered block gives the output of the script, at the symbolic run. *)
Lemma indicator_order_irrelevant_witness :
  (Permutation indicator_block Symbolic.reordered_block) /\
  (well_scoped [] Symbolic.reordered_block = true) /\
  (run (do_generate_indices Symbolic.user Symbolic.lib) Symbolic.w0 = (Symbolic.finished, Ok tt)) /\
  (List.NoDup (map da_name (indicator_results (history Symbolic.finished)))) /\
  (exists s'',
    run (pipeline_with Symbolic.user Symbolic.lib Symbolic.reordered_block) Symbolic.w0 = (s'', Ok tt) /\
    List.filter is_write (history s'') = List.filter is_write (history Symbolic.finished) /\
    w_fs (world s'') = w_fs (world Symbolic.finished)).
Proof.
  assert (Hws : well_scoped [] Symbolic.reordered_block = true) by (vm_compute; reflexivity).
  split; [exact reordered_block_permutation|].
  split; [exact Hws|].
  split; [exact symbolic_run_finished|].
  split; [exact finished_names_distinct|].
  exact (indicator_order_irrelevant Symbolic.user Symbolic.lib Symbolic.w0 Symbolic.finished
           Symbolic.reordered_block reordered_block_permutation Hws symbolic_run_finished
           finished_names_distinct).
Defined.

(** The script run in [w1] writes the file it writes in [w0]. *)
Lemma same_input_same_output_witness :
  (get_folder_path Symbolic.user2 "Select input folder" = get_folder_path Symbolic.user "Select input folder") /\
  (get_save_path Symbolic.user2 "Select output file" = get_save_path Symbolic.user "Select output file") /\
  (input_files Symbolic.lib (str_of (get_folder_path Symbolic.user "Select input folder") ++ "*.nc")%string
              (w_fs Symbolic.w1) =
  input_files Symbolic.lib (str_of (get_folder_path Symbolic.user "Select input folder") ++ "*.nc")%string
              (w_fs Symbolic.w0)) /\
  ((run (main Symbolic.user2 Symbolic.lib) Symbolic.w1).2 = (run (main Symbolic.user Symbolic.lib) Symbolic.w0).2 /\
  history (run (main Symbolic.user2 Symbolic.lib) Symbolic.w1).1 = history (run (main Symbolic.user Symbolic.lib) Symbolic.w0).1 /\
  ((run (main Symbolic.user Symbolic.lib) Symbolic.w0).2 = Ok tt ->
   is_Some (w_fs (world (run (main Symbolic.user Symbolic.lib) Symbolic.w0).1)
              !! str_of (get_save_path Symbolic.user "Select output file")) /\
   w_fs (world (run (main Symbolic.user2 Symbolic.lib) Symbolic.w1).1)
     !! str_of (get_save_path Symbolic.user "Select output file") =
   w_fs (world (run (main Symbolic.user Symbolic.lib) Symbolic.w0).1)
     !! str_of (get_save_path Symbolic.user "Select output file"))).
Proof.
  assert (Hin : input_files Symbolic.lib (str_of (get_folder_path Symbolic.user "Select input folder") ++ "*.nc")%string
              (w_fs Symbolic.w1) =
  input_files Symbolic.lib (str_of (get_folder_path Symbolic.user "Select input folder") ++ "*.nc")%string
              (w_fs Symbolic.w0))
    by (vm_compute; reflexivity).
  split; [reflexivity|]. split; [reflexivity|]. split; [exact Hin|].
  exact (same_input_same_output Symbolic.user Symbolic.lib Symbolic.user2
           Symbolic.w0 Symbolic.w1 eq_refl eq_refl Hin).
Defined.

(** ** The pattern of a folder answer that ends with a separator *)

Lemma string_append_assoc (a b c : string) : ((a ++ b) ++ c = a ++ (b ++ c))%string.
Proof.
  induction a as [|x a IH]; [reflexivity|].
  change (String x ((a ++ b) ++ c) = String x (a ++ (b ++ c)))%string.
  rewrite IH. reflexivity.
Qed.

Lemma string_of_list_ascii_app (a b : list ascii) :
  string_of_list_ascii (a ++ b) = (string_of_list_ascii a ++ string_of_list_ascii b)%string.
Proof.
  induction a as [|x a IH]; [reflexivity|].
  cbn [app string_of_list_ascii]. rewrite IH. reflexivity.
Qed.

Lemma ends_with_sep_split s :
  ends_with_sep s = true -> exists s0, s = (s0 ++ "/")%string.
Proof.
  unfold ends_with_sep. destruct (rev (list_ascii_of_string s)) as [|c l] eqn:E; [discriminate|].
  intros Hc. apply Ascii.eqb_eq in Hc. subst c.
  exists (string_of_list_ascii (rev l)).
  rewrite <- (string_of_list_ascii_of_string s), <- (rev_involutive (list_ascii_of_string s)), E.
  cbn [rev]. rewrite string_of_list_ascii_app. reflexivity.
Qed.

Lemma components_sep a b :
  components (a ++ String "/" b) = components a ++ components b.
Proof.
  induction a as [|c a IH]; [reflexivity|].
  change (String c a ++ String "/" b)%string with (String c (a ++ String "/" b)).
  cbn [components]. rewrite IH.
  destruct (Ascii.eqb c "/"); [reflexivity|].
  pose proof (components_nonempty a) as Hne.
  destruct (components a); [cbn in Hne; lia|reflexivity].
Qed.

Lemma components_no_sep x : has_sep x = false -> components x = [x].
Proof.
  induction x as [|c x IH]; [reflexivity|].
  cbn [has_sep components]. intros [Hc Hx]%orb_false_elim.
  rewrite Hc, (IH Hx). reflexivity.
Qed.

Lemma forallb2_same_prefix {A} (f : A -> A -> bool) l a b :
  forallb2 f (l ++ [a]) (l ++ [b]) = forallb (fun c => f c c) l && f a b.
Proof.
  induction l as [|x l IH]; cbn; [apply andb_true_r|].
  rewrite IH. apply andb_assoc.
Qed.

(** X10.  When the folder answer ends with a separator, the pattern the
    script builds does what the selection of a folder suggests: provided
    every component of the folder path matches itself, an entry of the
    folder is an input file exactly when its name matches [*.nc].  (Without
    the final separator no entry of the folder matches, see
    [glob_misses_children].) *)
Theorem glob_with_trailing_separator (fnm : string -> string -> bool) fldr name :
  ends_with_sep fldr = true ->
  has_sep name = false ->
  forallb (fun c => fnm c c) (components fldr) = true ->
  glob_match fnm (fldr ++ "*.nc") (child_path fldr name) = fnm "*.nc"%string name.
Proof.
  intros Hsep Hname Hself. unfold child_path, glob_match. rewrite Hsep.
  apply ends_with_sep_split in Hsep as (s0 & ->).
  cbn match. rewrite !string_append_assoc.
  change ("/" ++ "*.nc")%string with (String "/" "*.nc").
  change ("/" ++ name)%string with (String "/" name).
  rewrite components_sep in Hself. rewrite !components_sep.
  rewrite forallb_app in Hself. apply andb_prop in Hself as [Hself _].
  rewrite (components_no_sep name Hname).
  change (components "*.nc") with ["*.nc"%string].
  rewrite forallb2_same_prefix, Hself. reflexivity.
Qed.

(** ** The further theorems at symbolic runs *)

Lemma one_name_run_finished :
  run (do_generate_indices Symbolic.user Symbolic.lib_one_name) Symbolic.w0 =
  (Symbolic.finished_one_name, Ok tt).
Proof.
  unfold Symbolic.finished_one_name. apply pair_of_snd. vm_compute. reflexivity.
Qed.

(** On an empty disk the loader raises, and the run ends there. *)
Lemma first_error_is_fatal_witness :
  history (run (do_generate_indices Symbolic.user Symbolic.lib) Symbolic.w_empty).1 =
    [ EvFolderDialog "Select input folder" (Some "/data/in"%string);
      EvSaveDialog "Select output file" (Some "/out/indices.nc"%string) ]
    ++ EvOpen "/data/in*.nc" "netcdf4" (Err Symbolic.no_files) :: [] /\
  event_error (EvOpen (Data := Symbolic.Sym) "/data/in*.nc" "netcdf4" (Err Symbolic.no_files))
    = Some Symbolic.no_files /\
  (@nil (Event Symbolic.Sym) = [] /\
   unfailed [ EvFolderDialog (Data := Symbolic.Sym) "Select input folder" (Some "/data/in"%string);
              EvSaveDialog "Select output file" (Some "/out/indices.nc"%string) ] /\
   (run (do_generate_indices Symbolic.user Symbolic.lib) Symbolic.w_empty).2 = Err Symbolic.no_files).
Proof.
  assert (H : history (run (do_generate_indices Symbolic.user Symbolic.lib) Symbolic.w_empty).1 =
    [ EvFolderDialog "Select input folder" (Some "/data/in"%string);
      EvSaveDialog "Select output file" (Some "/out/indices.nc"%string) ]
    ++ EvOpen "/data/in*.nc" "netcdf4" (Err Symbolic.no_files) :: [])
    by (vm_compute; reflexivity).
  split; [exact H|]. split; [reflexivity|].
  exact (first_error_is_fatal Symbolic.user Symbolic.lib Symbolic.w_empty _ _ _ _ H eq_refl).
Defined.

(** The exception of that run is the loader's. *)
Lemma exception_is_own_or_last_call_witness :
  (run (do_generate_indices Symbolic.user Symbolic.lib) Symbolic.w_empty).2 = Err Symbolic.no_files /\
  ((In Symbolic.no_files own_errors /\
    unfailed (history (run (do_generate_indices Symbolic.user Symbolic.lib) Symbolic.w_empty).1)) \/
   (exists pre ev,
      history (run (do_generate_indices Symbolic.user Symbolic.lib) Symbolic.w_empty).1 = pre ++ [ev] /\
      event_error ev = Some Symbolic.no_files /\ unfailed pre)).
Proof.
  assert (H : (run (do_generate_indices Symbolic.user Symbolic.lib) Symbolic.w_empty).2
              = Err Symbolic.no_files) by (vm_compute; reflexivity).
  split; [exact H|].
  exact (exception_is_own_or_last_call Symbolic.user Symbolic.lib Symbolic.w_empty _ H).
Defined.

(** The input file of the symbolic world is not the output file. *)
Lemma other_files_untouched_witness :
  "/data/in_2001.nc"%string <> str_of (get_save_path Symbolic.user "Select output file") /\
  (w_fs (world (run (main Symbolic.user Symbolic.lib) Symbolic.w0).1) !! "/data/in_2001.nc"%string
     = w_fs Symbolic.w0 !! "/data/in_2001.nc"%string /\
   w_fs (world (run (do_generate_indices Symbolic.user Symbolic.lib) Symbolic.w0).1)
     !! "/data/in_2001.nc"%string = w_fs Symbolic.w0 !! "/data/in_2001.nc"%string).
Proof.
  assert (H : "/data/in_2001.nc"%string <> str_of (get_save_path Symbolic.user "Select output file"))
    by (cbn; discriminate).
  split; [exact H|].
  exact (other_files_untouched Symbolic.user Symbolic.lib Symbolic.w0 _ H).
Defined.

(** The symbolic run, run twice. *)
Lemma rerun_changes_nothing_witness :
  (run (main Symbolic.user Symbolic.lib) Symbolic.w0).2 = Ok tt /\
  glob_match (fnmatch Symbolic.lib)
             (str_of (get_folder_path Symbolic.user "Select input folder") ++ "*.nc")%string
             (str_of (get_save_path Symbolic.user "Select output file")) = false /\
  ((run (main Symbolic.user Symbolic.lib)
        (world (run (main Symbolic.user Symbolic.lib) Symbolic.w0).1)).2 = Ok tt /\
   history (run (main Symbolic.user Symbolic.lib)
                (world (run (main Symbolic.user Symbolic.lib) Symbolic.w0).1)).1 =
     history (run (main Symbolic.user Symbolic.lib) Symbolic.w0).1 /\
   w_fs (world (run (main Symbolic.user Symbolic.lib)
                    (world (run (main Symbolic.user Symbolic.lib) Symbolic.w0).1)).1) =
     w_fs (world (run (main Symbolic.user Symbolic.lib) Symbolic.w0).1)).
Proof.
  assert (H : (run (main Symbolic.user Symbolic.lib) Symbolic.w0).2 = Ok tt)
    by (vm_compute; reflexivity).
  assert (G : glob_match (fnmatch Symbolic.lib)
             (str_of (get_folder_path Symbolic.user "Select input folder") ++ "*.nc")%string
             (str_of (get_save_path Symbolic.user "Select output file")) = false)
    by (vm_compute; reflexivity).
  split; [exact H|]. split; [exact G|].
  exact (rerun_changes_nothing Symbolic.user Symbolic.lib Symbolic.w0 H G).
Defined.

(** An output file saved as [/data/in_indices.nc] is an input file of the
    next run. *)
Lemma output_joins_the_input_files_witness :
  (run (main Symbolic.user_into_input Symbolic.lib) Symbolic.w0).2 = Ok tt /\
  glob_match (fnmatch Symbolic.lib)
             (str_of (get_folder_path Symbolic.user_into_input "Select input folder") ++ "*.nc")%string
             (str_of (get_save_path Symbolic.user_into_input "Select output file")) = true /\
  (is_Some (w_fs (world (run (main Symbolic.user_into_input Symbolic.lib) Symbolic.w0).1)
              !! str_of (get_save_path Symbolic.user_into_input "Select output file")) /\
   input_files Symbolic.lib
               (str_of (get_folder_path Symbolic.user_into_input "Select input folder") ++ "*.nc")%string
               (w_fs (world (run (main Symbolic.user_into_input Symbolic.lib) Symbolic.w0).1))
     !! str_of (get_save_path Symbolic.user_into_input "Select output file") =
   w_fs (world (run (main Symbolic.user_into_input Symbolic.lib) Symbolic.w0).1)
     !! str_of (get_save_path Symbolic.user_into_input "Select output file")).
Proof.
  assert (H : (run (main Symbolic.user_into_input Symbolic.lib) Symbolic.w0).2 = Ok tt)
    by (vm_compute; reflexivity).
  assert (G : glob_match (fnmatch Symbolic.lib)
             (str_of (get_folder_path Symbolic.user_into_input "Select input folder") ++ "*.nc")%string
             (str_of (get_save_path Symbolic.user_into_input "Select output file")) = true)
    by (vm_compute; reflexivity).
  split; [exact H|]. split; [exact G|].
  exact (output_joins_the_input_files Symbolic.user_into_input Symbolic.lib Symbolic.w0 H G).
Defined.

(** A dataset without [pr]: the run ends at the first statement of the
    block. *)
Lemma missing_variable_raises_witness :
  snd (xr_open_files Symbolic.lib_no_pr
         (input_files Symbolic.lib_no_pr
            (str_of (get_folder_path Symbolic.user "Select input folder") ++ "*.nc")%string
            (w_fs Symbolic.w0)) "netcdf4") = Ok Symbolic.dataset_no_pr /\
  snd (xr_resample_mean Symbolic.lib_no_pr Symbolic.dataset_no_pr "D" true)
    = Ok (Symbolic.resampled Symbolic.dataset_no_pr) /\
  In "pr"%string ["pr"; "tasmax"; "tasmin"]%string /\
  data_vars (Symbolic.resampled Symbolic.dataset_no_pr) !! "pr"%string = None /\
  ((exists e, (run (do_generate_indices Symbolic.user Symbolic.lib_no_pr) Symbolic.w0).2 = Err e) /\
   List.filter is_write
     (history (run (do_generate_indices Symbolic.user Symbolic.lib_no_pr) Symbolic.w0).1) = [] /\
   w_fs (world (run (do_generate_indices Symbolic.user Symbolic.lib_no_pr) Symbolic.w0).1)
     = w_fs Symbolic.w0 /\
   ("pr"%string = "pr"%string ->
    forall ds0' ds',
      In (EvResample ds0' "D" true (Ok ds'))
         (history (run (do_generate_indices Symbolic.user Symbolic.lib_no_pr) Symbolic.w0).1) ->
      (run (do_generate_indices Symbolic.user Symbolic.lib_no_pr) Symbolic.w0).2
        = Err (AttributeError "pr") /\
      List.filter is_call
        (history (run (do_generate_indices Symbolic.user Symbolic.lib_no_pr) Symbolic.w0).1) = [])).
Proof.
  assert (H1 : snd (xr_open_files Symbolic.lib_no_pr
         (input_files Symbolic.lib_no_pr
            (str_of (get_folder_path Symbolic.user "Select input folder") ++ "*.nc")%string
            (w_fs Symbolic.w0)) "netcdf4") = Ok Symbolic.dataset_no_pr)
    by (vm_compute; reflexivity).
  assert (H2 : snd (xr_resample_mean Symbolic.lib_no_pr Symbolic.dataset_no_pr "D" true)
    = Ok (Symbolic.resampled Symbolic.dataset_no_pr)) by reflexivity.
  assert (H3 : In "pr"%string ["pr"; "tasmax"; "tasmin"]%string) by (left; reflexivity).
  assert (H4 : data_vars (Symbolic.resampled Symbolic.dataset_no_pr) !! "pr"%string = None)
    by (vm_compute; reflexivity).
  split; [exact H1|]. split; [exact H2|]. split; [exact H3|]. split; [exact H4|].
  exact (missing_variable_raises Symbolic.user Symbolic.lib_no_pr Symbolic.w0 _ _ _ H1 H2 H3 H4).
Defined.

(** With one name for every result, the last result is the one written. *)
Lemma later_result_replaces_earlier_witness :
  run (do_generate_indices Symbolic.user Symbolic.lib_one_name) Symbolic.w0 =
    (Symbolic.finished_one_name, Ok tt) /\
  (exists ds path enc,
     List.filter is_write (history Symbolic.finished_one_name)
       = [EvWrite ds path "netcdf4" enc (Ok tt)] /\
     forall k,
       data_vars ds !! k =
       last (List.filter (fun r => String.eqb (da_name r) k)
                         (indicator_results (history Symbolic.finished_one_name)))).
Proof.
  split; [exact one_name_run_finished|].
  exact (later_result_replaces_earlier Symbolic.user Symbolic.lib_one_name Symbolic.w0 _
           one_name_run_finished).
Defined.

(** The shape of the symbolic run. *)
Lemma successful_run_is_one_pass_witness :
  run (do_generate_indices Symbolic.user Symbolic.lib) Symbolic.w0 = (Symbolic.finished, Ok tt) /\
  (exists fldr file ds0 ds calls dso enc bytes,
    get_folder_path Symbolic.user "Select input folder" = Some fldr /\
    get_save_path Symbolic.user "Select output file" = Some file /\
    history Symbolic.finished =
      [ EvFolderDialog "Select input folder" (Some fldr);
        EvSaveDialog "Select output file" (Some file);
        EvOpen (fldr ++ "*.nc")%string "netcdf4" (Ok ds0);
        EvResample ds0 "D" true (Ok ds) ]
      ++ calls ++
      [ EvEncodings dso 4 (Ok enc);
        EvWrite dso file "netcdf4" enc (Ok tt) ] /\
    length calls = 24%nat /\
    forallb is_call calls = true /\
    snd (xr_open_files Symbolic.lib
           (input_files Symbolic.lib (fldr ++ "*.nc")%string (w_fs Symbolic.w0)) "netcdf4") = Ok ds0 /\
    snd (xr_resample_mean Symbolic.lib ds0 "D" true) = Ok ds /\
    snd (get_to_netcdf_encodings Symbolic.lib dso 4) = Ok enc /\
    snd (nc_bytes Symbolic.lib dso file "netcdf4" enc) = Ok bytes /\
    w_fs (world Symbolic.finished) = <[file := bytes]> (w_fs Symbolic.w0)).
Proof.
  split; [exact symbolic_run_finished|].
  exact (successful_run_is_one_pass Symbolic.user Symbolic.lib Symbolic.w0 _
           symbolic_run_finished).
Defined.

(** The folder [/data/in/] and one of its entries. *)
Lemma glob_with_trailing_separator_witness :
  ends_with_sep "/data/in/" = true /\
  has_sep "pr_2001.nc" = false /\
  forallb (fun c => Symbolic.star_match c c) (components "/data/in/") = true /\
  glob_match Symbolic.star_match ("/data/in/" ++ "*.nc") (child_path "/data/in/" "pr_2001.nc")
    = Symbolic.star_match "*.nc" "pr_2001.nc".
Proof.
  split; [reflexivity|]. split; [reflexivity|]. split; [reflexivity|].
  exact (glob_with_trailing_separator Symbolic.star_match "/data/in/" "pr_2001.nc"
           eq_refl eq_refl eq_refl).
Defined.

Lemma wetdays_call_made :
  In Symbolic.wetdays_call
     (history (run (do_generate_indices Symbolic.user Symbolic.lib) Symbolic.w0).1).
Proof. apply (nth_error_In _ 4). vm_compute. reflexivity. Qed.

(** The first indicator call of the symbolic run. *)
Lemma every_indicator_is_annual_witness :
  In (EvCall "xc.atmos.wetdays"
         [mkDataArray "pr" (Symbolic.SApp "resample.mean" [Symbolic.SData "pr"] [])]
         [thresh "1 mm/day"; freq "YS"]
         (Ok (mkDataArray "xc.atmos.wetdays"
                (Symbolic.SApp "xc.atmos.wetdays"
                   [Symbolic.SApp "resample.mean" [Symbolic.SData "pr"] []]
                   [thresh "1 mm/day"; freq "YS"]))))
     (history (run (do_generate_indices Symbolic.user Symbolic.lib) Symbolic.w0).1) /\
  ((is_indicator "xc.atmos.wetdays" = true ->
    In (freq "YS") [thresh "1 mm/day"; freq "YS"]) /\
   (is_indicator "xc.atmos.wetdays" = false ->
    [thresh "1 mm/day"; freq "YS"] = [] \/
    [thresh "1 mm/day"; freq "YS"] = [per 10] \/
    [thresh "1 mm/day"; freq "YS"] = [per 90])).
Proof.
  split; [exact wetdays_call_made|].
  exact (every_indicator_is_annual Symbolic.user Symbolic.lib Symbolic.w0 _ _ _ _
           wetdays_call_made).
Defined.

(** ** The names of the output variables and the loader call, at symbolic runs *)

(** The symbolic library names each result after the function that computed
    it. *)
Lemma symbolic_names_by : names_by Symbolic.lib (fun fn _ => fn).
Proof. intros fn args kw r _ H. cbn in H. injection H as <-. reflexivity. Qed.

Lemma symbolic_names_distinct : List.NoDup (expected_names (fun fn _ => fn)).
Proof. apply NoDup_ListNoDup, (bool_decide_unpack _). vm_compute. exact I. Qed.

(** The twenty variables of the symbolic run. *)
Lemma output_variable_names_witness :
  run (do_generate_indices Symbolic.user Symbolic.lib) Symbolic.w0 = (Symbolic.finished, Ok tt) /\
  names_by Symbolic.lib (fun fn _ => fn) /\
  List.NoDup (expected_names (fun fn _ => fn)) /\
  expected_names (fun fn _ => fn) =
    [ "xc.atmos.wetdays"; "xc.atmos.maximum_consecutive_dry_days";
      "xc.atmos.maximum_consecutive_wet_days"; "xc.atmos.precip_accumulation";
      "xc.atmos.daily_pr_intensity"; "xc.atmos.max_1day_precipitation_amount";
      "xc.atmos.max_n_day_precipitation_amount"; "xc.atmos.tx_max"; "xc.atmos.tn_max";
      "xc.atmos.tx_min"; "xc.atmos.tn_min"; "xc.atmos.frost_days"; "xc.atmos.ice_days";
      "xc.atmos.tx_days_above"; "xc.atmos.tropical_nights"; "xc.atmos.tx10p";
      "xc.atmos.tx90p"; "xc.atmos.tn10p"; "xc.atmos.tn90p";
      "xc.atmos.cold_spell_duration_index" ]%string /\
  (exists ds path enc,
    last (history Symbolic.finished) = Some (EvWrite ds path "netcdf4" enc (Ok tt)) /\
    List.filter is_write (history Symbolic.finished) = [EvWrite ds path "netcdf4" enc (Ok tt)] /\
    Forall (returned Symbolic.lib) (history Symbolic.finished) /\
    length (indicator_results (history Symbolic.finished)) = 20%nat /\
    map da_name (indicator_results (history Symbolic.finished)) =
      expected_names (fun fn _ => fn) /\
    dom (data_vars ds) = list_to_set (expected_names (fun fn _ => fn)) /\
    size (data_vars ds) = 20%nat /\
    (forall r, In r (indicator_results (history Symbolic.finished)) ->
               data_vars ds !! da_name r = Some r) /\
    (forall k r, data_vars ds !! k = Some r ->
                 In r (indicator_results (history Symbolic.finished)) /\ da_name r = k)).
Proof.
  split; [exact symbolic_run_finished|].
  split; [exact symbolic_names_by|].
  split; [exact symbolic_names_distinct|].
  split; [reflexivity|].
  exact (output_variable_names Symbolic.user Symbolic.lib Symbolic.w0 Symbolic.finished
           (fun fn _ => fn) symbolic_run_finished symbolic_names_by symbolic_names_distinct).
Defined.

(** The loader call of the symbolic run. *)
Lemma glob_pattern_is_folder_and_suffix_witness :
  truthy (get_folder_path Symbolic.user "Select input folder") = true /\
  truthy (get_save_path Symbolic.user "Select output file") = true /\
  ((exists fldr res rest,
     get_folder_path Symbolic.user "Select input folder" = Some fldr /\ fldr <> "" /\
     history (run (do_generate_indices Symbolic.user Symbolic.lib) Symbolic.w0).1 =
       [ EvFolderDialog "Select input folder" (Some fldr);
         EvSaveDialog "Select output file" (get_save_path Symbolic.user "Select output file");
         EvOpen (fldr ++ "*.nc")%string "netcdf4" res ] ++ rest /\
     List.filter is_open rest = [] /\
     res = perform (w_filters Symbolic.w0)
             (xr_open_files Symbolic.lib
                (input_files Symbolic.lib (fldr ++ "*.nc")%string (w_fs Symbolic.w0)) "netcdf4") /\
     (forall path f,
        input_files Symbolic.lib (fldr ++ "*.nc")%string (w_fs Symbolic.w0) !! path = Some f ->
        w_fs Symbolic.w0 !! path = Some f /\
        length (components path) = length (components fldr))) /\
  (forall fldr path,
     glob_match (fnmatch Symbolic.lib) (fldr ++ "*.nc")%string path = true ->
     length (components path) = length (components fldr)) /\
  (forall fldr name,
     ends_with_sep fldr = false ->
     glob_match (fnmatch Symbolic.lib) (fldr ++ "*.nc")%string (child_path fldr name) = false) /\
  (forall fldr name (fs : gmap string File),
     ends_with_sep fldr = false ->
     input_files Symbolic.lib (fldr ++ "*.nc")%string fs !! child_path fldr name = None)).
Proof.
  split; [reflexivity|]. split; [reflexivity|].
  exact (glob_pattern_is_folder_and_suffix Symbolic.user Symbolic.lib Symbolic.w0
           eq_refl eq_refl).
Defined.

(** C8, as stated, fails for the folder path [/data/in/.]: it does not end
    in a separator, and the pattern [/data/in/.*.nc] made from it matches
    the hidden file [.hidden.nc] of the folder.  The run that is given this
    folder path loads the file and ends without exception; given
    [/data/in], the same run finds no file. *)
Lemma pattern_denotes_hidden_entries_counterexample :
  ends_with_sep "/data/in/." = false /\
  entry_of "/data/in/." "/data/in/.hidden.nc" = true /\
  glob_match (fnmatch Symbolic.lib_star) ("/data/in/." ++ "*.nc") "/data/in/.hidden.nc" = true /\
  input_files Symbolic.lib_star ("/data/in/." ++ "*.nc") (w_fs Symbolic.w_hidden)
    = w_fs Symbolic.w_hidden /\
  (run (do_generate_indices Symbolic.user_dot Symbolic.lib_star) Symbolic.w_hidden).2 = Ok tt /\
  (run (do_generate_indices Symbolic.user Symbolic.lib_star) Symbolic.w_hidden).2
    = Err Symbolic.no_files /\
  ~ (forall fnm fldr path,
       ends_with_sep fldr = false -> entry_of fldr path = true ->
       glob_match fnm (fldr ++ "*.nc") path = false).
Proof.
  split; [reflexivity|]. split; [vm_compute; reflexivity|].
  split; [vm_compute; reflexivity|]. split; [vm_compute; reflexivity|].
  split; [vm_compute; reflexivity|]. split; [vm_compute; reflexivity|].
  intros H.
  specialize (H (fnmatch Symbolic.lib_star) "/data/in/."%string "/data/in/.hidden.nc"%string
                eq_refl eq_refl).
  vm_compute in H. discriminate H.
Qed.
